(** * Bubble: multiplayer session and state synchronisation

    A shallow embedding of the networking core of the game
    (network/MessageTypes.ts, network/GameStateSync.ts,
    network/NetworkManager.ts, ui/LobbyUI.ts and the two revisions of
    MultiplayerGameManager.ts) together with the properties its
    specification states about it.

    [GameStateSync] follows network/GameStateSync.ts.  The sources hold a
    second copy of that class, which reads the same members of the
    simulation under other names ([posX], [posY], [life], [centerX], ...)
    and keeps the bubbles on the [GameManager] class; it serialises and
    applies players and arrows in the same way.  [GameManagerInstance]
    is network/GameStateSync.ts at work on an instance of class
    GameManager, where the bubbles are a static member and the level is
    [level].

    Conventions of the embedding:
    - a JavaScript number is an integer of [Z]; [v || d] on numbers is
      [num_or], which picks [d] exactly when [v] is the falsy number 0;
    - an object reached through an [any]-typed reference is a record of the
      fields the code reads and writes; an optional field ([score?],
      [player.arrow]) is an [option];
    - an array is a [list], indexed with stdpp's lookup [!!] and updated in
      place with [alter];
    - a string is the sequence of its characters where these are ASCII; a
      character outside ASCII stands as the bytes of its UTF-8 encoding;
    - a method that mutates [this] is a function from the old state to the
      new one, paired with the trace of calls it makes on its collaborators
      (the transport, the console, a callback). *)

From stdpp Require Import base list.
From Stdlib Require Import ZArith String Ascii QArith Qround Lia.
From Stdlib Require DecimalString DecimalZ.

Local Set Warnings "-register-all".

Open Scope Z_scope.
Open Scope string_scope.
Open Scope list_scope.

(* ================================================================= *)
(** ** JavaScript values, as far as a received payload needs them *)

Module Js.

(** What the transport can hand to the [data] handler. *)
Inductive value : Type :=
| JUndefined
| JNull
| JBool (b : bool)
| JNum (n : Z)
| JStr (s : string)
| JArr (elems : list value)
| JObj (props : list (string * value)).

(** An evaluation either yields a value or raises. *)
Inductive completion (A : Type) : Type :=
| Normal (a : A)
| Throw.
Arguments Normal {A} a.
Arguments Throw {A}.

Definition bind {A B : Type} (c : completion A) (k : A -> completion B)
  : completion B :=
  match c with
  | Normal a => k a
  | Throw => Throw
  end.

(** ToBoolean. *)
Definition truthy (v : value) : bool :=
  match v with
  | JUndefined | JNull => false
  | JBool b => b
  | JNum n => negb (n =? 0)%Z
  | JStr s => negb (String.eqb s "")
  | JArr _ | JObj _ => true
  end.

(** The [typeof] operator. *)
Definition typeof (v : value) : string :=
  match v with
  | JUndefined => "undefined"
  | JNull => "object"
  | JBool _ => "boolean"
  | JNum _ => "number"
  | JStr _ => "string"
  | JArr _ | JObj _ => "object"
  end.

(** The value of property [k] in the property list of an object.  An
    object holds each key once; a list that names a key twice is read
    at the first place. *)
Fixpoint lookup_prop (k : string) (props : list (string * value)) : value :=
  match props with
  | [] => JUndefined
  | (k', v) :: rest => if String.eqb k k' then v else lookup_prop k rest
  end.

(** Property read [v.k].  Reading a property of [undefined] or [null]
    raises a TypeError; the keys read by the code below ([type],
    [timestamp], [data], [left], ...) are not built-in properties of
    primitives or arrays, so those reads give [undefined]. *)
Definition get (v : value) (k : string) : completion value :=
  match v with
  | JUndefined | JNull => Throw
  | JObj props => Normal (lookup_prop k props)
  | JBool _ | JNum _ | JStr _ | JArr _ => Normal JUndefined
  end.

(** [v === s] for a string literal [s]. *)
Definition strict_eq_str (v : value) (s : string) : bool :=
  match v with
  | JStr s' => String.eqb s' s
  | _ => false
  end.

(** [values.includes(v)] for an array of strings. *)
Definition includes (values : list string) (v : value) : bool :=
  existsb (strict_eq_str v) values.

(** [v || d] on numbers. *)
Definition num_or (v d : Z) : Z := if (v =? 0)%Z then d else v.

End Js.

Notation "'let*' x ':=' c 'in' k" := (Js.bind c (fun x => k))
  (at level 10, x name, c at level 100, k at level 200).

(* ================================================================= *)
(** ** network/MessageTypes.ts *)

Module MessageType.
Definition INPUT := "INPUT".
Definition STATE_UPDATE := "STATE_UPDATE".
Definition SYNC := "SYNC".
Definition GAME_OVER := "GAME_OVER".
Definition PLAYER_READY := "PLAYER_READY".
Definition START_GAME := "START_GAME".

(** [Object.values(MessageType)] *)
Definition values : list string :=
  [INPUT; STATE_UPDATE; SYNC; GAME_OVER; PLAYER_READY; START_GAME].
End MessageType.

Module InputState.
Record t : Type := mk { left : bool; right : bool; shoot : bool }.
End InputState.

Module PlayerState.
Record t : Type := mk { x : Z; y : Z; score : Z; lives : Z }.
End PlayerState.

Module BubbleState.
Record t : Type := mk { x : Z; y : Z; radius : Z; dx : Z; dy : Z }.
End BubbleState.

Module ArrowState.
Record t : Type := mk { x : Z; y : Z; isActive : bool }.
End ArrowState.

(** [GameState].  The interface declares both player records, but
    [applyGameState] tests each for presence before using it and a
    snapshot can arrive without one, so they are optional here. *)
Module GameState.
Record t : Type := mk {
  player1 : option PlayerState.t;
  player2 : option PlayerState.t;
  bubbles : list BubbleState.t;
  arrows : list ArrowState.t;
  score : Z;
  timeRemaining : Z;
  level : Z
}.
End GameState.

(** The tagged union [NetworkMessage]. *)
Inductive NetworkMessage : Type :=
| InputMessage (data : InputState.t) (timestamp : Z)
| StateUpdateMessage (data : GameState.t) (timestamp : Z)
| SyncMessage (timestamp : Z)
| GameOverMessage (won : bool) (finalScore : Z) (timestamp : Z)
| PlayerReadyMessage (playerName : string) (timestamp : Z)
| StartGameMessage (timestamp : Z).

Definition message_type (m : NetworkMessage) : string :=
  match m with
  | InputMessage _ _ => MessageType.INPUT
  | StateUpdateMessage _ _ => MessageType.STATE_UPDATE
  | SyncMessage _ => MessageType.SYNC
  | GameOverMessage _ _ _ => MessageType.GAME_OVER
  | PlayerReadyMessage _ _ => MessageType.PLAYER_READY
  | StartGameMessage _ => MessageType.START_GAME
  end.

(** The object each variant is on the wire, field by field as its
    interface declares it. *)
Module Wire.
Import Js.

Definition of_input (i : InputState.t) : value :=
  JObj [("left", JBool (InputState.left i));
        ("right", JBool (InputState.right i));
        ("shoot", JBool (InputState.shoot i))].

Definition of_player (p : PlayerState.t) : value :=
  JObj [("x", JNum (PlayerState.x p)); ("y", JNum (PlayerState.y p));
        ("score", JNum (PlayerState.score p));
        ("lives", JNum (PlayerState.lives p))].

Definition of_bubble (b : BubbleState.t) : value :=
  JObj [("x", JNum (BubbleState.x b)); ("y", JNum (BubbleState.y b));
        ("radius", JNum (BubbleState.radius b));
        ("dx", JNum (BubbleState.dx b)); ("dy", JNum (BubbleState.dy b))].

Definition of_arrow (a : ArrowState.t) : value :=
  JObj [("x", JNum (ArrowState.x a)); ("y", JNum (ArrowState.y a));
        ("isActive", JBool (ArrowState.isActive a))].

Definition of_optional {A : Type} (f : A -> value) (o : option A) : value :=
  match o with
  | Some a => f a
  | None => JUndefined
  end.

Definition of_state (s : GameState.t) : value :=
  JObj [("player1", of_optional of_player (GameState.player1 s));
        ("player2", of_optional of_player (GameState.player2 s));
        ("bubbles", JArr (map of_bubble (GameState.bubbles s)));
        ("arrows", JArr (map of_arrow (GameState.arrows s)));
        ("score", JNum (GameState.score s));
        ("timeRemaining", JNum (GameState.timeRemaining s));
        ("level", JNum (GameState.level s))].

Definition of_message (m : NetworkMessage) : value :=
  match m with
  | InputMessage d ts =>
      JObj [("type", JStr MessageType.INPUT); ("data", of_input d);
            ("timestamp", JNum ts)]
  | StateUpdateMessage d ts =>
      JObj [("type", JStr MessageType.STATE_UPDATE); ("data", of_state d);
            ("timestamp", JNum ts)]
  | SyncMessage ts =>
      JObj [("type", JStr MessageType.SYNC); ("timestamp", JNum ts)]
  | GameOverMessage w f ts =>
      JObj [("type", JStr MessageType.GAME_OVER); ("won", JBool w);
            ("finalScore", JNum f); ("timestamp", JNum ts)]
  | PlayerReadyMessage n ts =>
      JObj [("type", JStr MessageType.PLAYER_READY);
            ("playerName", JStr n); ("timestamp", JNum ts)]
  | StartGameMessage ts =>
      JObj [("type", JStr MessageType.START_GAME); ("timestamp", JNum ts)]
  end.
End Wire.

Module Validation.
Import Js.

Definition is_typeof (v : value) (t : string) : bool :=
  String.eqb (typeof v) t.

(** [validateMessage(msg)].  The result is the value of the returned
    expression, which for [INPUT] and [STATE_UPDATE] can be the falsy
    [msg.data] itself. *)
Definition validateMessage (msg : value) : completion value :=
  if negb (truthy msg) || negb (is_typeof msg "object")
  then Normal (JBool false) else
  let* ty := get msg "type" in
  if negb (truthy ty) || negb (includes MessageType.values ty)
  then Normal (JBool false) else
  let* ts := get msg "timestamp" in
  if negb (is_typeof ts "number") then Normal (JBool false) else
  if strict_eq_str ty MessageType.INPUT then
    let* data := get msg "data" in
    if negb (truthy data) then Normal data else
    let* l := get data "left" in
    if negb (is_typeof l "boolean") then Normal (JBool false) else
    let* r := get data "right" in
    if negb (is_typeof r "boolean") then Normal (JBool false) else
    let* s := get data "shoot" in
    Normal (JBool (is_typeof s "boolean"))
  else if strict_eq_str ty MessageType.STATE_UPDATE then
    let* data := get msg "data" in
    if negb (truthy data) then Normal data else
    Normal (JBool (is_typeof data "object"))
  else if strict_eq_str ty MessageType.SYNC then
    Normal (JBool true)
  else if strict_eq_str ty MessageType.GAME_OVER then
    let* w := get msg "won" in
    if negb (is_typeof w "boolean") then Normal (JBool false) else
    let* f := get msg "finalScore" in
    Normal (JBool (is_typeof f "number"))
  else if strict_eq_str ty MessageType.PLAYER_READY then
    let* n := get msg "playerName" in
    Normal (JBool (is_typeof n "string"))
  else if strict_eq_str ty MessageType.START_GAME then
    Normal (JBool true)
  else Normal (JBool false).

(** How the caller reads the result: [if (validateMessage(message))]. *)
Definition accepts (msg : value) : bool :=
  match validateMessage msg with
  | Normal r => truthy r
  | Throw => false
  end.

(** A field of a payload, for stating what a payload lacks:
    [undefined] where there is nothing to read. *)
Definition field (v : value) (k : string) : value :=
  match v with
  | JObj props => lookup_prop k props
  | _ => JUndefined
  end.

Definition is_object (v : value) : bool :=
  match v with
  | JArr _ | JObj _ => true
  | _ => false
  end.

(** The per-variant requirements, in the specification's words: three
    boolean fields for INPUT, an object payload for STATE_UPDATE, a boolean
    [won] and numeric [finalScore] for GAME_OVER, a string [playerName]
    for PLAYER_READY, nothing more for SYNC and START_GAME. *)
Definition required_fields_ok (v : value) (ty : string) : bool :=
  if String.eqb ty MessageType.INPUT then
    is_typeof (field (field v "data") "left") "boolean"
    && is_typeof (field (field v "data") "right") "boolean"
    && is_typeof (field (field v "data") "shoot") "boolean"
  else if String.eqb ty MessageType.STATE_UPDATE then
    is_object (field v "data")
  else if String.eqb ty MessageType.GAME_OVER then
    is_typeof (field v "won") "boolean"
    && is_typeof (field v "finalScore") "number"
  else if String.eqb ty MessageType.PLAYER_READY then
    is_typeof (field v "playerName") "string"
  else true.

(** A recognised-type tagged object with a numeric timestamp and the
    fields its type requires. *)
Definition well_formed (v : value) : bool :=
  is_object v
  && match field v "type" with
     | JStr ty =>
         existsb (String.eqb ty) MessageType.values
         && is_typeof (field v "timestamp") "number"
         && required_fields_ok v ty
     | _ => false
     end.

End Validation.

(* ================================================================= *)
(** ** The simulation, as the synchronisation code sees it *)

(** [Movement] of utils/enum, with the members the code assigns. *)
Inductive Movement : Type := LEFT | RIGHT | STATIONARY.

Module Arrow.
Record t : Type := mk { x : Z; y : Z; isActive : bool; isHittable : bool }.

Definition set_isActive (b : bool) (a : t) : t := mk (x a) (y a) b (isHittable a).
Definition set_isHittable (b : bool) (a : t) : t := mk (x a) (y a) (isActive a) b.
End Arrow.

(** A player under the member names that network/GameStateSync.ts reads
    and writes ([x], [y], [score], [lives], [arrow]) and that the
    orchestrator assigns ([movement], [tempMovement]).  GameManager.ts
    reads a player's position and lives as [posX], [posY] and [life],
    the names the later copy of the synchroniser uses. *)
Module Player.
Record t : Type := mk {
  x : Z;
  y : Z;
  score : Z;
  lives : Z;
  arrow : option Arrow.t;
  movement : Movement;
  tempMovement : Movement
}.

Definition set_arrow (a : option Arrow.t) (p : t) : t :=
  mk (x p) (y p) (score p) (lives p) a (movement p) (tempMovement p).
Definition set_movement (m : Movement) (p : t) : t :=
  mk (x p) (y p) (score p) (lives p) (arrow p) m (tempMovement p).
Definition set_tempMovement (m : Movement) (p : t) : t :=
  mk (x p) (y p) (score p) (lives p) (arrow p) (movement p) m.

(** [player.arrow && player.arrow.isActive], [player.arrow?.isActive] *)
Definition arrowActive (p : t) : bool :=
  match arrow p with
  | Some a => Arrow.isActive a
  | None => false
  end.
End Player.

Module Bubble.
Record t : Type := mk { x : Z; y : Z; radius : Z; dx : Z; dy : Z }.
End Bubble.

Module Score.
Record t : Type := mk { score : Z }.
End Score.

(** The game manager as network/GameStateSync.ts addresses it through its
    [any]-typed parameter: the properties that file reads and writes, by
    name.  The instance of the class that the orchestrator passes is
    [GameManagerInstance] below. *)
Module GameManager.
Record t : Type := mk {
  players : list Player.t;
  bubbleArray : list Bubble.t;
  score : option Score.t;
  timeRemaining : Z;
  currentLevel : Z
}.

Definition set_players (ps : list Player.t) (g : t) : t :=
  mk ps (bubbleArray g) (score g) (timeRemaining g) (currentLevel g).
Definition set_bubbleArray (bs : list Bubble.t) (g : t) : t :=
  mk (players g) bs (score g) (timeRemaining g) (currentLevel g).
Definition set_score (s : option Score.t) (g : t) : t :=
  mk (players g) (bubbleArray g) s (timeRemaining g) (currentLevel g).
Definition set_timeRemaining (n : Z) (g : t) : t :=
  mk (players g) (bubbleArray g) (score g) n (currentLevel g).
Definition set_currentLevel (n : Z) (g : t) : t :=
  mk (players g) (bubbleArray g) (score g) (timeRemaining g) n.
End GameManager.

(* ================================================================= *)
(** ** network/GameStateSync.ts *)

Module GameStateSync.
Import Js.

Definition serializePlayer (player : option Player.t) : PlayerState.t :=
  match player with
  | None => PlayerState.mk 0 0 0 0
  | Some p =>
      PlayerState.mk (num_or (Player.x p) 0) (num_or (Player.y p) 0)
                     (num_or (Player.score p) 0) (num_or (Player.lives p) 3)
  end.

Definition serializeBubbles (bubbles : list Bubble.t) : list BubbleState.t :=
  map (fun bubble =>
         BubbleState.mk (num_or (Bubble.x bubble) 0) (num_or (Bubble.y bubble) 0)
                        (num_or (Bubble.radius bubble) 0)
                        (num_or (Bubble.dx bubble) 0) (num_or (Bubble.dy bubble) 0))
      bubbles.

(** One [forEach] step of [serializeArrows]: an active arrow is pushed,
    without the index of the player it belongs to. *)
Definition pushArrow (arrows : list ArrowState.t) (player : Player.t)
  : list ArrowState.t :=
  match Player.arrow player with
  | Some a =>
      if Arrow.isActive a
      then arrows ++ [ArrowState.mk (num_or (Arrow.x a) 0) (num_or (Arrow.y a) 0) true]
      else arrows
  | None => arrows
  end.

Definition serializeArrows (gameManager : GameManager.t) : list ArrowState.t :=
  foldl pushArrow [] (GameManager.players gameManager).

Definition serializeGameState (gameManager : GameManager.t) : GameState.t :=
  let players := GameManager.players gameManager in
  GameState.mk
    (Some (serializePlayer (players !! 0%nat)))
    (Some (serializePlayer (players !! 1%nat)))
    (serializeBubbles (GameManager.bubbleArray gameManager))
    (serializeArrows gameManager)
    (match GameManager.score gameManager with
     | Some s => num_or (Score.score s) 0
     | None => 0
     end)
    (num_or (GameManager.timeRemaining gameManager) 0)
    (num_or (GameManager.currentLevel gameManager) 1).

Definition applyPlayerState (state : PlayerState.t) (player : Player.t) : Player.t :=
  Player.mk (PlayerState.x state) (PlayerState.y state)
            (PlayerState.score state) (PlayerState.lives state)
            (Player.arrow player) (Player.movement player)
            (Player.tempMovement player).

(** [if (players[i] && state.playerN) applyPlayerState(players[i], state.playerN)] *)
Definition applyPlayerAt (i : nat) (state : option PlayerState.t)
    (players : list Player.t) : list Player.t :=
  match players !! i, state with
  | Some _, Some st => alter (applyPlayerState st) i players
  | _, _ => players
  end.

Definition applyBubbles (bubbles : list BubbleState.t) (gameManager : GameManager.t)
  : GameManager.t :=
  GameManager.set_bubbleArray
    (foldl (fun arr bubbleState =>
              arr ++ [Bubble.mk (BubbleState.x bubbleState) (BubbleState.y bubbleState)
                                (BubbleState.radius bubbleState)
                                (BubbleState.dx bubbleState) (BubbleState.dy bubbleState)])
           [] bubbles)
    gameManager.

(** [if (player.arrow) player.arrow.isActive = false] *)
Definition resetArrow (player : Player.t) : Player.t :=
  match Player.arrow player with
  | Some a => Player.set_arrow (Some (Arrow.set_isActive false a)) player
  | None => player
  end.

(** The assignment of one snapshot arrow onto a player's arrow. *)
Definition placeArrow (arrowState : ArrowState.t) (player : Player.t) : Player.t :=
  match Player.arrow player with
  | Some a =>
      Player.set_arrow
        (Some (Arrow.mk (ArrowState.x arrowState) (ArrowState.y arrowState)
                        (ArrowState.isActive arrowState) (Arrow.isHittable a)))
        player
  | None => player
  end.

(** One step of [arrows.forEach((arrowState, index) => ...)]. *)
Definition applyArrowAt (players : list Player.t) (entry : nat * ArrowState.t)
  : list Player.t :=
  let '(index, arrowState) := entry in
  if (index <? List.length players)%nat
  then alter (placeArrow arrowState) index players
  else players.

Definition applyArrows (arrows : list ArrowState.t) (gameManager : GameManager.t)
  : GameManager.t :=
  let players := map resetArrow (GameManager.players gameManager) in
  GameManager.set_players (foldl applyArrowAt players (imap pair arrows)) gameManager.

Definition applyGameState (gameManager : GameManager.t) (state : GameState.t)
  : GameManager.t :=
  let g1 := GameManager.set_players
              (applyPlayerAt 0 (GameState.player1 state)
                             (GameManager.players gameManager)) gameManager in
  let g2 := GameManager.set_players
              (applyPlayerAt 1 (GameState.player2 state)
                             (GameManager.players g1)) g1 in
  let g3 := applyBubbles (GameState.bubbles state) g2 in
  let g4 := applyArrows (GameState.arrows state) g3 in
  let g5 := match GameManager.score g4 with
            | Some _ => GameManager.set_score (Some (Score.mk (GameState.score state))) g4
            | None => g4
            end in
  let g6 := GameManager.set_timeRemaining (GameState.timeRemaining state) g5 in
  GameManager.set_currentLevel (GameState.level state) g6.

(** [Partial<GameState>] as [createDelta] fills it. *)
Record Delta : Type := mkDelta {
  d_player1 : option PlayerState.t;
  d_player2 : option PlayerState.t;
  d_bubbles : list BubbleState.t;
  d_arrows : list ArrowState.t;
  d_score : option Z;
  d_timeRemaining : option Z;
  d_level : option Z
}.

(** The text of a number: its decimal digits, after a minus sign where
    the number is negative. *)
Definition numberToString (n : Z) : string :=
  DecimalString.NilEmpty.string_of_int (Z.to_int n).

(** The double quote. *)
Definition quote : ascii := ascii_of_nat 34.

(** One member of an object in JSON text, followed by [rest]. *)
Definition member (key : string) (v : Z) (rest : string) : string :=
  String quote
    (String.append key
       (String quote (String ":" (String.append (numberToString v) rest)))).

(** [JSON.stringify] of a player record: the text of the object as
    [serializePlayer] builds it, with its four keys in the order of that
    literal; [undefined] for a record that is not there. *)
Definition stringify (p : option PlayerState.t) : option string :=
  match p with
  | Some p =>
      Some (String "{"
              (member "x" (PlayerState.x p)
                 (String ","
                    (member "y" (PlayerState.y p)
                       (String ","
                          (member "score" (PlayerState.score p)
                             (String ","
                                (member "lives" (PlayerState.lives p) "}"))))))))
  | None => None
  end.

(** [JSON.stringify(a) !== JSON.stringify(b)]: two texts that differ, or
    one text and [undefined]. *)
Definition stringify_differs (a b : option PlayerState.t) : bool :=
  match stringify a, stringify b with
  | Some s, Some t => negb (String.eqb s t)
  | None, None => false
  | _, _ => true
  end.

Definition createDelta (oldState newState : GameState.t) : Delta :=
  mkDelta
    (if stringify_differs (GameState.player1 oldState) (GameState.player1 newState)
     then GameState.player1 newState else None)
    (if stringify_differs (GameState.player2 oldState) (GameState.player2 newState)
     then GameState.player2 newState else None)
    (GameState.bubbles newState)
    (GameState.arrows newState)
    (if (GameState.score oldState =? GameState.score newState)%Z
     then None else Some (GameState.score newState))
    (if (GameState.timeRemaining oldState =? GameState.timeRemaining newState)%Z
     then None else Some (GameState.timeRemaining newState))
    (if (GameState.level oldState =? GameState.level newState)%Z
     then None else Some (GameState.level newState)).

(** What an observer reads of a seat: position, score, lives and whether
    its projectile is in flight. *)
Definition seatView (p : Player.t) : Z * Z * Z * Z * bool :=
  (Player.x p, Player.y p, Player.score p, Player.lives p, Player.arrowActive p).

(** [gameManager.score?.score] *)
Definition aggregateScore (gameManager : GameManager.t) : option Z :=
  Score.score <$> GameManager.score gameManager.

(** The object [applyBubbles] builds from one snapshot entry. *)
Definition bubbleOf (b : BubbleState.t) : Bubble.t :=
  Bubble.mk (BubbleState.x b) (BubbleState.y b) (BubbleState.radius b)
            (BubbleState.dx b) (BubbleState.dy b).

(** The snapshot arrow at position [j], if there is one, put on the
    player at seat [j]. *)
Definition arrowOnto (arrows : list ArrowState.t) (j : nat) (p : Player.t) : Player.t :=
  match arrows !! j with
  | Some a => placeArrow a p
  | None => p
  end.

(** The projectile flag the snapshot gives seat [j]. *)
Definition snapshotActive (arrows : list ArrowState.t) (j : nat) : bool :=
  match arrows !! j with
  | Some a => ArrowState.isActive a
  | None => false
  end.

(** The player record a snapshot carries for seat [j]: [player1] for
    seat 0, [player2] for seat 1, none for any further seat. *)
Definition seatPlayerState (state : GameState.t) (j : nat) : option PlayerState.t :=
  match j with
  | 0%nat => GameState.player1 state
  | 1%nat => GameState.player2 state
  | _ => None
  end.

(** Everything [applyGameState] does to the player at seat [j]. *)
Definition seatUpdate (state : GameState.t) (j : nat) (p : Player.t) : Player.t :=
  arrowOnto (GameState.arrows state) j
    (resetArrow match seatPlayerState state j with
                | Some st => applyPlayerState st p
                | None => p
                end).

(** The arrow of a player, if it is in flight. *)
Definition flying (p : Player.t) : option Arrow.t :=
  match Player.arrow p with
  | Some a => if Arrow.isActive a then Some a else None
  | None => None
  end.

(** The snapshot entry [serializeArrows] builds from an arrow. *)
Definition arrowStateOf (a : Arrow.t) : ArrowState.t :=
  ArrowState.mk (num_or (Arrow.x a) 0) (num_or (Arrow.y a) 0) true.

End GameStateSync.

(* ================================================================= *)
(** ** The synchroniser on an instance of class GameManager *)

(** [serializeGameState] and [applyGameState] take their game manager as
    [any] and address it by property name; [GameManager.t] above is the
    object under the names they use.  The orchestrator hands them an
    instance of class GameManager (GameManager.ts).  The class declares
    [players], [score], [timeRemaining] and [level], and keeps the
    bubbles in the static member [GameManager.bubbleArray], which is a
    property of the class and not of its instances.  It declares neither
    a [currentLevel] nor an instance [bubbleArray]: an instance has these
    two properties only once something has assigned them, and the game
    reads neither.

    A number member reads [None] where it is [undefined]. *)
Module GameManagerInstance.
Import Js GameStateSync.

Record t : Type := mk {
  players : list Player.t;
  (* [score?: Score], by the [score] member of the object *)
  score : option (option Z);
  timeRemaining : option Z;
  level : Z;
  (* the static member of the class *)
  GameManager_bubbleArray : list Bubble.t;
  (* the two properties the class does not declare *)
  bubbleArray : option (list Bubble.t);
  currentLevel : option Z
}.

(** [v || d] where [v] may be [undefined]. *)
Definition num_or_undefined (v : option Z) (d : Z) : Z :=
  match v with
  | Some n => num_or n d
  | None => d
  end.

Definition serializeGameState (gameManager : t) : GameState.t :=
  let players := players gameManager in
  GameState.mk
    (Some (serializePlayer (players !! 0%nat)))
    (Some (serializePlayer (players !! 1%nat)))
    (serializeBubbles (default [] (bubbleArray gameManager)))
    (foldl pushArrow [] players)
    (match score gameManager with
     | Some v => num_or_undefined v 0
     | None => 0
     end)
    (num_or_undefined (timeRemaining gameManager) 0)
    (num_or_undefined (currentLevel gameManager) 1).

(** A whole snapshot as the [Partial<GameState>] with every member set. *)
Definition whole (state : GameState.t) : Delta :=
  mkDelta (GameState.player1 state) (GameState.player2 state)
          (GameState.bubbles state) (GameState.arrows state)
          (Some (GameState.score state)) (Some (GameState.timeRemaining state))
          (Some (GameState.level state)).

(** [applyGameState] on an instance.  [state] is [message.data] as it was
    received: a member it lacks is read, and written, as [undefined].
    The bubble list goes to [gameManager.bubbleArray] and the level to
    [gameManager.currentLevel]; nothing is assigned to the static
    [GameManager.bubbleArray] or to [level]. *)
Definition applyGameState (gameManager : t) (state : Delta) : t :=
  let players0 := players gameManager in
  let players1 := applyPlayerAt 0 (d_player1 state) players0 in
  let players2 := applyPlayerAt 1 (d_player2 state) players1 in
  (* applyBubbles *)
  let bubbleArray' :=
    foldl (fun arr bubbleState =>
             arr ++ [Bubble.mk (BubbleState.x bubbleState) (BubbleState.y bubbleState)
                               (BubbleState.radius bubbleState)
                               (BubbleState.dx bubbleState) (BubbleState.dy bubbleState)])
          [] (d_bubbles state) in
  (* applyArrows *)
  let players3 :=
    foldl applyArrowAt (map resetArrow players2) (imap pair (d_arrows state)) in
  mk players3
     (match score gameManager with
      | Some _ => Some (d_score state)
      | None => None
      end)
     (d_timeRemaining state)
     (level gameManager)
     (GameManager_bubbleArray gameManager)
     (Some bubbleArray')
     (d_level state).

(** The instance under the property names the synchroniser uses: what
    [GameManager.t] holds of it.  A member that is [undefined] is read
    there as 0 or as the empty list, which [|| d] does not tell apart. *)
Definition named (gameManager : t) : GameManager.t :=
  GameManager.mk (players gameManager)
                 (default [] (bubbleArray gameManager))
                 ((fun v => Score.mk (default 0 v)) <$> score gameManager)
                 (default 0 (timeRemaining gameManager))
                 (default 0 (currentLevel gameManager)).

End GameManagerInstance.

(* ================================================================= *)
(** ** network/NetworkManager.ts *)

Module NetworkManager.

Inductive ConnectionStatus : Type := disconnected | connecting | connected | error.

(** The transport's data channel: [open] is the property the transport
    maintains and the manager only reads. *)
Module DataConnection.
Record t : Type := mk { open : bool }.
End DataConnection.

(** A peer object, remembered by the identifier it was created under
    ([None] when the transport picks one). *)
Module Peer.
Record t : Type := mk { id : option string }.
End Peer.

(** Calls the manager makes on its collaborators, in order.
    [console.log] lines are not traced. *)
Inductive effect : Type :=
| ConsoleWarn (text : string)
| ConsoleError (text : string)
| NewPeer (id : option string)
| PeerConnect (target : string)
| PeerDestroy
| ConnectionClose
| ConnectionSend (message : NetworkMessage)
| SetInterval
| ClearInterval
| OnStatusChange (status : ConnectionStatus)
| OnRoomCreated (roomCode : string)
| OnConnectionEstablished
| OnMessage (message : Js.value).

Record t : Type := mk {
  peer : option Peer.t;
  connection : option DataConnection.t;
  isHost : bool;
  roomCode : string;
  status : ConnectionStatus;
  latency : Z;
  lastPingTime : Z;
  pingIntervalId : option Z;
  (* whether each callback has been assigned *)
  onMessageCallback : bool;
  onStatusChangeCallback : bool;
  onRoomCreatedCallback : bool;
  onConnectionEstablishedCallback : bool
}.

(** The field initialisers of the class. *)
Definition init : t :=
  mk None None false "" disconnected 0 0 None false false false false.

Definition set_peer (p : option Peer.t) (n : t) : t :=
  mk p (connection n) (isHost n) (roomCode n) (status n) (latency n)
     (lastPingTime n) (pingIntervalId n) (onMessageCallback n)
     (onStatusChangeCallback n) (onRoomCreatedCallback n)
     (onConnectionEstablishedCallback n).
Definition set_connection (c : option DataConnection.t) (n : t) : t :=
  mk (peer n) c (isHost n) (roomCode n) (status n) (latency n)
     (lastPingTime n) (pingIntervalId n) (onMessageCallback n)
     (onStatusChangeCallback n) (onRoomCreatedCallback n)
     (onConnectionEstablishedCallback n).
Definition set_isHost (b : bool) (n : t) : t :=
  mk (peer n) (connection n) b (roomCode n) (status n) (latency n)
     (lastPingTime n) (pingIntervalId n) (onMessageCallback n)
     (onStatusChangeCallback n) (onRoomCreatedCallback n)
     (onConnectionEstablishedCallback n).
Definition set_roomCode (c : string) (n : t) : t :=
  mk (peer n) (connection n) (isHost n) c (status n) (latency n)
     (lastPingTime n) (pingIntervalId n) (onMessageCallback n)
     (onStatusChangeCallback n) (onRoomCreatedCallback n)
     (onConnectionEstablishedCallback n).
Definition set_status (s : ConnectionStatus) (n : t) : t :=
  mk (peer n) (connection n) (isHost n) (roomCode n) s (latency n)
     (lastPingTime n) (pingIntervalId n) (onMessageCallback n)
     (onStatusChangeCallback n) (onRoomCreatedCallback n)
     (onConnectionEstablishedCallback n).
Definition set_lastPingTime (z : Z) (n : t) : t :=
  mk (peer n) (connection n) (isHost n) (roomCode n) (status n) (latency n)
     z (pingIntervalId n) (onMessageCallback n)
     (onStatusChangeCallback n) (onRoomCreatedCallback n)
     (onConnectionEstablishedCallback n).
Definition set_pingIntervalId (i : option Z) (n : t) : t :=
  mk (peer n) (connection n) (isHost n) (roomCode n) (status n) (latency n)
     (lastPingTime n) i (onMessageCallback n)
     (onStatusChangeCallback n) (onRoomCreatedCallback n)
     (onConnectionEstablishedCallback n).
Definition set_callbacks (m s r e : bool) (n : t) : t :=
  mk (peer n) (connection n) (isHost n) (roomCode n) (status n) (latency n)
     (lastPingTime n) (pingIntervalId n) m s r e.

Definition getStatus (n : t) : ConnectionStatus := status n.
Definition getLatency (n : t) : Z := latency n.
Definition getRoomCode (n : t) : string := roomCode n.
Definition isHostPlayer (n : t) : bool := isHost n.

Definition setOnMessage (n : t) : t :=
  set_callbacks true (onStatusChangeCallback n) (onRoomCreatedCallback n)
                (onConnectionEstablishedCallback n) n.
Definition setOnStatusChange (n : t) : t :=
  set_callbacks (onMessageCallback n) true (onRoomCreatedCallback n)
                (onConnectionEstablishedCallback n) n.
Definition setOnRoomCreated (n : t) : t :=
  set_callbacks (onMessageCallback n) (onStatusChangeCallback n) true
                (onConnectionEstablishedCallback n) n.
Definition setOnConnectionEstablished (n : t) : t :=
  set_callbacks (onMessageCallback n) (onStatusChangeCallback n)
                (onRoomCreatedCallback n) true n.

Definition updateStatus (newStatus : ConnectionStatus) (n : t) : t * list effect :=
  (set_status newStatus n,
   if onStatusChangeCallback n then [OnStatusChange newStatus] else []).

(** [connection && connection.open] *)
Definition channelOpen (n : t) : bool :=
  match connection n with
  | Some c => DataConnection.open c
  | None => false
  end.

Definition status_eqb (a b : ConnectionStatus) : bool :=
  match a, b with
  | disconnected, disconnected | connecting, connecting
  | connected, connected | error, error => true
  | _, _ => false
  end.

Definition isConnected (n : t) : bool :=
  status_eqb (status n) connected && channelOpen n.

(* ----------------------------------------------------------------- *)
(** *** Room codes *)

Definition chars : string := "ABCDEFGHIJKLMNOPQRSTUVWXYZ0123456789".

(** [s.charAt(i)]: the empty string outside the string. *)
Definition charAt (s : string) (i : Z) : string :=
  if (i <? 0)%Z then ""
  else match String.get (Z.to_nat i) s with
       | Some c => String c EmptyString
       | None => ""
       end.

(** [generateRoomCode()], given the value [random i] that the [i]-th
    evaluation of [Math.random()] returns.  The product with the length
    of [chars] is exact here; the code rounds it to a double, which at
    isolated values of [random i] reaches the next whole number and so
    picks the next character: the code's string is then the one that
    this definition gives for a slightly larger draw. *)
Definition generateRoomCode (random : nat -> Q) : string :=
  foldl (fun code i =>
           String.append code
             (charAt chars
                (Qfloor (random i * inject_Z (Z.of_nat (String.length chars))))))
        "" (seq 0 6).

Definition is_lower (c : ascii) : bool :=
  (97 <=? nat_of_ascii c)%nat && (nat_of_ascii c <=? 122)%nat.
Definition is_upper (c : ascii) : bool :=
  (65 <=? nat_of_ascii c)%nat && (nat_of_ascii c <=? 90)%nat.
Definition is_digit (c : ascii) : bool :=
  (48 <=? nat_of_ascii c)%nat && (nat_of_ascii c <=? 57)%nat.

(** Membership in [A-Z0-9]. *)
Definition is_upper_alnum (c : ascii) : bool := is_upper c || is_digit c.

Definition upcase (c : ascii) : ascii :=
  if is_lower c then ascii_of_nat (nat_of_ascii c - 32) else c.
Definition downcase (c : ascii) : ascii :=
  if is_upper c then ascii_of_nat (nat_of_ascii c + 32) else c.

Fixpoint string_map (f : ascii -> ascii) (s : string) : string :=
  match s with
  | EmptyString => EmptyString
  | String c rest => String (f c) (string_map f rest)
  end.

(** [s.toUpperCase()] and [s.toLowerCase()].  A string is the sequence of
    its characters where these are ASCII, as in room codes and key names;
    a character outside ASCII stands as the bytes of its UTF-8 encoding,
    all of them 128 or more, which the two maps leave alone.  So the maps
    are those of JavaScript on ASCII strings and on characters that have
    no other case, such as U+0138; on other letters (U+00E9, U+00DF) they
    are not, and nothing is stated about these. *)
Definition toUpperCase (s : string) : string := string_map upcase s.
Definition toLowerCase (s : string) : string := string_map downcase s.

Fixpoint string_forallb (f : ascii -> bool) (s : string) : bool :=
  match s with
  | EmptyString => true
  | String c rest => f c && string_forallb f rest
  end.

Definition is_ascii (c : ascii) : bool := (nat_of_ascii c <? 128)%nat.

(** U+0138, LATIN SMALL LETTER KRA: a lowercase letter that has no
    uppercase form, so that [toUpperCase] returns it as it is.  Its
    UTF-8 encoding is the two bytes C4 B8. *)
Definition kra : string :=
  String (ascii_of_nat 196) (String (ascii_of_nat 184) EmptyString).

(** Whether [s] holds a lowercase letter of ASCII or U+0138.  On an ASCII
    string this is whether it holds a lowercase letter at all. *)
Fixpoint has_lowercase (s : string) : bool :=
  match s with
  | EmptyString => false
  | String c rest => is_lower c || String.prefix kra s || has_lowercase rest
  end.

(* ----------------------------------------------------------------- *)
(** *** Opening and closing a session *)

(** What [try { new Peer(...); peer.on(...) } catch { ... }] leaves behind;
    [peerThrows] says whether the constructor raised. *)
Definition openPeer (peerThrows : bool) (failure : string) (id : option string)
    (n : t) : t * list effect :=
  if peerThrows then
    let '(n', fx) := updateStatus error n in
    (n', [ConsoleError failure] ++ fx)
  else (set_peer (Some (Peer.mk id)) n, [NewPeer id]).

Definition createRoom (random : nat -> Q) (peerThrows : bool) (n : t)
  : t * list effect :=
  let n1 := set_isHost true n in
  let n2 := set_roomCode (generateRoomCode random) n1 in
  let '(n3, fx1) := updateStatus connecting n2 in
  let '(n4, fx2) := openPeer peerThrows "Failed to create room:" (Some (roomCode n3)) n3 in
  (n4, fx1 ++ fx2).

Definition joinRoom (code : string) (peerThrows : bool) (n : t)
  : t * list effect :=
  let n1 := set_isHost false n in
  let n2 := set_roomCode (toUpperCase code) n1 in
  let '(n3, fx1) := updateStatus connecting n2 in
  let '(n4, fx2) := openPeer peerThrows "Failed to join room:" None n3 in
  (n4, fx1 ++ fx2).

Definition stopPingInterval (n : t) : t * list effect :=
  match pingIntervalId n with
  | Some i => if (i =? 0)%Z then (n, []) else (set_pingIntervalId None n, [ClearInterval])
  | None => (n, [])
  end.

(** [connection.send(message)] of the transport, which may raise;
    [sendThrows] says whether it does. *)
Definition connectionSend (sendThrows : bool) (message : NetworkMessage)
  : Js.completion (list effect) :=
  if sendThrows then Js.Throw else Js.Normal [ConnectionSend message].

(** [try { body } catch (error) { handler }] *)
Definition tryCatch {A : Type} (body handler : Js.completion A) : Js.completion A :=
  match body with
  | Js.Normal a => Js.Normal a
  | Js.Throw => handler
  end.

(** The body of [send(message)], as a computation that could raise. *)
Definition sendBody (sendThrows : bool) (message : NetworkMessage) (n : t)
  : Js.completion (t * list effect) :=
  if channelOpen n then
    tryCatch
      (Js.bind (connectionSend sendThrows message) (fun fx => Js.Normal (n, fx)))
      (Js.Normal (n, [ConsoleError "Failed to send message:"]))
  else Js.Normal (n, [ConsoleWarn "Cannot send message: connection not open"]).

(** [send(message)] as its callers see it: the state and trace it leaves. *)
Definition send (sendThrows : bool) (message : NetworkMessage) (n : t)
  : t * list effect :=
  match sendBody sendThrows message n with
  | Js.Normal r => r
  | Js.Throw => (n, [])
  end.

Definition disconnect (n : t) : t * list effect :=
  let '(n1, fx1) := stopPingInterval n in
  let '(n2, fx2) := match connection n1 with
                    | Some _ => (set_connection None n1, [ConnectionClose])
                    | None => (n1, [])
                    end in
  let '(n3, fx3) := match peer n2 with
                    | Some _ => (set_peer None n2, [PeerDestroy])
                    | None => (n2, [])
                    end in
  let '(n4, fx4) := updateStatus disconnected n3 in
  (set_roomCode "" (set_isHost false n4), fx1 ++ fx2 ++ fx3 ++ fx4).

(* ----------------------------------------------------------------- *)
(** *** Handlers of transport events *)

(** The timer callback of [startPingInterval]. *)
Definition pingTick (now : Z) (sendThrows : bool) (n : t) : t * list effect :=
  if channelOpen n
  then send sendThrows (SyncMessage now) (set_lastPingTime now n)
  else (n, []).

(** [peer.on('open')] of [createRoom]. *)
Definition onHostPeerOpen (id : string) (n : t) : t * list effect :=
  (n, if onRoomCreatedCallback n then [OnRoomCreated id] else []).

(** [peer.on('connection')]: the incoming channel [conn] is adopted. *)
Definition onPeerConnection (conn : DataConnection.t) (n : t) : t * list effect :=
  (set_connection (Some conn) n, []).

(** [peer.on('open')] of [joinRoom]: connect to the stored room code. *)
Definition onGuestPeerOpen (n : t) : t * list effect :=
  (set_connection (Some (DataConnection.mk false)) n, [PeerConnect (roomCode n)]).

(** [peer.on('error')] and [connection.on('error')], which log the error
    under [line] ("Peer error:", "Connection error:") and set the status. *)
Definition onError (line : string) (n : t) : t * list effect :=
  let '(n', fx) := updateStatus error n in
  (n', ConsoleError line :: fx).

(** [connection.on('open')]; [timer] is what [setInterval] returned. *)
Definition onConnectionOpen (timer : Z) (n : t) : t * list effect :=
  let '(n1, fx1) := updateStatus connected n in
  (set_pingIntervalId (Some timer) n1,
   fx1 ++ (if onConnectionEstablishedCallback n1 then [OnConnectionEstablished] else [])
       ++ [SetInterval]).

(** [connection.on('data')].  The message callback runs inside the
    handler's [try]; [callbackThrows] says whether it raises, in which
    case the [catch] logs the error after the callback was entered. *)
Definition onConnectionDataWith (callbackThrows : bool) (data : Js.value) (n : t)
  : t * list effect :=
  match Validation.validateMessage data with
  | Js.Normal r =>
      if Js.truthy r then
        if onMessageCallback n then
          (n, OnMessage data
              :: (if callbackThrows
                  then [ConsoleError "Error processing message:"]
                  else []))
        else (n, [])
      else (n, [ConsoleWarn "Received invalid message:"])
  | Js.Throw => (n, [ConsoleError "Error processing message:"])
  end.

(** The handler with a message callback that returns normally. *)
Definition onConnectionData (data : Js.value) (n : t) : t * list effect :=
  onConnectionDataWith false data n.

(** [connection.on('close')] *)
Definition onConnectionClose (n : t) : t * list effect :=
  let '(n1, fx1) := updateStatus disconnected n in
  let '(n2, fx2) := stopPingInterval n1 in
  (n2, fx1 ++ fx2).

(** The transport marking the current channel open, which it does before
    it fires the channel's [open] event. *)
Definition channelOpens (n : t) : t :=
  match connection n with
  | Some _ => set_connection (Some (DataConnection.mk true)) n
  | None => n
  end.

(** Whether a trace hands [message] to the transport. *)
Definition transmits (message : NetworkMessage) (fx : list effect) : Prop :=
  In (ConnectionSend message) fx.

Definition warns (fx : list effect) : Prop :=
  exists text, In (ConsoleWarn text) fx.

(* ----------------------------------------------------------------- *)
(** *** The manager as a whole *)

(** The transport marking the current channel closed, which it does
    before it fires the channel's [close] event. *)
Definition channelCloses (n : t) : t :=
  match connection n with
  | Some _ => set_connection (Some (DataConnection.mk false)) n
  | None => n
  end.

(** Everything that can happen to a manager: a call of one of its public
    methods, a firing of one of the handlers it registered, or the
    transport changing the channel's [open] property. *)
Inductive op : Type :=
| OpSetOnMessage
| OpSetOnStatusChange
| OpSetOnRoomCreated
| OpSetOnConnectionEstablished
| OpCreateRoom (random : nat -> Q) (peerThrows : bool)
| OpJoinRoom (code : string) (peerThrows : bool)
| OpSend (sendThrows : bool) (message : NetworkMessage)
| OpDisconnect
| OpPingTick (now : Z) (sendThrows : bool)
| OpHostPeerOpen (id : string)
| OpPeerConnection (conn : DataConnection.t)
| OpGuestPeerOpen
| OpPeerError
| OpConnectionError
| OpChannelOpens
| OpChannelCloses
| OpConnectionOpen (timer : Z)
| OpConnectionData (callbackThrows : bool) (data : Js.value)
| OpConnectionClose.

Definition exec (o : op) (n : t) : t * list effect :=
  match o with
  | OpSetOnMessage => (setOnMessage n, [])
  | OpSetOnStatusChange => (setOnStatusChange n, [])
  | OpSetOnRoomCreated => (setOnRoomCreated n, [])
  | OpSetOnConnectionEstablished => (setOnConnectionEstablished n, [])
  | OpCreateRoom random peerThrows => createRoom random peerThrows n
  | OpJoinRoom code peerThrows => joinRoom code peerThrows n
  | OpSend sendThrows message => send sendThrows message n
  | OpDisconnect => disconnect n
  | OpPingTick now sendThrows => pingTick now sendThrows n
  | OpHostPeerOpen id => onHostPeerOpen id n
  | OpPeerConnection conn => onPeerConnection conn n
  | OpGuestPeerOpen => onGuestPeerOpen n
  | OpPeerError => onError "Peer error:" n
  | OpConnectionError => onError "Connection error:" n
  | OpChannelOpens => (channelOpens n, [])
  | OpChannelCloses => (channelCloses n, [])
  | OpConnectionOpen timer => onConnectionOpen timer n
  | OpConnectionData callbackThrows data => onConnectionDataWith callbackThrows data n
  | OpConnectionClose => onConnectionClose n
  end.

(** A history of the manager, with the trace of all of it. *)
Definition run (ops : list op) (n : t) : t * list effect :=
  foldl (fun r o => let '(n', fx) := exec o (fst r) in (n', snd r ++ fx))
        (n, []) ops.

(** The statuses a trace reports to the status callback, in order. *)
Definition reported (fx : list effect) : list ConnectionStatus :=
  omap (fun e => match e with OnStatusChange s => Some s | _ => None end) fx.

(** An operation that hands the manager a room code hands it ASCII
    text. *)
Definition asciiOp (o : op) : bool :=
  match o with
  | OpJoinRoom code _ => string_forallb is_ascii code
  | _ => true
  end.

(** The shape of a room code: ASCII without a lowercase letter, and,
    while the manager is the host, at most six characters, all of
    [A-Z0-9]. *)
Definition roomCodeOk (n : t) : Prop :=
  string_forallb is_ascii (roomCode n) = true
  /\ has_lowercase (roomCode n) = false
  /\ (isHost n = true ->
      string_forallb is_upper_alnum (roomCode n) = true
      /\ (String.length (roomCode n) <= 6)%nat).

End NetworkManager.

(* ================================================================= *)
(** ** ui/LobbyUI.ts *)

(** What a handler cannot decide by itself: the clock, the random draws of
    a room code, and whether the transport raises. *)
Module Env.
Record t : Type := mk {
  now : Z;
  random : nat -> Q;
  peerThrows : bool;
  sendThrows : bool
}.
End Env.

Module LobbyUI.

Inductive Mode : Type := menu | create | join.

Record t : Type := mk {
  mode : Mode;
  roomCodeInput : string;
  status : string;
  isReady : bool;
  remoteReady : bool;
  (* whether [onGameStart] has been assigned *)
  onGameStart : bool
}.

Definition init : t := mk menu "" "" false false false.

Definition set_mode (m : Mode) (l : t) : t :=
  mk m (roomCodeInput l) (status l) (isReady l) (remoteReady l) (onGameStart l).
Definition set_roomCodeInput (s : string) (l : t) : t :=
  mk (mode l) s (status l) (isReady l) (remoteReady l) (onGameStart l).
Definition set_status (s : string) (l : t) : t :=
  mk (mode l) (roomCodeInput l) s (isReady l) (remoteReady l) (onGameStart l).
Definition set_isReady (b : bool) (l : t) : t :=
  mk (mode l) (roomCodeInput l) (status l) b (remoteReady l) (onGameStart l).
Definition set_remoteReady (b : bool) (l : t) : t :=
  mk (mode l) (roomCodeInput l) (status l) (isReady l) b (onGameStart l).

(** Calls the lobby makes: on the network manager (followed, as [Net], by
    what the manager does in turn) and on its [onGameStart] callback. *)
Inductive effect : Type :=
| CallCreateRoom
| CallJoinRoom (code : string)
| CallDisconnect
| CallSend (message : NetworkMessage)
| Net (e : NetworkManager.effect)
| GameStart.

(** The lobby together with the network manager it holds a reference to. *)
Definition world : Type := t * NetworkManager.t.
Definition outcome : Type := world * list effect.

Definition updateStatusMessage (s : NetworkManager.ConnectionStatus) (l : t) : t :=
  match s with
  | NetworkManager.connecting => set_status "Connecting..." l
  | NetworkManager.connected => set_status "Connected! Press R when ready." l
  | NetworkManager.disconnected => set_status "Disconnected" l
  | NetworkManager.error => set_status "Connection error. Please try again." l
  end.

(** The lobby's status callback, run for each status change in what the
    manager just did. *)
Definition absorb (fx : list NetworkManager.effect) (l : t) : t :=
  foldl (fun l e => match e with
                    | NetworkManager.OnStatusChange s => updateStatusMessage s l
                    | _ => l
                    end) l fx.

(** A call on the manager from inside the lobby. *)
Definition call (request : effect) (r : NetworkManager.t * list NetworkManager.effect)
    (l : t) : outcome :=
  let '(n', fx) := r in
  ((absorb fx l, n'), request :: map Net fx).

Definition startGame (w : world) : outcome :=
  (w, if onGameStart (fst w) then [GameStart] else []).

Definition checkBothReady (env : Env.t) (w : world) : outcome :=
  let '(l, n) := w in
  if isReady l && remoteReady l then
    if NetworkManager.isHostPlayer n then
      let message := StartGameMessage (Env.now env) in
      let '(w1, fx1) := call (CallSend message)
                             (NetworkManager.send (Env.sendThrows env) message n) l in
      let '(w2, fx2) := startGame w1 in
      (w2, fx1 ++ fx2)
    else (w, [])
  else (w, []).

(** The message callback installed by [setupNetworkCallbacks]. *)
Definition onMessage (env : Env.t) (message : NetworkMessage) (w : world) : outcome :=
  let '(l, n) := w in
  if String.eqb (message_type message) "PLAYER_READY" then
    checkBothReady env
      (set_status "Other player is ready!" (set_remoteReady true l), n)
  else if String.eqb (message_type message) "START_GAME" then
    startGame w
  else (w, []).

Definition is_alnum (c : ascii) : bool :=
  NetworkManager.is_upper c || NetworkManager.is_lower c || NetworkManager.is_digit c.

(** [e.key.length === 1 && /[A-Z0-9]/i.test(e.key)] *)
Definition is_code_key (key : string) : bool :=
  match key with
  | String c EmptyString => is_alnum c
  | _ => false
  end.

(** [s.slice(0, -1)] *)
Fixpoint drop_last (s : string) : string :=
  match s with
  | EmptyString => EmptyString
  | String c EmptyString => EmptyString
  | String c rest => String c (drop_last rest)
  end.

Definition escape (key : string) (o : outcome) : outcome :=
  let '((l, n), fx) := o in
  if String.eqb key "Escape" then
    match mode l with
    | menu => o
    | _ =>
        let '((l1, n1), fx1) := call CallDisconnect (NetworkManager.disconnect n) l in
        ((mk menu "" "" false false (onGameStart l1), n1), fx ++ fx1)
    end
  else o.

Definition playerName (n : NetworkManager.t) : string :=
  if NetworkManager.isHostPlayer n then "Player 1" else "Player 2".

(** The [keydown] listener installed by [setupInputHandlers]. *)
Definition onKeydown (env : Env.t) (key : string) (w : world) : outcome :=
  let '(l, n) := w in
  let lower := NetworkManager.toLowerCase key in
  escape key
    match mode l with
    | menu =>
        if String.eqb lower "c" then
          call CallCreateRoom
               (NetworkManager.createRoom (Env.random env) (Env.peerThrows env) n)
               (set_mode create l)
        else if String.eqb lower "j" then
          ((set_roomCodeInput "" (set_mode join l), n), [])
        else (w, [])
    | join =>
        if is_code_key key then
          if (String.length (roomCodeInput l) <? 6)%nat
          then ((set_roomCodeInput
                   (String.append (roomCodeInput l) (NetworkManager.toUpperCase key)) l,
                 n), [])
          else (w, [])
        else if String.eqb key "Backspace" then
          ((set_roomCodeInput (drop_last (roomCodeInput l)) l, n), [])
        else if String.eqb key "Enter" && (String.length (roomCodeInput l) =? 6)%nat then
          let '((l1, n1), fx1) :=
            call (CallJoinRoom (roomCodeInput l))
                 (NetworkManager.joinRoom (roomCodeInput l) (Env.peerThrows env) n) l in
          ((set_mode create l1, n1), fx1)
        else (w, [])
    | create =>
        if NetworkManager.isConnected n then
          if String.eqb lower "r" && negb (isReady l) then
            let message := PlayerReadyMessage (playerName n) (Env.now env) in
            let '((l1, n1), fx1) :=
              call (CallSend message)
                   (NetworkManager.send (Env.sendThrows env) message n)
                   (set_isReady true l) in
            let '(w2, fx2) :=
              checkBothReady env
                (set_status "You are ready! Waiting for other player..." l1, n1) in
            (w2, fx1 ++ fx2)
          else (w, [])
        else (w, [])
    end.

Definition newline : string := String (ascii_of_nat 10) EmptyString.

(** The room-created callback. *)
Definition onRoomCreated (roomCode : string) (w : world) : outcome :=
  ((set_status (String.append "Room Code: "
                  (String.append roomCode
                     (String.append newline "Waiting for player to join...")))
               (fst w), snd w), []).

(** The connection-established callback. *)
Definition onConnectionEstablished (w : world) : outcome :=
  ((set_status "Connected! Press R when ready." (fst w), snd w), []).

(** The status callback. *)
Definition onStatusChange (s : NetworkManager.ConnectionStatus) (w : world) : outcome :=
  ((updateStatusMessage s (fst w), snd w), []).

(** Everything that can happen to a lobby. *)
Inductive event : Type :=
| Keydown (key : string)
| Message (message : NetworkMessage)
| RoomCreated (roomCode : string)
| ConnectionEstablished
| StatusChange (s : NetworkManager.ConnectionStatus).

Definition step (env : Env.t) (e : event) (w : world) : outcome :=
  match e with
  | Keydown key => onKeydown env key w
  | Message message => onMessage env message w
  | RoomCreated roomCode => onRoomCreated roomCode w
  | ConnectionEstablished => onConnectionEstablished w
  | StatusChange s => onStatusChange s w
  end.

(** A sequence of events, with the trace of all of them. *)
Definition run (env : Env.t) (events : list event) (w : world) : outcome :=
  foldl (fun o e => let '(w', fx) := step env e (fst o) in (w', snd o ++ fx))
        (w, []) events.

(** A trace asks the manager to send a [START_GAME]. *)
Definition sendsStartGame (fx : list effect) : Prop :=
  exists ts, In (CallSend (StartGameMessage ts)) fx.

(** A trace puts a [START_GAME] on the wire. *)
Definition transmitsStartGame (fx : list effect) : Prop :=
  exists ts, In (Net (NetworkManager.ConnectionSend (StartGameMessage ts))) fx.

(** A trace moves the session to the started state. *)
Definition starts (fx : list effect) : Prop := In GameStart fx.

(** A trace in which nothing is sent and nothing starts. *)
Definition quiet (fx : list effect) : Prop :=
  forall e, In e fx ->
            match e with
            | CallSend _ | GameStart | Net (NetworkManager.ConnectionSend _) => False
            | _ => True
            end.

(** The local player marking itself ready: the one key press that reaches
    [checkBothReady]. *)
Definition readyPress (key : string) (l : t) (n : NetworkManager.t) : bool :=
  match mode l with
  | create =>
      NetworkManager.isConnected n
      && String.eqb (NetworkManager.toLowerCase key) "r" && negb (isReady l)
  | _ => false
  end.

(** The public [handleInput(key)], which the orchestrator calls from its
    own [keydown] listener while the lobby is showing. *)
Definition handleInput (env : Env.t) (key : string) (w : world) : outcome :=
  let '(l, n) := w in
  let lower := NetworkManager.toLowerCase key in
  escape key
    match mode l with
    | menu =>
        if String.eqb lower "c" then
          call CallCreateRoom
               (NetworkManager.createRoom (Env.random env) (Env.peerThrows env) n)
               (set_mode create l)
        else if String.eqb lower "j" then
          ((set_roomCodeInput "" (set_mode join l), n), [])
        else (w, [])
    | _ => (w, [])
    end.

(** A sequence of events, each under its own clock and transport
    behaviour, with the trace of all of them. *)
Definition runWith (events : list (Env.t * event)) (w : world) : outcome :=
  foldl (fun o ee => let '(w', fx) := step (fst ee) (snd ee) (fst o) in
                     (w', snd o ++ fx))
        (w, []) events.

(** The keys that type a string, one character each. *)
Fixpoint typed (code : string) : list event :=
  match code with
  | EmptyString => []
  | String c rest => Keydown (String c EmptyString) :: typed rest
  end.

(** The typed room-code buffer is at most six characters of [A-Z0-9]. *)
Definition codeBufferOk (l : t) : Prop :=
  (String.length (roomCodeInput l) <= 6)%nat
  /\ NetworkManager.string_forallb NetworkManager.is_upper_alnum (roomCodeInput l)
     = true.

(** A trace asks the manager to send a [PLAYER_READY]. *)
Definition sendsReady (fx : list effect) : Prop :=
  exists name ts, In (CallSend (PlayerReadyMessage name ts)) fx.

End LobbyUI.

(* ================================================================= *)
(** ** MultiplayerGameManager.ts *)

(** The in-game part of the orchestrator: message handling, input
    application and the per-frame synchronisation. *)
Module MultiplayerGameManager.

Record t : Type := mk {
  networkManager : NetworkManager.t;
  gameManager : option GameManager.t;
  inLobby : bool;
  isHost : bool;
  lastSyncTime : Z;
  syncInterval : Z;
  remoteInput : InputState.t;
  localInput : InputState.t
}.

Definition noInput : InputState.t := InputState.mk false false false.

Definition init (n : NetworkManager.t) : t :=
  mk n None true false 0 50 noInput noInput.

Definition set_networkManager (n : NetworkManager.t) (m : t) : t :=
  mk n (gameManager m) (inLobby m) (isHost m) (lastSyncTime m)
     (syncInterval m) (remoteInput m) (localInput m).
Definition set_gameManager (g : option GameManager.t) (m : t) : t :=
  mk (networkManager m) g (inLobby m) (isHost m) (lastSyncTime m)
     (syncInterval m) (remoteInput m) (localInput m).
Definition set_lastSyncTime (z : Z) (m : t) : t :=
  mk (networkManager m) (gameManager m) (inLobby m) (isHost m) z
     (syncInterval m) (remoteInput m) (localInput m).
Definition set_remoteInput (i : InputState.t) (m : t) : t :=
  mk (networkManager m) (gameManager m) (inLobby m) (isHost m) (lastSyncTime m)
     (syncInterval m) i (localInput m).

Definition handleNetworkMessage (message : NetworkMessage) (m : t) : t :=
  match message with
  | InputMessage data _ => set_remoteInput data m
  | StateUpdateMessage data _ =>
      match isHost m, gameManager m with
      | false, Some g => set_gameManager (Some (GameStateSync.applyGameState g data)) m
      | _, _ => m
      end
  | GameOverMessage _ _ _ => m
  | _ => m
  end.

(** The [startGame] of this revision; [fresh] is the simulation that
    [new GameManager(canvas, 2)] builds. *)
Definition startGame (fresh : GameManager.t) (m : t) : t :=
  mk (networkManager m) (Some fresh) false
     (NetworkManager.isHostPlayer (networkManager m)) (lastSyncTime m)
     (syncInterval m) (remoteInput m) (localInput m).

(** The movement an input asks for. *)
Definition movementOf (input : InputState.t) : Movement :=
  if InputState.left input then LEFT
  else if InputState.right input then RIGHT
  else STATIONARY.

(** The body of [applyInputToPlayer] on the player it addresses. *)
Definition applyInput (input : InputState.t) (player : Player.t) : Player.t :=
  let player := Player.set_movement (movementOf input) player in
  if InputState.shoot input && negb (Player.arrowActive player) then
    match Player.arrow player with
    | Some a =>
        Player.set_arrow (Some (Arrow.set_isHittable true (Arrow.set_isActive true a)))
                         player
    | None => player
    end
  else player.

Definition applyInputToPlayer (playerIndex : nat) (input : InputState.t) (m : t) : t :=
  match gameManager m with
  | None => m
  | Some g =>
      match GameManager.players g !! playerIndex with
      | None => m
      | Some _ =>
          set_gameManager
            (Some (GameManager.set_players
                     (alter (applyInput input) playerIndex (GameManager.players g)) g))
            m
      end
  end.

(** [updateMultiplayer()] at clock reading [Env.now]. *)
Definition updateMultiplayer (env : Env.t) (m : t) : t * list NetworkManager.effect :=
  match gameManager m with
  | None => (m, [])
  | Some _ =>
      if negb (NetworkManager.isConnected (networkManager m)) then (m, [])
      else if isHost m then
        let m1 := applyInputToPlayer 0 (localInput m) m in
        let m2 := applyInputToPlayer 1 (remoteInput m1) m1 in
        if (syncInterval m2 <=? Env.now env - lastSyncTime m2)%Z then
          match gameManager m2 with
          | Some g =>
              let '(n, fx) :=
                NetworkManager.send (Env.sendThrows env)
                  (StateUpdateMessage (GameStateSync.serializeGameState g) (Env.now env))
                  (networkManager m2) in
              (set_lastSyncTime (Env.now env) (set_networkManager n m2), fx)
          | None => (m2, [])
          end
        else (m2, [])
      else (applyInputToPlayer 1 (localInput m) m, [])
  end.

(** [disconnect()]: back to the lobby, without a simulation. *)
Definition disconnect (m : t) : t * list NetworkManager.effect :=
  let '(n, fx) := NetworkManager.disconnect (networkManager m) in
  (mk n None true (isHost m) (lastSyncTime m) (syncInterval m)
      (remoteInput m) (localInput m), fx).

(** What one turn of [run()] does to the session; drawing is left out. *)
Definition run (env : Env.t) (m : t) : t * list NetworkManager.effect :=
  if inLobby m then (m, [])
  else match gameManager m with
       | Some _ => updateMultiplayer env m
       | None => (m, [])
       end.

(** What happens to an orchestrator over time: an animation frame, a
    message handed over by the network manager, the lobby's start
    callback, a [disconnect()], or anything else in the program (key
    listeners, the simulation's own loop, transport events). *)
Inductive event : Type :=
| Frame (env : Env.t)
| Receive (message : NetworkMessage)
| Start (fresh : GameManager.t)
| Stop
| Elsewhere (f : t -> t).

Definition step (e : event) (m : t) : t * list NetworkManager.effect :=
  match e with
  | Frame env => run env m
  | Receive message => (handleNetworkMessage message m, [])
  | Start fresh => (startGame fresh m, [])
  | Stop => disconnect m
  | Elsewhere f => (f m, [])
  end.

Definition session (events : list event) (m : t) : t * list NetworkManager.effect :=
  foldl (fun r e => let '(m', fx) := step e (fst r) in (m', snd r ++ fx))
        (m, []) events.

(** Nothing but [updateMultiplayer] assigns [lastSyncTime], and nothing
    assigns [syncInterval]: the events that respect this. *)
Definition keepsClock (e : event) : Prop :=
  match e with
  | Elsewhere f =>
      forall m, lastSyncTime (f m) = lastSyncTime m
                /\ syncInterval (f m) = syncInterval m
  | _ => True
  end.

(** The timestamps of the STATE_UPDATE messages a trace hands to the
    transport, in order. *)
Definition broadcasts (fx : list NetworkManager.effect) : list Z :=
  omap (fun e => match e with
                 | NetworkManager.ConnectionSend (StateUpdateMessage _ ts) => Some ts
                 | _ => None
                 end) fx.

(** Each time is at least [interval] after the one before it, the first
    one after [last]. *)
Fixpoint spaced (interval last : Z) (times : list Z) : Prop :=
  match times with
  | [] => True
  | time :: rest => (interval <= time - last)%Z /\ spaced interval time rest
  end.

End MultiplayerGameManager.

(** The later revision of the orchestrator, in which the guest only
    renders and the host applies the guest's input on receipt. *)
Module MultiplayerGameManagerRev.

Section WithCollaborators.

(** [Player.shootArrow] of components/Player and the lobby's
    [handleMessage] are defined outside this code. *)
Variable shootArrow : Player.t -> Player.t.
Variable Lobby : Type.
Variable lobbyHandleMessage : NetworkMessage -> Lobby -> Lobby.

Record t : Type := mk {
  networkManager : NetworkManager.t;
  lobbyUI : Lobby;
  gameManager : option GameManager.t;
  inLobby : bool;
  isHost : bool;
  lastSyncTime : Z;
  syncInterval : Z
}.

Definition set_gameManager (g : option GameManager.t) (m : t) : t :=
  mk (networkManager m) (lobbyUI m) g (inLobby m) (isHost m) (lastSyncTime m)
     (syncInterval m).
Definition set_lobbyUI (l : Lobby) (m : t) : t :=
  mk (networkManager m) l (gameManager m) (inLobby m) (isHost m) (lastSyncTime m)
     (syncInterval m).

(** The body of [applyGuestInput] on the guest's player. *)
Definition applyGuest (input : InputState.t) (guestPlayer : Player.t) : Player.t :=
  let moved :=
    if InputState.left input then
      Player.set_tempMovement LEFT (Player.set_movement LEFT guestPlayer)
    else if InputState.right input then
      Player.set_tempMovement RIGHT (Player.set_movement RIGHT guestPlayer)
    else if negb (InputState.shoot input) then
      Player.set_tempMovement STATIONARY (Player.set_movement STATIONARY guestPlayer)
    else guestPlayer in
  if InputState.shoot input && negb (Player.arrowActive moved)
  then shootArrow moved
  else moved.

Definition applyGuestInput (input : InputState.t) (m : t) : t :=
  match gameManager m with
  | None => m
  | Some g =>
      if (List.length (GameManager.players g) <? 2)%nat then m
      else match GameManager.players g !! 1%nat with
           | None => m
           | Some _ =>
               set_gameManager
                 (Some (GameManager.set_players
                          (alter (applyGuest input) 1%nat (GameManager.players g)) g))
                 m
           end
  end.

Definition handleNetworkMessage (message : NetworkMessage) (m : t) : t :=
  if inLobby m then set_lobbyUI (lobbyHandleMessage message (lobbyUI m)) m
  else
    match message with
    | InputMessage data _ =>
        match isHost m, gameManager m with
        | true, Some _ => applyGuestInput data m
        | _, _ => m
        end
    | StateUpdateMessage data _ =>
        match isHost m, gameManager m with
        | false, Some g => set_gameManager (Some (GameStateSync.applyGameState g data)) m
        | _, _ => m
        end
    | GameOverMessage _ _ _ => m
    | _ => m
    end.

Definition set_networkManager (n : NetworkManager.t) (m : t) : t :=
  mk n (lobbyUI m) (gameManager m) (inLobby m) (isHost m) (lastSyncTime m)
     (syncInterval m).
Definition set_lastSyncTime (z : Z) (m : t) : t :=
  mk (networkManager m) (lobbyUI m) (gameManager m) (inLobby m) (isHost m) z
     (syncInterval m).

(** The [onInputChange] callback that [startGame] gives the guest's
    simulation. *)
Definition onInputChange (env : Env.t) (input : InputState.t) (m : t)
  : t * list NetworkManager.effect :=
  let '(n, fx) := NetworkManager.send (Env.sendThrows env)
                    (InputMessage input (Env.now env)) (networkManager m) in
  (set_networkManager n m, fx).

(** One turn of [syncLoop]: the state it leaves, what it handed to the
    network manager, and whether it asked for another turn. *)
Definition syncLoop (env : Env.t) (m : t)
  : t * list NetworkManager.effect * bool :=
  match gameManager m with
  | None => (m, [], false)
  | Some g =>
      if negb (NetworkManager.isConnected (networkManager m)) then (m, [], false)
      else if isHost m then
        if (syncInterval m <=? Env.now env - lastSyncTime m)%Z then
          let '(n, fx) :=
            NetworkManager.send (Env.sendThrows env)
              (StateUpdateMessage (GameStateSync.serializeGameState g) (Env.now env))
              (networkManager m) in
          (set_lastSyncTime (Env.now env) (set_networkManager n m), fx, true)
        else (m, [], true)
      else (m, [], true)
  end.

(** The chain of turns that [requestAnimationFrame] keeps going: a turn
    runs only if the one before it asked for it.  Before each turn the
    rest of the program may have changed the orchestrator ([between]). *)
Fixpoint syncTurns (turns : list (Env.t * (t -> t))) (alive : bool) (m : t)
  : t * list NetworkManager.effect * bool :=
  match turns with
  | [] => (m, [], alive)
  | (env, between) :: rest =>
      if alive then
        let '(m1, fx1, again) := syncLoop env (between m) in
        let '(m2, fx2, alive2) := syncTurns rest again m1 in
        (m2, fx1 ++ fx2, alive2)
      else syncTurns rest false (between m)
  end.

End WithCollaborators.

Arguments mk {Lobby}.
Arguments networkManager {Lobby}.
Arguments lobbyUI {Lobby}.
Arguments gameManager {Lobby}.
Arguments inLobby {Lobby}.
Arguments isHost {Lobby}.
Arguments set_gameManager {Lobby}.
Arguments applyGuestInput shootArrow {Lobby}.
Arguments handleNetworkMessage shootArrow {Lobby}.

Arguments lastSyncTime {Lobby}.
Arguments syncInterval {Lobby}.
Arguments set_networkManager {Lobby}.
Arguments set_lastSyncTime {Lobby}.
Arguments onInputChange {Lobby}.
Arguments syncLoop {Lobby}.
Arguments syncTurns {Lobby}.

End MultiplayerGameManagerRev.

(* ================================================================= *)
(** ** ui/ConnectionStatus.ts *)

(** The overlay drawn over the game: what [render()] decides to show.
    Canvas positions and fonts are left out. *)
Module ConnectionStatus.

Record Overlay : Type := mkOverlay {
  qualityColor : string;
  (* the number in the text [Ping: <latency>ms] *)
  ping : Z;
  role : string;
  (* whether [drawWarning()] is called *)
  warning : bool
}.

Definition render (networkManager : NetworkManager.t) : option Overlay :=
  if negb (NetworkManager.isConnected networkManager) then None
  else
    let latency := NetworkManager.getLatency networkManager in
    let qualityColor :=
      if (latency <? 100)%Z then "#27ae60"
      else if (latency <? 200)%Z then "#f39c12"
      else if (latency <? 300)%Z then "#e67e22"
      else "#e74c3c" in
    Some (mkOverlay qualityColor latency
            (if NetworkManager.isHostPlayer networkManager then "Host" else "Client")
            (300 <? latency)%Z).

End ConnectionStatus.

(* ================================================================= *)
(** ** GameManager.ts: the key listeners *)

(** [player.controls]: the [event.code] of each of a player's keys. *)
Module Controls.
Record t : Type := mk { left : string; right : string; shoot : string }.
End Controls.

(** The [keydown] and [keyup] listeners that the GameManager's
    constructor installs, with the fields they read. *)
Module KeyListeners.

Section WithPlayer.

(** [player.controls] and [player.shootArrow()] of components/Player are
    defined outside this code. *)
Variable controls : Player.t -> Controls.t.
Variable shootArrow : Player.t -> Player.t.

Record t : Type := mk {
  gameManager : GameManager.t;
  isMultiplayer : bool;
  localPlayerIndex : option nat;
  (* whether [onInputChange] has been assigned *)
  onInputChange : bool;
  (* the listeners' [keyState], which is only ever tested for truth *)
  keyState : string -> bool
}.

(** [keyState[code] = down] *)
Definition setKey (code : string) (down : bool) (keys : string -> bool)
  : string -> bool :=
  fun k => if String.eqb k code then down else keys k.

(** [this.isMultiplayer && this.localPlayerIndex === 1] *)
Definition isGuest (k : t) : bool :=
  isMultiplayer k
  && match localPlayerIndex k with
     | Some 1%nat => true
     | _ => false
     end.

(** What [keydown] does to a player it controls locally. *)
Definition pressed (keys : string -> bool) (player : Player.t) : Player.t :=
  let c := controls player in
  let p1 := if keys (Controls.left c)
            then Player.set_tempMovement LEFT (Player.set_movement LEFT player)
            else player in
  let p2 := if keys (Controls.right c)
            then Player.set_tempMovement RIGHT (Player.set_movement RIGHT p1)
            else p1 in
  if keys (Controls.shoot c) then
    let p3 := shootArrow p2 in
    let p4 := match Player.arrow p3 with
              | Some a => Player.set_arrow (Some (Arrow.set_isHittable true a)) p3
              | None => p3
              end in
    Player.set_movement STATIONARY p4
  else p2.

(** What [keyup] does to a player it controls locally. *)
Definition released (code : string) (player : Player.t) : Player.t :=
  let c := controls player in
  let p1 := if String.eqb code (Controls.left c) || String.eqb code (Controls.right c)
            then Player.set_tempMovement STATIONARY
                   (Player.set_movement STATIONARY player)
            else player in
  if String.eqb code (Controls.shoot c)
  then Player.set_movement (Player.tempMovement p1) p1
  else p1.

(** [playersToControl.forEach(...)]: the local player alone in a
    multiplayer game, where the guest's is skipped, and every player
    otherwise. *)
Definition control (act : Player.t -> Player.t) (k : t) : list Player.t :=
  let players := GameManager.players (gameManager k) in
  if isMultiplayer k then
    match localPlayerIndex k with
    | Some i => if isGuest k then players else alter act i players
    | None => act <$> players
    end
  else act <$> players.

(** The call of [onInputChange] that ends both listeners, if any. *)
Definition report (keys : string -> bool) (k : t) : option InputState.t :=
  if isGuest k && onInputChange k then
    match GameManager.players (gameManager k) !! 1%nat with
    | Some localPlayer =>
        let c := controls localPlayer in
        Some (InputState.mk (keys (Controls.left c)) (keys (Controls.right c))
                            (keys (Controls.shoot c)))
    | None => None
    end
  else None.

Definition listener (code : string) (down : bool) (act : Player.t -> Player.t)
    (k : t) : t * option InputState.t :=
  let keys := setKey code down (keyState k) in
  let k' := mk (GameManager.set_players (control act k) (gameManager k))
               (isMultiplayer k) (localPlayerIndex k) (onInputChange k) keys in
  (k', report keys k').

Definition onKeydown (code : string) (k : t) : t * option InputState.t :=
  listener code true (pressed (setKey code true (keyState k))) k.

Definition onKeyup (code : string) (k : t) : t * option InputState.t :=
  listener code false (released code) k.

End WithPlayer.

End KeyListeners.

(* ================================================================= *)
(** ** Concrete sessions used below *)

Module Scenario.

(** Scenario B of the specification: the snapshot the host sends. *)
Definition snapshotB : GameState.t :=
  GameState.mk (Some (PlayerState.mk 100 200 5 2)) None [] [] 5 12000 2.

Definition idleArrow : Arrow.t := Arrow.mk 10 20 false false.
Definition flyingArrow : Arrow.t := Arrow.mk 50 60 true true.

(** Seat 0 stands at (30, 400) with its arrow at rest; seat 1 stands at
    (300, 400) with its arrow in flight at (50, 60). *)
Definition host : Player.t := Player.mk 30 400 7 3 (Some idleArrow) STATIONARY STATIONARY.
Definition guest : Player.t := Player.mk 300 400 4 2 (Some flyingArrow) RIGHT RIGHT.

Definition bubble1 : Bubble.t := Bubble.mk 120 80 40 2 (-3).

(** A running two-player simulation in which only the guest has fired. *)
Definition guestFired : GameManager.t :=
  GameManager.mk [host; guest] [bubble1] (Some (Score.mk 11)) 31000 2.

(** The same simulation with both arrows in flight. *)
Definition bothFired : GameManager.t :=
  GameManager.mk [Player.set_arrow (Some flyingArrow) host; guest] [bubble1]
                 (Some (Score.mk 11)) 31000 2.

(** A snapshot without the record of seat 0, as a sender that skips
    unchanged players would produce. *)
Definition withoutPlayer1 : GameState.t :=
  GameState.mk None (Some (PlayerState.mk 310 400 6 2))
               [BubbleState.mk 125 77 40 2 (-3)] [ArrowState.mk 70 80 true]
               12 29000 3.

(** A host whose channel opened and whose peer then reported an error:
    the status is [error] while the channel is still open. *)
Definition hostAfterPeerError : NetworkManager.t :=
  let n0 := NetworkManager.setOnStatusChange NetworkManager.init in
  let n1 := fst (NetworkManager.createRoom (fun _ => 0%Q) false n0) in
  let n2 := fst (NetworkManager.onPeerConnection
                   (NetworkManager.DataConnection.mk false) n1) in
  let n3 := fst (NetworkManager.onConnectionOpen 1 (NetworkManager.channelOpens n2)) in
  fst (NetworkManager.onError "Peer error:" n3).

(** The same host before the error, and a guest whose channel to room
    [AB12C9] has opened. *)
Definition hostConnected : NetworkManager.t :=
  let n0 := NetworkManager.setOnStatusChange NetworkManager.init in
  let n1 := fst (NetworkManager.createRoom (fun _ => 0%Q) false n0) in
  let n2 := fst (NetworkManager.onPeerConnection
                   (NetworkManager.DataConnection.mk false) n1) in
  fst (NetworkManager.onConnectionOpen 1 (NetworkManager.channelOpens n2)).

Definition guestConnected : NetworkManager.t :=
  let n0 := NetworkManager.setOnStatusChange NetworkManager.init in
  let n1 := fst (NetworkManager.joinRoom "ab12c9" false n0) in
  let n2 := fst (NetworkManager.onGuestPeerOpen n1) in
  fst (NetworkManager.onConnectionOpen 1 (NetworkManager.channelOpens n2)).

Definition env0 : Env.t := Env.mk 1000 (fun _ => 0%Q) false false.

(** A lobby that has just connected, one whose local player has pressed
    R, and one that has only heard the remote player's PLAYER_READY. *)
Definition waiting : LobbyUI.t :=
  LobbyUI.mk LobbyUI.create "" "Connected! Press R when ready." false false true.
Definition locallyReady : LobbyUI.t :=
  LobbyUI.mk LobbyUI.create "" "You are ready! Waiting for other player..."
             true false true.
Definition remotelyReady : LobbyUI.t :=
  LobbyUI.mk LobbyUI.create "" "Other player is ready!" false true true.

(** The two orchestrators once the game has started. *)
Definition hostInGame : MultiplayerGameManager.t :=
  MultiplayerGameManager.startGame guestFired
    (MultiplayerGameManager.init hostConnected).
Definition guestInGame : MultiplayerGameManager.t :=
  MultiplayerGameManager.startGame guestFired
    (MultiplayerGameManager.init guestConnected).

(** The input of scenario E. *)
Definition moveLeft : InputState.t := InputState.mk true false false.

(** Two seated players in an object that has no [score] member. *)
Definition scoreless : GameManager.t :=
  GameManager.mk [host; guest] [bubble1] None 31000 2.

(** The guest's game manager in a running game, as [new GameManager(canvas, 2)]
    and the level loader leave it: two seated players, a score object,
    the level of the field initialiser, one bubble in the static
    [GameManager.bubbleArray], and neither of the undeclared properties. *)
Definition guestGame : GameManagerInstance.t :=
  GameManagerInstance.mk [host; guest] (Some (Some 11)) (Some 31000) 1
                         [bubble1] None None.

(** The host's, on level 1 with two bubbles left and both arrows in
    flight. *)
Definition hostGame : GameManagerInstance.t :=
  GameManagerInstance.mk [Player.set_arrow (Some flyingArrow) host; guest]
                         (Some (Some 12)) (Some 29000) 1
                         [bubble1; Bubble.mk 400 90 20 (-2) 3] None None.

End Scenario.

(* ================================================================= *)
(** * Properties *)

(* ================================================================= *)
(** ** Message validation *)

Section ValidationFacts.
Import Js Validation.

Ltac unfold_validation :=
  unfold validateMessage, accepts, well_formed, required_fields_ok, includes,
    is_typeof, MessageType.values, MessageType.INPUT, MessageType.STATE_UPDATE,
    MessageType.SYNC, MessageType.GAME_OVER, MessageType.PLAYER_READY,
    MessageType.START_GAME.

Ltac settle := eexists; split; reflexivity.

(** On an object, the validator returns normally and its verdict is the
    declarative one. *)
Lemma validate_object (props : list (string * value)) :
  exists r, validateMessage (JObj props) = Normal r
            /\ truthy r = well_formed (JObj props).
Proof.
  unfold_validation. cbn.
  destruct (lookup_prop "type" props) as [| |b|n|ty|l|o] eqn:Hty;
    try (cbn; try destruct b; try destruct n; settle).
  cbn.
  destruct (String.eqb_spec ty "INPUT") as [->|H1].
  { cbn.
    destruct (lookup_prop "timestamp" props); cbn; try settle.
    destruct (lookup_prop "data" props) as [| |b|k|s|l|o]; cbn; try settle.
    - destruct b; cbn; settle.
    - destruct k; cbn; settle.
    - destruct s; cbn; settle.
    - destruct (lookup_prop "left" o); cbn; try settle.
      destruct (lookup_prop "right" o); cbn; settle. }
  destruct (String.eqb_spec ty "STATE_UPDATE") as [->|H2].
  { cbn.
    destruct (lookup_prop "timestamp" props); cbn; try settle.
    destruct (lookup_prop "data" props) as [| |b|k|s|l|o]; cbn; try settle.
    - destruct b; cbn; settle.
    - destruct k; cbn; settle.
    - destruct s; cbn; settle. }
  destruct (String.eqb_spec ty "SYNC") as [->|H3].
  { cbn. destruct (lookup_prop "timestamp" props); cbn; settle. }
  destruct (String.eqb_spec ty "GAME_OVER") as [->|H4].
  { cbn. destruct (lookup_prop "timestamp" props); cbn; try settle.
    destruct (lookup_prop "won" props); cbn; settle. }
  destruct (String.eqb_spec ty "PLAYER_READY") as [->|H5].
  { cbn. destruct (lookup_prop "timestamp" props); cbn; settle. }
  destruct (String.eqb_spec ty "START_GAME") as [->|H6].
  { cbn. destruct (lookup_prop "timestamp" props); cbn; settle. }
  cbn. rewrite orb_true_r. settle.
Qed.

(** The same for every value the transport can deliver. *)
Lemma validate_characterised (v : value) :
  exists r, validateMessage v = Normal r /\ truthy r = well_formed v.
Proof.
  destruct v as [| |b|n|s|l|props]; try apply validate_object.
  all: unfold_validation; cbn; try settle.
  - destruct b; cbn; settle.
  - destruct n; cbn; settle.
  - destruct s; cbn; settle.
Qed.

Lemma accepts_well_formed (v : value) : accepts v = well_formed v.
Proof.
  unfold accepts. destruct (validate_characterised v) as (r & -> & Hr). exact Hr.
Qed.

Lemma validate_constructed (m : NetworkMessage) :
  validateMessage (Wire.of_message m) = Normal (JBool true).
Proof. destruct m; reflexivity. Qed.

Lemma existsb_type_In (ty : string) :
  existsb (String.eqb ty) MessageType.values = true <-> In ty MessageType.values.
Proof.
  rewrite existsb_exists. split.
  - intros (s & Hin & Heq). apply String.eqb_eq in Heq. now subst.
  - intros Hin. exists ty. split; [exact Hin | apply String.eqb_refl].
Qed.

(** C3.  [validateMessage] accepts the wire form of every message of the
    six variants; it returns normally on every value; and it rejects a
    value that is not an object, whose type tag is missing or not one of
    the six, whose timestamp is not a number, or that lacks a correctly
    typed field its declared type requires. *)
Theorem C3_validateMessage_accepts_and_rejects :
  (forall m : NetworkMessage, accepts (Wire.of_message m) = true)
  /\ (forall v : value, exists r : value, validateMessage v = Normal r)
  /\ (forall v : value, is_object v = false -> accepts v = false)
  /\ (forall v : value,
        (forall ty, field v "type" = JStr ty -> ~ In ty MessageType.values) ->
        accepts v = false)
  /\ (forall v : value,
        typeof (field v "timestamp") <> "number" -> accepts v = false)
  /\ (forall (v : value) (ty : string),
        field v "type" = JStr ty -> required_fields_ok v ty = false ->
        accepts v = false).
Proof.
  split; [|split; [|split; [|split; [|split]]]].
  - intros m. unfold accepts. now rewrite validate_constructed.
  - intros v. destruct (validate_characterised v) as (r & Hr & _). now exists r.
  - intros v Hobj. rewrite accepts_well_formed. unfold well_formed.
    now rewrite Hobj.
  - intros v Hty. rewrite accepts_well_formed. unfold well_formed.
    destruct (field v "type") as [| | | |ty| |] eqn:E;
      try (now rewrite andb_false_r).
    destruct (existsb (String.eqb ty) MessageType.values) eqn:Hex.
    + apply existsb_type_In in Hex. now destruct (Hty ty eq_refl).
    + cbn. now rewrite andb_false_r.
  - intros v Hts. rewrite accepts_well_formed. unfold well_formed, is_typeof.
    destruct (String.eqb_spec (typeof (field v "timestamp")) "number") as [E|_];
      [contradiction|].
    destruct (field v "type"); rewrite ?andb_false_r; cbn;
      rewrite ?andb_false_r; reflexivity.
  - intros v ty Hty Hreq. rewrite accepts_well_formed. unfold well_formed.
    rewrite Hty, Hreq. now rewrite !andb_false_r.
Qed.

(** The malformed input of the specification's scenario C is rejected:
    [{type: "INPUT", data: {left: "yes"}}]. *)
Lemma C3_validateMessage_witness :
  accepts (JObj [("type", JStr "INPUT"); ("data", JObj [("left", JStr "yes")])])
  = false
  /\ accepts (JNum 7) = false
  /\ accepts (JObj [("type", JStr "PING"); ("timestamp", JNum 1)]) = false
  /\ accepts (JObj [("type", JStr "PLAYER_READY"); ("timestamp", JNum 1);
                    ("playerName", JNum 3)]) = false.
Proof.
  destruct C3_validateMessage_accepts_and_rejects
    as (_ & _ & Hobj & Hty & Hts & Hreq).
  split; [|split; [|split]].
  - apply Hts. cbn. discriminate.
  - apply Hobj. reflexivity.
  - apply Hty. intros ty E. injection E as <-. cbn.
    intros [H|[H|[H|[H|[H|[H|[]]]]]]]; discriminate H.
  - apply (Hreq _ "PLAYER_READY"); reflexivity.
Defined.

End ValidationFacts.

(* ================================================================= *)
(** ** State synchronisation *)

Section GameStateSyncFacts.
Import GameStateSync.

(** A [forEach] that pushes [f a] for each [a] builds [map f]. *)
Lemma foldl_push {A B : Type} (f : A -> B) (l : list A) (acc : list B) :
  foldl (fun arr a => arr ++ [f a]) acc l = acc ++ map f l.
Proof.
  revert acc. induction l as [|a l IH]; intros acc; cbn.
  - now rewrite app_nil_r.
  - rewrite IH. now rewrite <- app_assoc.
Qed.

Lemma applyBubbles_bubbleArray (bubbles : list BubbleState.t) (g : GameManager.t) :
  GameManager.bubbleArray (applyBubbles bubbles g) = map bubbleOf bubbles.
Proof. unfold applyBubbles. cbn. now rewrite (foldl_push bubbleOf). Qed.

(** The indexed [forEach] of [applyArrows], started at index [k]. *)
Lemma foldl_applyArrowAt (arrows : list ArrowState.t) :
  forall (k : nat) (players : list Player.t),
    foldl applyArrowAt players (imap (fun i a => (k + i, a)%nat) arrows)
    = imap (fun j p => if decide (k <= j)%nat then arrowOnto arrows (j - k) p else p)
           players.
Proof.
  induction arrows as [|a arrows IH]; intros k players.
  - cbn. apply list_eq. intros j. rewrite list_lookup_imap.
    destruct (players !! j); cbn; [|reflexivity].
    unfold arrowOnto. rewrite lookup_nil. now destruct (decide _).
  - rewrite imap_cons. cbn [foldl].
    rewrite (imap_ext _ (fun i a0 => (S k + i, a0)%nat)).
    2:{ intros i x _. cbn. f_equal. lia. }
    rewrite IH. apply list_eq. intros j. rewrite !list_lookup_imap.
    unfold applyArrowAt. rewrite Nat.add_0_r.
    destruct (Nat.ltb_spec k (List.length players)) as [Hk|Hk].
    + rewrite list_lookup_alter.
      destruct (decide (k = j)) as [->|Hne].
      * destruct (players !! j) as [p|]; cbn; [|reflexivity].
        rewrite decide_False by lia. rewrite decide_True by lia.
        unfold arrowOnto. now rewrite Nat.sub_diag.
      * destruct (players !! j) as [p|]; cbn; [|reflexivity].
        f_equal.
        destruct (decide (S k <= j)%nat), (decide (k <= j)%nat);
          try lia; try reflexivity.
        unfold arrowOnto. now replace (j - k)%nat with (S (j - S k)) by lia.
    + destruct (players !! j) as [p|] eqn:Hp; cbn; [|reflexivity].
      apply lookup_lt_Some in Hp.
      rewrite decide_False by lia. now rewrite decide_False by lia.
Qed.

Lemma applyArrows_players (arrows : list ArrowState.t) (g : GameManager.t) :
  GameManager.players (applyArrows arrows g)
  = imap (fun j p => arrowOnto arrows j (resetArrow p)) (GameManager.players g).
Proof.
  unfold applyArrows. cbn.
  rewrite (imap_ext pair (fun i a => (0 + i, a)%nat)) by reflexivity.
  rewrite foldl_applyArrowAt.
  apply list_eq. intros j. rewrite !list_lookup_imap, list_lookup_fmap.
  destruct (GameManager.players g !! j); cbn; [|reflexivity].
  rewrite decide_True by lia. now rewrite Nat.sub_0_r.
Qed.

(** What [applyGameState] leaves in each member of the simulation. *)
Lemma applyGameState_players (g : GameManager.t) (st : GameState.t) :
  GameManager.players (applyGameState g st)
  = imap (fun j p => arrowOnto (GameState.arrows st) j (resetArrow p))
         (applyPlayerAt 1 (GameState.player2 st)
            (applyPlayerAt 0 (GameState.player1 st) (GameManager.players g))).
Proof.
  unfold applyGameState.
  destruct (GameManager.score _);
    cbn [GameManager.players GameManager.set_score GameManager.set_timeRemaining
         GameManager.set_currentLevel];
    rewrite applyArrows_players; reflexivity.
Qed.

Lemma applyGameState_bubbleArray (g : GameManager.t) (st : GameState.t) :
  GameManager.bubbleArray (applyGameState g st) = map bubbleOf (GameState.bubbles st).
Proof.
  unfold applyGameState.
  destruct (GameManager.score _); cbn; now rewrite (foldl_push bubbleOf).
Qed.

Lemma applyGameState_score (g : GameManager.t) (st : GameState.t) :
  GameManager.score (applyGameState g st)
  = match GameManager.score g with
    | Some _ => Some (Score.mk (GameState.score st))
    | None => None
    end.
Proof.
  unfold applyGameState. cbn. destruct (GameManager.score g) eqn:E; cbn; [reflexivity|].
  exact E.
Qed.

Lemma applyGameState_timeRemaining (g : GameManager.t) (st : GameState.t) :
  GameManager.timeRemaining (applyGameState g st) = GameState.timeRemaining st.
Proof. reflexivity. Qed.

Lemma applyGameState_currentLevel (g : GameManager.t) (st : GameState.t) :
  GameManager.currentLevel (applyGameState g st) = GameState.level st.
Proof. reflexivity. Qed.

(** Placing or resetting an arrow leaves the seat's own record alone. *)
Lemma arrowOnto_record (arrows : list ArrowState.t) (j : nat) (p : Player.t) :
  let q := arrowOnto arrows j (resetArrow p) in
  Player.x q = Player.x p /\ Player.y q = Player.y p
  /\ Player.score q = Player.score p /\ Player.lives q = Player.lives p
  /\ Player.movement q = Player.movement p.
Proof.
  unfold arrowOnto, placeArrow, resetArrow.
  destruct (arrows !! j), (Player.arrow p) eqn:E; cbn; rewrite ?E; cbn;
    repeat split.
Qed.

(** After the arrows are applied, a seat's projectile is in flight exactly
    when the seat owns an arrow object and the snapshot entry at the
    seat's index is active. *)
Lemma arrowOnto_active (arrows : list ArrowState.t) (j : nat) (p : Player.t) :
  Player.arrowActive (arrowOnto arrows j (resetArrow p))
  = match Player.arrow p with
    | Some _ => snapshotActive arrows j
    | None => false
    end.
Proof.
  unfold arrowOnto, snapshotActive, placeArrow, resetArrow, Player.arrowActive.
  destruct (arrows !! j), (Player.arrow p) eqn:E; cbn; rewrite ?E; reflexivity.
Qed.

Lemma applyPlayerAt_lookup (i j : nat) (o : option PlayerState.t)
    (players : list Player.t) :
  applyPlayerAt i o players !! j
  = match o with
    | Some st => if decide (i = j) then applyPlayerState st <$> players !! j
                 else players !! j
    | None => players !! j
    end.
Proof.
  unfold applyPlayerAt.
  destruct (players !! i) eqn:Hi, o as [st|]; try reflexivity.
  - rewrite list_lookup_alter. destruct (decide (i = j)); congruence.
  - destruct (decide (i = j)) as [<-|]; [|reflexivity]. now rewrite Hi.
Qed.

Lemma applyPlayerAt_length (i : nat) (o : option PlayerState.t)
    (players : list Player.t) :
  List.length (applyPlayerAt i o players) = List.length players.
Proof.
  unfold applyPlayerAt. destruct (players !! i), o; try reflexivity.
  apply length_alter.
Qed.

(** The seat-by-seat reading of [applyGameState]. *)
Lemma applyGameState_seat (g : GameManager.t) (st : GameState.t) (j : nat) :
  GameManager.players (applyGameState g st) !! j
  = (fun p => arrowOnto (GameState.arrows st) j (resetArrow p))
      <$> applyPlayerAt 1 (GameState.player2 st)
            (applyPlayerAt 0 (GameState.player1 st) (GameManager.players g)) !! j.
Proof. rewrite applyGameState_players. now rewrite list_lookup_imap. Qed.

(** A seat keeps its arrow object, or its lack of one, through
    [applyPlayerState]. *)
Lemma applyPlayerAt_arrow (i j : nat) (o : option PlayerState.t)
    (players : list Player.t) (p : Player.t) :
  players !! j = Some p ->
  exists q, applyPlayerAt i o players !! j = Some q
            /\ Player.arrow q = Player.arrow p.
Proof.
  intros Hp. rewrite applyPlayerAt_lookup, Hp.
  destruct o as [st|]; [destruct (decide (i = j))|]; cbn; eauto.
Qed.

(** C1, at the input where it fails.  In a simulation where seat 0's
    arrow is at rest and seat 1's is in flight, [serializeGameState] emits
    the single arrow without its seat, and [applyGameState] hands it to
    seat 0: the projectile activity of both seats is swapped instead of
    reproduced. *)
Theorem C1_roundtrip_misplaces_projectile :
  let s := Scenario.guestFired in
  let s' := applyGameState s (serializeGameState s) in
  map Player.arrowActive (GameManager.players s) = [false; true]
  /\ serializeArrows s = [ArrowState.mk 50 60 true]
  /\ map Player.arrowActive (GameManager.players s') = [true; false]
  /\ map seatView (GameManager.players s') <> map seatView (GameManager.players s).
Proof. cbv zeta. repeat split; try reflexivity. discriminate. Qed.

(** With both arrows in flight the snapshot lists them in seat order, and
    the round trip gives the simulation back. *)
Example roundtrip_bothFired :
  applyGameState Scenario.bothFired (serializeGameState Scenario.bothFired)
  = Scenario.bothFired.
Proof. reflexivity. Qed.

(** A seat that has run out of lives comes back from the round trip with
    three: [player.lives || 3] reads the falsy 0 as missing. *)
Lemma roundtrip_revives_seat :
  let p := Player.set_arrow None (Player.mk 30 400 7 0 None STATIONARY STATIONARY) in
  let s := GameManager.mk [p; Scenario.guest] [] (Some (Score.mk 11)) 31000 2 in
  Player.lives <$> GameManager.players (applyGameState s (serializeGameState s)) !! 0%nat
  = Some 3.
Proof. reflexivity. Qed.

Lemma num_or_0 (v : Z) : Js.num_or v 0 = v.
Proof. unfold Js.num_or. destruct (Z.eqb_spec v 0); congruence. Qed.

Lemma num_or_nonzero (v d : Z) : v <> 0 -> Js.num_or v d = v.
Proof. unfold Js.num_or. destruct (Z.eqb_spec v 0); congruence. Qed.

Lemma serializeBubbles_inverse (bubbles : list Bubble.t) :
  map bubbleOf (serializeBubbles bubbles) = bubbles.
Proof.
  unfold serializeBubbles.
  induction bubbles as [|[] bs IH]; cbn; [reflexivity|].
  rewrite IH. unfold bubbleOf; cbn. now rewrite !num_or_0.
Qed.

(** Where the round trip does hold: with two seats that both have a life
    left, and unless seat 1 alone has fired, the whole simulation comes
    back as it was, up to a level of 0 read as 1. *)
Lemma roundtrip_two_seats (s : GameManager.t) (p0 p1 : Player.t) :
  GameManager.players s = [p0; p1] ->
  Player.lives p0 <> 0 -> Player.lives p1 <> 0 ->
  (Player.arrowActive p1 = true -> Player.arrowActive p0 = true) ->
  let s' := applyGameState s (serializeGameState s) in
  GameManager.players s' = GameManager.players s
  /\ GameManager.bubbleArray s' = GameManager.bubbleArray s
  /\ GameManager.score s' = GameManager.score s
  /\ GameManager.timeRemaining s' = GameManager.timeRemaining s.
Proof.
  intros Hps H0 H1 Hlead. cbv zeta.
  split; [|split; [|split]].
  - rewrite applyGameState_players. unfold serializeGameState. cbn.
    unfold serializeArrows. rewrite Hps. cbn.
    unfold applyPlayerAt, applyPlayerState, serializePlayer. cbn.
    rewrite !num_or_0, (num_or_nonzero _ 3 H0), (num_or_nonzero _ 3 H1).
    unfold pushArrow, Player.arrowActive in *.
    destruct p0 as [x0 y0 sc0 l0 [[ax0 ay0 [] h0]|] m0 t0],
             p1 as [x1 y1 sc1 l1 [[ax1 ay1 [] h1]|] m1 t1];
      cbn in *; rewrite ?num_or_0; try reflexivity;
      specialize (Hlead eq_refl); discriminate.
  - rewrite applyGameState_bubbleArray. cbn. apply serializeBubbles_inverse.
  - rewrite applyGameState_score. cbn.
    destruct (GameManager.score s) as [[v]|]; cbn; [|reflexivity].
    now rewrite num_or_0.
  - rewrite applyGameState_timeRemaining. cbn. apply num_or_0.
Qed.

Lemma String_inj (a b : ascii) (s t : string) :
  String a s = String b t -> a = b /\ s = t.
Proof. intros H. injection H as -> ->. now split. Qed.

(** The digits of a number end where a comma or a closing brace
    follows. *)
Lemma string_of_uint_cancel (d d' : Decimal.uint) (c c' : ascii) (r r' : string) :
  (c = "," \/ c = "}")%char -> (c' = "," \/ c' = "}")%char ->
  String.append (DecimalString.NilEmpty.string_of_uint d) (String c r)
  = String.append (DecimalString.NilEmpty.string_of_uint d') (String c' r') ->
  d = d' /\ String c r = String c' r'.
Proof.
  intros Hc Hc'. revert d'.
  induction d as [|d IH|d IH|d IH|d IH|d IH|d IH|d IH|d IH|d IH|d IH];
    intros [|d'|d'|d'|d'|d'|d'|d'|d'|d'|d'] H; cbn in H;
    try (split; [reflexivity | exact H]);
    apply String_inj in H as [Hch Ht];
    first [ discriminate Hch
          | rewrite Hch in Hc; destruct Hc as [Hc|Hc]; discriminate Hc
          | rewrite <- Hch in Hc'; destruct Hc' as [Hc'|Hc']; discriminate Hc'
          | apply IH in Ht as [-> Ht]; split; [reflexivity | exact Ht] ].
Qed.

Lemma numberToString_cancel (a b : Z) (c c' : ascii) (r r' : string) :
  (c = "," \/ c = "}")%char -> (c' = "," \/ c' = "}")%char ->
  String.append (numberToString a) (String c r)
  = String.append (numberToString b) (String c' r') ->
  a = b /\ String c r = String c' r'.
Proof.
  intros Hc Hc' H.
  assert (Z.to_int a = Z.to_int b /\ String c r = String c' r') as [E Hr].
  { unfold numberToString in H.
    destruct (Z.to_int a) as [d|d], (Z.to_int b) as [d'|d']; cbn in H.
    - apply string_of_uint_cancel in H as [-> H]; auto.
    - destruct d; cbn in H; apply String_inj in H as [Hch _];
        first [ discriminate Hch
              | rewrite Hch in Hc; destruct Hc as [Hc|Hc]; discriminate Hc ].
    - destruct d'; cbn in H; apply String_inj in H as [Hch _];
        first [ discriminate Hch
              | rewrite <- Hch in Hc'; destruct Hc' as [Hc'|Hc']; discriminate Hc' ].
    - apply String_inj in H as [_ H].
      apply string_of_uint_cancel in H as [-> H]; auto. }
  split; [|exact Hr].
  rewrite <- (DecimalZ.of_to a), <- (DecimalZ.of_to b). now rewrite E.
Qed.

(** Two player records have the same JSON text only if they are the same
    record. *)
Lemma stringify_inj (a b : PlayerState.t) :
  stringify (Some a) = stringify (Some b) -> a = b.
Proof.
  destruct a as [x y sc l], b as [x' y' sc' l'].
  unfold stringify, member. cbn [String.append PlayerState.x PlayerState.y
                                 PlayerState.score PlayerState.lives].
  intros H. injection H as H.
  repeat (apply String_inj in H as [_ H]).
  apply numberToString_cancel in H as [-> H]; auto.
  repeat (apply String_inj in H as [_ H]).
  apply numberToString_cancel in H as [-> H]; auto.
  repeat (apply String_inj in H as [_ H]).
  apply numberToString_cancel in H as [-> H]; auto.
  repeat (apply String_inj in H as [_ H]).
  apply numberToString_cancel in H as [-> H]; auto.
Qed.

(** The texts of two records differ exactly when the records do. *)
Lemma stringify_differs_spec (a b : option PlayerState.t) :
  stringify_differs a b = false <-> a = b.
Proof.
  unfold stringify_differs.
  destruct a as [a|], b as [b|]; cbn [stringify]; try (split; congruence).
  destruct (String.eqb_spec
              (String "{"
                 (member "x" (PlayerState.x a)
                    (String ","
                       (member "y" (PlayerState.y a)
                          (String ","
                             (member "score" (PlayerState.score a)
                                (String ","
                                   (member "lives" (PlayerState.lives a) "}"))))))))
              (String "{"
                 (member "x" (PlayerState.x b)
                    (String ","
                       (member "y" (PlayerState.y b)
                          (String ","
                             (member "score" (PlayerState.score b)
                                (String ","
                                   (member "lives" (PlayerState.lives b) "}")))))))))
    as [E|E]; cbn [negb]; split; try congruence.
  intros _. f_equal. apply stringify_inj. cbn [stringify]. now rewrite E.
Qed.

(** [createDelta] omits the record of a player that did not change, and
    always carries the bubble and arrow lists. *)
Lemma createDelta_unchanged_player (oldState newState : GameState.t) :
  (GameState.player1 oldState = GameState.player1 newState ->
   d_player1 (createDelta oldState newState) = None)
  /\ (GameState.player2 oldState = GameState.player2 newState ->
      d_player2 (createDelta oldState newState) = None)
  /\ d_bubbles (createDelta oldState newState) = GameState.bubbles newState
  /\ d_arrows (createDelta oldState newState) = GameState.arrows newState.
Proof.
  unfold createDelta; cbn. repeat split.
  - intros E. now rewrite (proj2 (stringify_differs_spec _ _) E).
  - intros E. now rewrite (proj2 (stringify_differs_spec _ _) E).
Qed.

End GameStateSyncFacts.

(* ================================================================= *)
(** ** Synchronisation of an instance of class GameManager *)

Section InstanceFacts.
Import GameStateSync GameManagerInstance.

(** On a whole snapshot, the instance under its property names is taken
    where [GameStateSync.applyGameState] takes the named object. *)
Lemma named_applyGameState (gm : GameManagerInstance.t) (st : GameState.t) :
  named (applyGameState gm (whole st)) = GameStateSync.applyGameState (named gm) st.
Proof. destruct gm as [ps [sc|] tr lv sb ob cl]; reflexivity. Qed.

Lemma named_serializeGameState (gm : GameManagerInstance.t) :
  serializeGameState gm = GameStateSync.serializeGameState (named gm).
Proof.
  destruct gm as [ps [[sc|]|] [tr|] lv sb [ob|] [cl|]]; reflexivity.
Qed.

Lemma instance_players (gm : GameManagerInstance.t) (st : Delta) :
  players (applyGameState gm st)
  = imap (fun j p => arrowOnto (d_arrows st) j (resetArrow p))
         (applyPlayerAt 1 (d_player2 st)
            (applyPlayerAt 0 (d_player1 st) (players gm))).
Proof.
  exact (applyArrows_players (d_arrows st)
           (GameManager.mk (applyPlayerAt 1 (d_player2 st)
                              (applyPlayerAt 0 (d_player1 st) (players gm)))
                           [] None 0 0)).
Qed.

Lemma instance_seat (gm : GameManagerInstance.t) (st : Delta) (j : nat) :
  players (applyGameState gm st) !! j
  = arrowOnto (d_arrows st) j ∘ resetArrow
      <$> applyPlayerAt 1 (d_player2 st)
            (applyPlayerAt 0 (d_player1 st) (players gm)) !! j.
Proof. rewrite instance_players. now rewrite list_lookup_imap. Qed.

Lemma instance_bubbleArray (gm : GameManagerInstance.t) (st : Delta) :
  bubbleArray (applyGameState gm st) = Some (map bubbleOf (d_bubbles st)).
Proof. unfold applyGameState. cbn. now rewrite (foldl_push bubbleOf). Qed.

Lemma num_or_undefined_0 (v : option Z) : num_or_undefined v 0 = default 0 v.
Proof. destruct v; cbn; [apply num_or_0 | reflexivity]. Qed.

(** C2.  On an instance of class GameManager with two seated players,
    applying the snapshot of scenario B sets seat 0 to exactly x=100,
    y=200, score=5, lives=2, leaves no player with a projectile in
    flight, sets the score of the score object to 5 and timeRemaining to
    12000.  The empty collection and the level 2 go to the properties
    [bubbleArray] and [currentLevel] of the instance, which the class
    does not have: the breakable objects of the game, in the static
    [GameManager.bubbleArray], and its [level] are what they were. *)
Theorem C2_apply_scenario_B_misses_bubbles_and_level (gm : GameManagerInstance.t) :
  List.length (players gm) = 2%nat ->
  let gm' := applyGameState gm (whole Scenario.snapshotB) in
  (exists q0, players gm' !! 0%nat = Some q0
              /\ Player.x q0 = 100 /\ Player.y q0 = 200
              /\ Player.score q0 = 5 /\ Player.lives q0 = 2)
  /\ (forall q, In q (players gm') -> Player.arrowActive q = false)
  /\ score gm' = (fun _ => Some 5) <$> score gm
  /\ timeRemaining gm' = Some 12000
  /\ bubbleArray gm' = Some []
  /\ currentLevel gm' = Some 2
  /\ GameManager_bubbleArray gm' = GameManager_bubbleArray gm
  /\ level gm' = level gm.
Proof.
  intros Hlen. cbv zeta.
  destruct (players gm) as [|p0 [|p1 [|? ?]]] eqn:Hps;
    try discriminate Hlen.
  split; [|split; [|split; [|repeat split]]].
  - rewrite instance_seat, Hps. cbn.
    eexists; split; [reflexivity|].
    destruct p0 as [? ? ? ? [a|] ? ?]; cbn; repeat split.
  - intros q Hq. rewrite instance_players, Hps in Hq.
    destruct p0 as [? ? ? ? [?|] ? ?], p1 as [? ? ? ? [?|] ? ?];
      cbn in Hq; destruct Hq as [<-|[<-|[]]]; reflexivity.
  - unfold applyGameState. cbn. now destruct (score gm).
Qed.

Lemma C2_apply_scenario_B_instance_witness :
  let gm' := applyGameState Scenario.guestGame (whole Scenario.snapshotB) in
  bubbleArray gm' = Some [] /\ currentLevel gm' = Some 2
  /\ GameManager_bubbleArray gm' = [Scenario.bubble1] /\ level gm' = 1.
Proof.
  destruct (C2_apply_scenario_B_misses_bubbles_and_level Scenario.guestGame eq_refl)
    as (_ & _ & _ & _ & Hown & Hcur & Hstatic & Hlevel).
  cbv zeta. repeat split; assumption.
Defined.

(** C9.  When a snapshot lacks the record of a seat, [applyGameState]
    leaves that seat's x, y, score and lives as they were; in every case
    it derives each seat's projectile flag from the snapshot entry at the
    seat's index and overwrites the score of the score object and
    timeRemaining with the snapshot's.  The snapshot's bubbles and level
    go to the properties [bubbleArray] and [currentLevel] of the
    instance: the breakable objects of the game, in the static
    [GameManager.bubbleArray], are not replaced and its [level] is not
    overwritten. *)
Theorem C9_absent_record_kept_bubbles_and_level_missed
    (gm : GameManagerInstance.t) (st : Delta) :
  let gm' := applyGameState gm st in
  (forall (i : nat) (p : Player.t),
      (i = 0%nat /\ d_player1 st = None) \/ (i = 1%nat /\ d_player2 st = None) ->
      players gm !! i = Some p ->
      exists q, players gm' !! i = Some q
                /\ Player.x q = Player.x p /\ Player.y q = Player.y p
                /\ Player.score q = Player.score p
                /\ Player.lives q = Player.lives p)
  /\ (forall (j : nat) (p : Player.t),
        players gm !! j = Some p ->
        exists q, players gm' !! j = Some q
                  /\ Player.arrowActive q
                     = match Player.arrow p with
                       | Some _ => snapshotActive (d_arrows st) j
                       | None => false
                       end)
  /\ score gm' = (fun _ => d_score st) <$> score gm
  /\ timeRemaining gm' = d_timeRemaining st
  /\ bubbleArray gm' = Some (map bubbleOf (d_bubbles st))
  /\ currentLevel gm' = d_level st
  /\ GameManager_bubbleArray gm' = GameManager_bubbleArray gm
  /\ level gm' = level gm.
Proof.
  cbv zeta. split; [|split; [|split; [|split; [|split; [|repeat split]]]]].
  - intros i p Habsent Hp.
    rewrite instance_seat, !applyPlayerAt_lookup.
    destruct Habsent as [[-> ->]|[-> ->]].
    + destruct (d_player2 st); [rewrite decide_False by lia|];
        rewrite Hp; cbn [fmap option_fmap option_map];
        (eexists; split; [reflexivity|]); unfold compose;
        destruct (arrowOnto_record (d_arrows st) 0 p) as (-> & -> & -> & -> & _);
        repeat split.
    + destruct (d_player1 st); [rewrite decide_False by lia|];
        rewrite Hp; cbn [fmap option_fmap option_map];
        (eexists; split; [reflexivity|]); unfold compose;
        destruct (arrowOnto_record (d_arrows st) 1 p) as (-> & -> & -> & -> & _);
        repeat split.
  - intros j p Hp.
    destruct (applyPlayerAt_arrow 0 j (d_player1 st) _ p Hp) as (q1 & Hq1 & Ha1).
    destruct (applyPlayerAt_arrow 1 j (d_player2 st) _ q1 Hq1) as (q2 & Hq2 & Ha2).
    rewrite instance_seat, Hq2. cbn [fmap option_fmap option_map].
    eexists; split; [reflexivity|].
    unfold compose. rewrite arrowOnto_active. now rewrite Ha2, Ha1.
  - unfold applyGameState. cbn. now destruct (score gm).
  - reflexivity.
  - apply instance_bubbleArray.
Qed.

Lemma C9_absent_record_instance_witness :
  let gm' := applyGameState Scenario.guestGame (whole Scenario.withoutPlayer1) in
  (exists q, players gm' !! 0%nat = Some q
             /\ Player.x q = 30 /\ Player.y q = 400
             /\ Player.score q = 7 /\ Player.lives q = 3)
  /\ bubbleArray gm' = Some [Bubble.mk 125 77 40 2 (-3)]
  /\ currentLevel gm' = Some 3
  /\ GameManager_bubbleArray gm' = [Scenario.bubble1]
  /\ level gm' = 1.
Proof.
  destruct (C9_absent_record_kept_bubbles_and_level_missed
              Scenario.guestGame (whole Scenario.withoutPlayer1))
    as (Hseat & _ & _ & _ & Hown & Hcur & Hstatic & Hlevel).
  cbv zeta. split; [|repeat split; assumption].
  apply (Hseat 0%nat Scenario.host).
  - left. split; reflexivity.
  - reflexivity.
Defined.

(** A delta that leaves out an aggregate that did not change has the
    receiver write [undefined] over it. *)
Lemma applyGameState_delta_unsets_unchanged :
  let old := serializeGameState Scenario.guestGame in
  let gm' := applyGameState Scenario.guestGame (createDelta old old) in
  score gm' = Some None /\ timeRemaining gm' = None.
Proof. cbv zeta. split; reflexivity. Qed.

(** X4.  What a snapshot carries from the host's game manager to the
    guest's.  The remaining time and the aggregate score arrive (a
    missing one as 0; the score where the guest holds a score object).
    The bubbles and the level do not: the snapshot lists the bubbles of
    the host's own [bubbleArray] property and the level of its
    [currentLevel], so a host that has neither sends no bubbles and level
    1, whatever its static [GameManager.bubbleArray] and its [level]
    hold; and the guest keeps its static bubble array and its level. *)
Theorem X4_snapshot_carries_time_and_score_only (host guest : GameManagerInstance.t) :
  let snapshot := serializeGameState host in
  let guest' := applyGameState guest (whole snapshot) in
  timeRemaining guest' = Some (default 0 (timeRemaining host))
  /\ score guest'
     = (fun _ => Some (match score host with
                       | Some v => default 0 v
                       | None => 0
                       end)) <$> score guest
  /\ (bubbleArray host = None -> GameState.bubbles snapshot = [])
  /\ (currentLevel host = None -> GameState.level snapshot = 1)
  /\ GameManager_bubbleArray guest' = GameManager_bubbleArray guest
  /\ level guest' = level guest.
Proof.
  cbv zeta. split; [|split; [|split; [|split; [|split]]]].
  - unfold applyGameState, serializeGameState. cbn.
    now rewrite num_or_undefined_0.
  - unfold applyGameState, serializeGameState. cbn.
    destruct (score guest); cbn; [|reflexivity].
    destruct (score host); [now rewrite num_or_undefined_0 | reflexivity].
  - unfold serializeGameState. cbn. now intros ->.
  - unfold serializeGameState. cbn. now intros ->.
  - reflexivity.
  - reflexivity.
Qed.

Lemma X4_snapshot_carries_time_and_score_witness :
  let snapshot := serializeGameState Scenario.hostGame in
  GameState.bubbles snapshot = [] /\ GameState.level snapshot = 1
  /\ timeRemaining (applyGameState Scenario.guestGame (whole snapshot)) = Some 29000.
Proof.
  destruct (X4_snapshot_carries_time_and_score_only Scenario.hostGame Scenario.guestGame)
    as (Htime & _ & Hbubbles & Hlevel & _).
  cbv zeta. split; [exact (Hbubbles eq_refl)|].
  split; [exact (Hlevel eq_refl) | exact Htime].
Defined.

End InstanceFacts.

(* ================================================================= *)
(** ** Connection management *)

Section NetworkManagerFacts.
Import NetworkManager.

Lemma string_length_append (a b : string) :
  String.length (String.append a b) = (String.length a + String.length b)%nat.
Proof. induction a as [|c a IH]; cbn; [reflexivity | now rewrite IH]. Qed.

Lemma string_forallb_append (f : ascii -> bool) (a b : string) :
  string_forallb f (String.append a b) = string_forallb f a && string_forallb f b.
Proof.
  induction a as [|c a IH]; cbn; [reflexivity|].
  rewrite IH. now rewrite andb_assoc.
Qed.

(** A draw in [0, 1) scaled by the alphabet's size and floored is an
    index into the alphabet. *)
Lemma draw_index (r : Q) :
  (0 <= r)%Q -> (r < 1)%Q ->
  0 <= Qfloor (r * inject_Z (Z.of_nat (String.length chars))) < 36.
Proof.
  intros H0 H1. change (Z.of_nat (String.length chars)) with 36.
  split.
  - change 0 with (Qfloor (inject_Z 0)). apply Qfloor_resp_le.
    change (inject_Z 0) with (0 * inject_Z 36)%Q.
    apply Qmult_le_compat_r; [exact H0 | discriminate].
  - assert (Hlt : (inject_Z (Qfloor (r * inject_Z 36)) < inject_Z 36)%Q).
    { eapply Qle_lt_trans; [apply Qfloor_le|].
      destruct r as [a b]. unfold Qlt in *. cbn in *.
      rewrite Pos.mul_1_r. lia. }
    now rewrite <- Zlt_Qlt in Hlt.
Qed.

(** Every index into the alphabet yields one character of [A-Z0-9]. *)
Lemma charAt_chars (k : Z) :
  0 <= k < 36 ->
  exists c, charAt chars k = String c EmptyString /\ is_upper_alnum c = true.
Proof.
  intros [Hlo Hhi]. unfold charAt.
  destruct (Z.ltb_spec k 0) as [Hneg|_]; [lia|].
  assert (Hn : (Z.to_nat k < 36)%nat) by lia.
  generalize dependent (Z.to_nat k). intros n Hn.
  do 36 (destruct n as [|n]; [eexists; split; reflexivity|]).
  lia.
Qed.

(** The shape of a generated code, for draws within [Math.random]'s range. *)
Lemma generateRoomCode_shape (random : nat -> Q) :
  (forall i, (0 <= random i)%Q /\ (random i < 1)%Q) ->
  String.length (generateRoomCode random) = 6%nat
  /\ string_forallb is_upper_alnum (generateRoomCode random) = true.
Proof.
  intros Hrange. unfold generateRoomCode. cbn [seq foldl].
  assert (Hc : forall i, exists c,
             charAt chars (Qfloor (random i * inject_Z (Z.of_nat (String.length chars))))
             = String c EmptyString /\ is_upper_alnum c = true).
  { intros i. apply charAt_chars. destruct (Hrange i). now apply draw_index. }
  destruct (Hc 0%nat) as (c0 & -> & H0), (Hc 1%nat) as (c1 & -> & H1),
           (Hc 2%nat) as (c2 & -> & H2), (Hc 3%nat) as (c3 & -> & H3),
           (Hc 4%nat) as (c4 & -> & H4), (Hc 5%nat) as (c5 & -> & H5).
  cbn. now rewrite H0, H1, H2, H3, H4, H5.
Qed.

(** C7.  Whatever [Math.random] returns within its range [0, 1), the
    room-code generator returns exactly 6 characters, each from [A-Z0-9]. *)
Theorem C7_generateRoomCode_six_upper_alnum (random : nat -> Q) :
  (forall i, (0 <= random i)%Q /\ (random i < 1)%Q) ->
  String.length (generateRoomCode random) = 6%nat
  /\ string_forallb is_upper_alnum (generateRoomCode random) = true.
Proof. exact (generateRoomCode_shape random). Qed.

Example generateRoomCode_sample :
  generateRoomCode (fun i => Z.of_nat i # Pos.of_succ_nat i) = "ASY124".
Proof. vm_compute. reflexivity. Qed.

Lemma C7_generateRoomCode_witness :
  String.length (generateRoomCode (fun i => Z.of_nat i # Pos.of_succ_nat i)) = 6%nat
  /\ string_forallb is_upper_alnum
       (generateRoomCode (fun i => Z.of_nat i # Pos.of_succ_nat i)) = true.
Proof.
  apply (C7_generateRoomCode_six_upper_alnum (fun i => Z.of_nat i # Pos.of_succ_nat i)).
  intros i. unfold Qle, Qlt. cbn. rewrite Zpos_P_of_succ_nat. lia.
Defined.

(** [send] never raises: its body always completes normally, with the
    state and trace that [send] reports. *)
Lemma sendBody_normal (sendThrows : bool) (message : NetworkMessage) (n : t) :
  sendBody sendThrows message n = Js.Normal (send sendThrows message n).
Proof.
  unfold send, sendBody, connectionSend.
  destruct (channelOpen n), sendThrows; reflexivity.
Qed.

Lemma send_trace (sendThrows : bool) (message : NetworkMessage) (n : t) :
  send sendThrows message n
  = (n, if channelOpen n
        then if sendThrows
             then [ConsoleError "Failed to send message:"]
             else [ConnectionSend message]
        else [ConsoleWarn "Cannot send message: connection not open"]).
Proof.
  unfold send, sendBody, connectionSend.
  destruct (channelOpen n), sendThrows; reflexivity.
Qed.

(** C6 (amended).  For every message and every state of the manager,
    [send] raises nothing; it hands the message to the transport exactly
    when the data channel exists and reports open, whatever the status
    field holds (a raise inside the transport is caught and logged as an
    error); when the channel is absent or closed the message is dropped
    with a warning; and the manager's state is left as it was, so nothing
    is queued or retried. *)
Theorem C6_send_gated_by_channel
    (sendThrows : bool) (message : NetworkMessage) (n : t) :
  sendBody sendThrows message n = Js.Normal (send sendThrows message n)
  /\ fst (send sendThrows message n) = n
  /\ (transmits message (snd (send sendThrows message n))
      <-> channelOpen n = true /\ sendThrows = false)
  /\ (channelOpen n = false ->
      snd (send sendThrows message n)
      = [ConsoleWarn "Cannot send message: connection not open"])
  /\ (channelOpen n = true -> sendThrows = true ->
      snd (send sendThrows message n) = [ConsoleError "Failed to send message:"])
  /\ (channelOpen n = true -> sendThrows = false ->
      snd (send sendThrows message n) = [ConnectionSend message]).
Proof.
  split; [apply sendBody_normal|].
  rewrite send_trace. cbn [fst snd]. unfold transmits.
  destruct (channelOpen n), sendThrows; cbn; repeat split;
    try congruence; try tauto; intros; intuition (try discriminate; auto).
Qed.

Lemma C6_send_gated_by_channel_witness :
  snd (send false (StartGameMessage 5) NetworkManager.init)
  = [ConsoleWarn "Cannot send message: connection not open"]
  /\ snd (send false (StartGameMessage 5) Scenario.hostAfterPeerError)
     = [ConnectionSend (StartGameMessage 5)].
Proof.
  split.
  - apply (C6_send_gated_by_channel false (StartGameMessage 5) NetworkManager.init).
    reflexivity.
  - apply (C6_send_gated_by_channel false (StartGameMessage 5)
             Scenario.hostAfterPeerError); reflexivity.
Defined.

(** C6 as stated fails once the status and the channel disagree.  After
    the host's channel has opened, an error event of the peer sets the
    status to [error] and leaves the channel open; [send] then still
    transmits, although the status is not [connected]. *)
Lemma C6_counterexample_error_status :
  status Scenario.hostAfterPeerError = error
  /\ isConnected Scenario.hostAfterPeerError = false
  /\ transmits (StartGameMessage 5)
       (snd (send false (StartGameMessage 5) Scenario.hostAfterPeerError)).
Proof. repeat split. cbn. now left. Qed.

Lemma upcase_not_lower (c : ascii) : is_lower (upcase c) = false.
Proof. destruct c as [[] [] [] [] [] [] [] []]; reflexivity. Qed.

Lemma upcase_downcase (c : ascii) :
  is_upper_alnum c = true -> upcase (downcase c) = c.
Proof.
  destruct c as [[] [] [] [] [] [] [] []]; vm_compute; intros H;
    first [reflexivity | discriminate H].
Qed.

Lemma toUpperCase_no_lower (s : string) :
  string_forallb (fun c => negb (is_lower c)) (toUpperCase s) = true.
Proof.
  unfold toUpperCase. induction s as [|c s IH]; cbn; [reflexivity|].
  now rewrite upcase_not_lower, IH.
Qed.

Lemma toUpperCase_toLowerCase (s : string) :
  string_forallb is_upper_alnum s = true -> toUpperCase (toLowerCase s) = s.
Proof.
  unfold toUpperCase, toLowerCase. induction s as [|c s IH]; cbn; [reflexivity|].
  intros H. apply andb_prop in H as [Hc Hs].
  now rewrite upcase_downcase, IH.
Qed.

Lemma joinRoom_roomCode (code : string) (peerThrows : bool) (n : t) :
  roomCode (fst (joinRoom code peerThrows n)) = toUpperCase code
  /\ isHost (fst (joinRoom code peerThrows n)) = false.
Proof.
  unfold joinRoom, openPeer, updateStatus. destruct peerThrows; split; reflexivity.
Qed.

(** The host opens its peer under the room code it generated. *)
Lemma createRoom_registers_code (random : nat -> Q) (n : t) :
  roomCode (fst (createRoom random false n)) = generateRoomCode random
  /\ In (NewPeer (Some (generateRoomCode random))) (snd (createRoom random false n)).
Proof.
  unfold createRoom, openPeer, updateStatus. cbn. split; [reflexivity|].
  apply in_or_app. right. now left.
Qed.

Lemma upcase_ascii (c : ascii) : is_ascii c = true -> is_ascii (upcase c) = true.
Proof.
  destruct c as [[] [] [] [] [] [] [] []]; intros H;
    first [reflexivity | discriminate H].
Qed.

Lemma toUpperCase_ascii (s : string) :
  string_forallb is_ascii s = true -> string_forallb is_ascii (toUpperCase s) = true.
Proof.
  unfold toUpperCase.
  induction s as [|c s IH]; cbn [string_map string_forallb]; [reflexivity|].
  intros H. apply andb_prop in H as [Hc Hs].
  now rewrite (upcase_ascii c Hc), IH.
Qed.

Lemma upper_alnum_ascii (s : string) :
  string_forallb is_upper_alnum s = true -> string_forallb is_ascii s = true.
Proof.
  induction s as [|c s IH]; cbn [string_forallb]; [reflexivity|].
  intros H. apply andb_prop in H as [Hc Hs]. rewrite (IH Hs), andb_true_r.
  revert Hc. destruct c as [[] [] [] [] [] [] [] []]; intros H;
    first [reflexivity | discriminate H].
Qed.

(** An ASCII string does not start with the first byte of U+0138. *)
Lemma prefix_kra_ascii (c : ascii) (s : string) :
  is_ascii c = true -> String.prefix kra (String c s) = false.
Proof.
  destruct c as [[] [] [] [] [] [] [] []]; intros H;
    first [reflexivity | discriminate H].
Qed.

(** On ASCII strings the lowercase letters are those of [a-z]. *)
Lemma has_lowercase_ascii (s : string) :
  string_forallb is_ascii s = true ->
  has_lowercase s = negb (string_forallb (fun c => negb (is_lower c)) s).
Proof.
  induction s as [|c s IH]; [reflexivity|].
  cbn [string_forallb has_lowercase]. intros H. apply andb_prop in H as [Hc Hs].
  rewrite (prefix_kra_ascii c s Hc), (IH Hs), orb_false_r.
  now destruct (is_lower c), (string_forallb _ s).
Qed.

Lemma toUpperCase_no_lowercase (s : string) :
  string_forallb is_ascii s = true -> has_lowercase (toUpperCase s) = false.
Proof.
  intros H. rewrite has_lowercase_ascii by now apply toUpperCase_ascii.
  now rewrite toUpperCase_no_lower.
Qed.

(** C10 (amended).  For a code of ASCII characters, [joinRoom(code)]
    stores [code.toUpperCase()] as the room code; the stored code is
    ASCII and holds no lowercase letter; the connection made once the
    peer is open goes to that stored code; so a room code typed in
    lowercase connects to the room created under the code itself. *)
Theorem C10_joinRoom_stores_uppercase_ascii
    (code : string) (peerThrows : bool) (n : t) :
  string_forallb is_ascii code = true ->
  let n' := fst (joinRoom code peerThrows n) in
  roomCode n' = toUpperCase code
  /\ string_forallb is_ascii (roomCode n') = true
  /\ has_lowercase (roomCode n') = false
  /\ snd (onGuestPeerOpen n') = [PeerConnect (toUpperCase code)]
  /\ (forall hostCode : string,
        string_forallb is_upper_alnum hostCode = true ->
        code = toLowerCase hostCode ->
        roomCode n' = hostCode
        /\ snd (onGuestPeerOpen n') = [PeerConnect hostCode]).
Proof.
  intros Hascii. cbv zeta.
  destruct (joinRoom_roomCode code peerThrows n) as [Hcode _].
  unfold onGuestPeerOpen. cbn [snd]. rewrite Hcode.
  split; [reflexivity|]. split; [now apply toUpperCase_ascii|].
  split; [now apply toUpperCase_no_lowercase|].
  split; [reflexivity|].
  intros hostCode Halnum ->. now rewrite toUpperCase_toLowerCase.
Qed.

Lemma C10_joinRoom_ascii_witness :
  roomCode (fst (joinRoom "ab12c9" false NetworkManager.init)) = "AB12C9"
  /\ snd (onGuestPeerOpen (fst (joinRoom "ab12c9" false NetworkManager.init)))
     = [PeerConnect "AB12C9"].
Proof.
  destruct (C10_joinRoom_stores_uppercase_ascii "ab12c9" false NetworkManager.init
              eq_refl)
    as (_ & _ & _ & _ & Hrendezvous).
  apply (Hrendezvous "AB12C9"); reflexivity.
Defined.

(** C10 as stated, for every string, fails on U+0138: [toUpperCase]
    returns this lowercase letter as it is, so the stored room code holds
    a lowercase letter. *)
Lemma C10_counterexample_kra :
  let n' := fst (joinRoom kra false NetworkManager.init) in
  roomCode n' = kra /\ has_lowercase (roomCode n') = true.
Proof. split; reflexivity. Qed.

End NetworkManagerFacts.

(* ================================================================= *)
(** ** The lobby's ready handshake *)

Section LobbyFacts.
Import LobbyUI.

(** What the manager does on its own never looks like a call of the
    lobby. *)
Lemma Net_not_call (fx : list NetworkManager.effect) (e : effect) :
  (forall x, e <> Net x) -> ~ In e (map Net fx).
Proof.
  intros Hne Hin. apply in_map_iff in Hin as (x & Hx & _).
  now apply (Hne x).
Qed.

Lemma checkBothReady_trace (env : Env.t) (l : t) (n : NetworkManager.t) :
  snd (checkBothReady env (l, n))
  = if isReady l && remoteReady l && NetworkManager.isHostPlayer n
    then CallSend (StartGameMessage (Env.now env))
         :: map Net (snd (NetworkManager.send (Env.sendThrows env)
                            (StartGameMessage (Env.now env)) n))
         ++ (if onGameStart l then [GameStart] else [])
    else [].
Proof.
  unfold checkBothReady, call, startGame.
  destruct (isReady l), (remoteReady l), (NetworkManager.isHostPlayer n); cbn;
    try reflexivity.
  rewrite send_trace. cbn.
  now destruct (NetworkManager.channelOpen n), (Env.sendThrows env).
Qed.

(** The status callback only rewrites the status line. *)
Lemma absorb_keeps (fx : list NetworkManager.effect) (l : t) :
  mode (absorb fx l) = mode l
  /\ isReady (absorb fx l) = isReady l
  /\ remoteReady (absorb fx l) = remoteReady l
  /\ onGameStart (absorb fx l) = onGameStart l.
Proof.
  unfold absorb. revert l. induction fx as [|e fx IH]; intros l; cbn.
  - repeat split.
  - destruct (IH (match e with
                  | NetworkManager.OnStatusChange s => updateStatusMessage s l
                  | _ => l
                  end)) as (-> & -> & -> & ->).
    destruct e; try (repeat split; reflexivity).
    destruct status0; repeat split; reflexivity.
Qed.

Lemma checkBothReady_flags (env : Env.t) (l : t) (n : NetworkManager.t) :
  let l' := fst (fst (checkBothReady env (l, n))) in
  isReady l' = isReady l /\ remoteReady l' = remoteReady l
  /\ snd (fst (checkBothReady env (l, n))) = n.
Proof.
  unfold checkBothReady, call, startGame.
  destruct (isReady l && remoteReady l); [|repeat split; reflexivity].
  destruct (NetworkManager.isHostPlayer n); [|repeat split; reflexivity].
  rewrite send_trace. cbn [fst snd].
  destruct (absorb_keeps
              (if NetworkManager.channelOpen n
               then if Env.sendThrows env
                    then [NetworkManager.ConsoleError "Failed to send message:"]
                    else [NetworkManager.ConnectionSend (StartGameMessage (Env.now env))]
               else [NetworkManager.ConsoleWarn
                       "Cannot send message: connection not open"]) l)
    as (_ & -> & -> & _).
  repeat split.
Qed.

Lemma quiet_nil : quiet [].
Proof. intros e []. Qed.

Lemma quiet_app (a b : list effect) : quiet a -> quiet b -> quiet (a ++ b).
Proof.
  intros Ha Hb e Hin. apply in_app_or in Hin as [H|H]; [now apply Ha | now apply Hb].
Qed.

Lemma quiet_Net (fx : list NetworkManager.effect) :
  (forall m, ~ In (NetworkManager.ConnectionSend m) fx) -> quiet (map Net fx).
Proof.
  intros Hno e Hin. apply in_map_iff in Hin as (x & <- & Hx).
  destruct x; try exact I. exact (Hno _ Hx).
Qed.

Ltac no_send :=
  let H := fresh "H" in
  intros H; cbn in H;
  repeat (destruct H as [H|H]; [discriminate H|]); exact H.

Lemma updateStatus_silent (s : NetworkManager.ConnectionStatus)
    (n : NetworkManager.t) (m : NetworkMessage) :
  ~ In (NetworkManager.ConnectionSend m) (snd (NetworkManager.updateStatus s n)).
Proof.
  unfold NetworkManager.updateStatus. cbn.
  destruct (NetworkManager.onStatusChangeCallback n); no_send.
Qed.

Lemma createRoom_silent (random : nat -> Q) (peerThrows : bool)
    (n : NetworkManager.t) (m : NetworkMessage) :
  ~ In (NetworkManager.ConnectionSend m)
       (snd (NetworkManager.createRoom random peerThrows n)).
Proof.
  unfold NetworkManager.createRoom, NetworkManager.openPeer,
    NetworkManager.updateStatus.
  destruct peerThrows; cbn;
    destruct (NetworkManager.onStatusChangeCallback n); no_send.
Qed.

Lemma joinRoom_silent (code : string) (peerThrows : bool)
    (n : NetworkManager.t) (m : NetworkMessage) :
  ~ In (NetworkManager.ConnectionSend m)
       (snd (NetworkManager.joinRoom code peerThrows n)).
Proof.
  unfold NetworkManager.joinRoom, NetworkManager.openPeer,
    NetworkManager.updateStatus.
  destruct peerThrows; cbn;
    destruct (NetworkManager.onStatusChangeCallback n); no_send.
Qed.

Lemma disconnect_silent (n : NetworkManager.t) (m : NetworkMessage) :
  ~ In (NetworkManager.ConnectionSend m) (snd (NetworkManager.disconnect n)).
Proof.
  unfold NetworkManager.disconnect, NetworkManager.stopPingInterval,
    NetworkManager.updateStatus.
  destruct (NetworkManager.pingIntervalId n) as [i|]; [destruct (i =? 0)%Z|];
    cbn; destruct (NetworkManager.connection n); cbn;
    destruct (NetworkManager.peer n); cbn;
    destruct (NetworkManager.onStatusChangeCallback n); no_send.
Qed.

Lemma quiet_call (request : effect) (fx : list NetworkManager.effect) :
  match request with CallSend _ | GameStart | Net _ => False | _ => True end ->
  (forall m, ~ In (NetworkManager.ConnectionSend m) fx) ->
  quiet (request :: map Net fx).
Proof.
  intros Hreq Hfx e [<-|Hin].
  - destruct request; tauto.
  - now apply (quiet_Net fx).
Qed.

Lemma escape_other (key : string) (o : outcome) :
  key <> "Escape" -> escape key o = o.
Proof.
  intros Hne. destruct o as [[l n] fx]. unfold escape.
  now destruct (String.eqb_spec key "Escape").
Qed.

Lemma absorb_send (sendThrows : bool) (message : NetworkMessage)
    (n : NetworkManager.t) (l : t) :
  absorb (snd (NetworkManager.send sendThrows message n)) l = l.
Proof.
  rewrite send_trace. cbn.
  now destruct (NetworkManager.channelOpen n), sendThrows.
Qed.

Lemma onKeydown_ready (env : Env.t) (key : string) (l : t) (n : NetworkManager.t) :
  readyPress key l n = true ->
  let l1 := set_status "You are ready! Waiting for other player..."
                       (set_isReady true l) in
  onKeydown env key (l, n)
  = (fst (checkBothReady env (l1, n)),
     CallSend (PlayerReadyMessage (playerName n) (Env.now env))
     :: map Net (snd (NetworkManager.send (Env.sendThrows env)
                        (PlayerReadyMessage (playerName n) (Env.now env)) n))
     ++ snd (checkBothReady env (l1, n))).
Proof.
  unfold readyPress. intros Hready. cbv zeta.
  destruct (mode l) eqn:Hmode; try discriminate Hready.
  apply andb_prop in Hready as [Hready Hnot].
  apply andb_prop in Hready as [Hconn Hr].
  assert (Hkey : key <> "Escape").
  { intros ->. discriminate Hr. }
  unfold onKeydown. rewrite Hmode, Hconn, Hr, Hnot. cbn [andb].
  rewrite escape_other by exact Hkey.
  unfold call.
  destruct (NetworkManager.send (Env.sendThrows env)
              (PlayerReadyMessage (playerName n) (Env.now env)) n)
    as [n1 fx1] eqn:Hsend.
  assert (Hn1 : n1 = n).
  { pose proof (send_trace (Env.sendThrows env)
                  (PlayerReadyMessage (playerName n) (Env.now env)) n) as Ht.
    rewrite Hsend in Ht. now injection Ht. }
  subst n1.
  assert (Habs : absorb fx1 (set_isReady true l) = set_isReady true l).
  { pose proof (absorb_send (Env.sendThrows env)
                  (PlayerReadyMessage (playerName n) (Env.now env)) n
                  (set_isReady true l)) as Ha.
    now rewrite Hsend in Ha. }
  rewrite Habs. cbn [snd].
  destruct (checkBothReady env _) as [w2 fx2]. reflexivity.
Qed.

Lemma onKeydown_quiet (env : Env.t) (key : string) (l : t) (n : NetworkManager.t) :
  readyPress key l n = false -> quiet (snd (onKeydown env key (l, n))).
Proof.
  unfold readyPress. intros Hready.
  destruct (String.eqb_spec key "Escape") as [->|Hkey].
  - assert (Hd : forall m, ~ In (NetworkManager.ConnectionSend m)
                              (snd (NetworkManager.disconnect n)))
      by (intros m; apply disconnect_silent).
    unfold onKeydown. cbv zeta.
    replace (NetworkManager.toLowerCase "Escape") with "escape" by reflexivity.
    destruct (mode l) eqn:Hmode; cbn; rewrite ?Hmode;
      try destruct (NetworkManager.isConnected n); cbn; rewrite ?Hmode;
      try apply quiet_nil;
      destruct (NetworkManager.disconnect n) as [n' fx]; cbn;
      (apply quiet_call; [exact I | exact Hd]).
  - unfold onKeydown. rewrite escape_other by exact Hkey.
    destruct (mode l) eqn:Hmode.
    + destruct (String.eqb _ "c").
      * unfold call.
        destruct (NetworkManager.createRoom _ _ n) as [n' fx] eqn:Hc. cbn.
        apply quiet_call; try exact I.
        intros m. pose proof (createRoom_silent (Env.random env)
                                (Env.peerThrows env) n m) as Hs.
        now rewrite Hc in Hs.
      * destruct (String.eqb _ "j"); apply quiet_nil.
    + destruct (NetworkManager.isConnected n); [|apply quiet_nil].
      destruct (String.eqb _ "r"); [|apply quiet_nil].
      destruct (isReady l); [apply quiet_nil | discriminate Hready].
    + destruct (is_code_key key).
      * destruct (String.length (roomCodeInput l) <? 6)%nat; apply quiet_nil.
      * destruct (String.eqb key "Backspace"); [apply quiet_nil|].
        destruct (String.eqb key "Enter" && _); [|apply quiet_nil].
        unfold call.
        destruct (NetworkManager.joinRoom _ _ n) as [n' fx] eqn:Hj. cbn.
        apply quiet_call; try exact I.
        intros m. pose proof (joinRoom_silent (roomCodeInput l)
                                (Env.peerThrows env) n m) as Hs.
        now rewrite Hj in Hs.
Qed.

Lemma quiet_silent (fx : list effect) :
  quiet fx -> ~ sendsStartGame fx /\ ~ transmitsStartGame fx /\ ~ starts fx.
Proof.
  intros Hq. repeat split.
  - intros (ts & Hin). exact (Hq _ Hin).
  - intros (ts & Hin). exact (Hq _ Hin).
  - intros Hin. exact (Hq _ Hin).
Qed.

Lemma checkBothReady_sends (env : Env.t) (l : t) (n : NetworkManager.t) :
  sendsStartGame (snd (checkBothReady env (l, n)))
  <-> NetworkManager.isHostPlayer n = true
      /\ isReady l = true /\ remoteReady l = true.
Proof.
  rewrite checkBothReady_trace. unfold sendsStartGame.
  destruct (isReady l), (remoteReady l), (NetworkManager.isHostPlayer n); cbn;
    split; try (intros (ts & []); fail); try (intros (? & ? & ?); discriminate).
  - intros _. repeat split.
  - intros _. exists (Env.now env). now left.
Qed.

Lemma checkBothReady_guest (env : Env.t) (l : t) (n : NetworkManager.t) :
  NetworkManager.isHostPlayer n = false -> snd (checkBothReady env (l, n)) = [].
Proof.
  intros Hguest. rewrite checkBothReady_trace, Hguest.
  now rewrite andb_false_r.
Qed.

(** A trace that opens with the local ready announcement sends a
    START_GAME only in what follows it. *)
Lemma ready_prefix_sends (message : NetworkMessage) (fx : list NetworkManager.effect)
    (rest : list effect) :
  (forall ts, message <> StartGameMessage ts) ->
  sendsStartGame (CallSend message :: map Net fx ++ rest) <-> sendsStartGame rest.
Proof.
  intros Hne. unfold sendsStartGame. split; intros (ts & Hin); exists ts.
  - destruct Hin as [Heq|Hin]; [injection Heq as ->; now destruct (Hne ts)|].
    apply in_app_or in Hin as [Hin|Hin]; [|exact Hin].
    now apply Net_not_call in Hin.
  - right. apply in_or_app. now right.
Qed.

Lemma onMessage_ready (env : Env.t) (name : string) (ts : Z) (l : t)
    (n : NetworkManager.t) :
  onMessage env (PlayerReadyMessage name ts) (l, n)
  = checkBothReady env
      (set_status "Other player is ready!" (set_remoteReady true l), n).
Proof. reflexivity. Qed.

(** A key press other than the local ready leaves both ready flags as
    they were, or clears them (Escape). *)
Lemma onKeydown_quiet_flags (env : Env.t) (key : string) (l : t)
    (n : NetworkManager.t) :
  readyPress key l n = false ->
  let l' := fst (fst (onKeydown env key (l, n))) in
  (isReady l' = isReady l /\ remoteReady l' = remoteReady l)
  \/ (isReady l' = false /\ remoteReady l' = false).
Proof.
  unfold readyPress. intros Hready. cbv zeta.
  destruct (String.eqb_spec key "Escape") as [->|Hkey].
  - unfold onKeydown. cbv zeta.
    replace (NetworkManager.toLowerCase "Escape") with "escape" by reflexivity.
    destruct (mode l) eqn:Hmode; cbn; rewrite ?Hmode;
      try destruct (NetworkManager.isConnected n); cbn; rewrite ?Hmode;
      try (left; split; reflexivity);
      destruct (NetworkManager.disconnect n) as [n' fx]; cbn;
      right; split; reflexivity.
  - unfold onKeydown. rewrite escape_other by exact Hkey.
    destruct (mode l) eqn:Hmode.
    + destruct (String.eqb _ "c").
      * unfold call.
        destruct (NetworkManager.createRoom _ _ n) as [n' fx]. cbn.
        destruct (absorb_keeps fx (set_mode create l)) as (_ & -> & -> & _).
        left; split; reflexivity.
      * destruct (String.eqb _ "j"); left; split; reflexivity.
    + destruct (NetworkManager.isConnected n); [|left; split; reflexivity].
      destruct (String.eqb _ "r"); [|left; split; reflexivity].
      destruct (isReady l) eqn:Hr; [|discriminate Hready].
      cbn. left. split; [exact Hr | reflexivity].
    + destruct (is_code_key key).
      * destruct (String.length (roomCodeInput l) <? 6)%nat;
          left; split; reflexivity.
      * destruct (String.eqb key "Backspace"); [left; split; reflexivity|].
        destruct (String.eqb key "Enter" && _); [|left; split; reflexivity].
        unfold call.
        destruct (NetworkManager.joinRoom _ _ n) as [n' fx]. cbn.
        destruct (absorb_keeps fx l) as (_ & -> & -> & _).
        left; split; reflexivity.
Qed.

(** On the host, the step that completes the pair of ready flags is a
    step that sends START_GAME. *)
Lemma step_completing_flags_sends (env : Env.t) (e : event) (l : t)
    (n : NetworkManager.t) :
  NetworkManager.isHostPlayer n = true ->
  isReady l && remoteReady l = false ->
  isReady (fst (fst (step env e (l, n))))
  && remoteReady (fst (fst (step env e (l, n)))) = true ->
  sendsStartGame (snd (step env e (l, n))).
Proof.
  intros Hhost Hbefore Hafter.
  destruct e as [key|m|code| |s]; cbn [step] in *.
  - destruct (readyPress key l n) eqn:Hready.
    + rewrite (onKeydown_ready env key l n Hready) in *. cbn [fst snd] in *.
      rewrite ready_prefix_sends by discriminate.
      apply checkBothReady_sends.
      destruct (checkBothReady_flags env
                  (set_status "You are ready! Waiting for other player..."
                              (set_isReady true l)) n) as (Hr & Hrr & _).
      rewrite Hr, Hrr in Hafter. cbn in *. repeat split; assumption.
    + destruct (onKeydown_quiet_flags env key l n Hready) as [[Hr Hrr]|[Hr Hrr]];
        rewrite Hr, Hrr in Hafter; [congruence | discriminate Hafter].
  - destruct m as [d ts|d ts|ts|w f ts|name ts|ts];
      try rewrite onMessage_ready in *;
      try (cbn in Hafter; congruence).
    apply checkBothReady_sends.
    destruct (checkBothReady_flags env
                (set_status "Other player is ready!" (set_remoteReady true l)) n)
      as (Hr & Hrr & _).
    rewrite Hr, Hrr in Hafter. cbn in *.
    apply andb_prop in Hafter as [Ha _]. repeat split; assumption.
  - cbn in Hafter. congruence.
  - cbn in Hafter. congruence.
  - destruct s; cbn in Hafter; congruence.
Qed.

(** C4.  In the lobby's ready exchange the ready check sends START_GAME
    exactly when the peer is the host and both ready flags are set: on
    receipt of the remote PLAYER_READY exactly when the host is locally
    ready, on the local ready key exactly when the host has the remote
    flag.  Whatever happens to the lobby, a START_GAME leaves only a host
    whose two flags are set, and the step in which a host's second flag
    becomes set sends it.  A peer that is not the host never sends
    START_GAME, and its session starts only when it receives one: no key
    press, so no local ready, starts it. *)
Theorem C4_start_game_host_authority (env : Env.t) (l : t) (n : NetworkManager.t) :
  (sendsStartGame (snd (checkBothReady env (l, n)))
   <-> NetworkManager.isHostPlayer n = true
       /\ isReady l = true /\ remoteReady l = true)
  /\ (forall name ts,
        sendsStartGame (snd (step env (Message (PlayerReadyMessage name ts)) (l, n)))
        <-> NetworkManager.isHostPlayer n = true /\ isReady l = true)
  /\ (forall key,
        readyPress key l n = true ->
        (sendsStartGame (snd (step env (Keydown key) (l, n)))
         <-> NetworkManager.isHostPlayer n = true /\ remoteReady l = true))
  /\ (forall e,
        sendsStartGame (snd (step env e (l, n))) ->
        NetworkManager.isHostPlayer n = true
        /\ isReady (fst (fst (step env e (l, n)))) = true
        /\ remoteReady (fst (fst (step env e (l, n)))) = true)
  /\ (forall e,
        NetworkManager.isHostPlayer n = true ->
        isReady l && remoteReady l = false ->
        isReady (fst (fst (step env e (l, n))))
        && remoteReady (fst (fst (step env e (l, n)))) = true ->
        sendsStartGame (snd (step env e (l, n))))
  /\ (NetworkManager.isHostPlayer n = false ->
      forall e,
        ~ sendsStartGame (snd (step env e (l, n)))
        /\ ~ transmitsStartGame (snd (step env e (l, n)))
        /\ (starts (snd (step env e (l, n))) ->
            exists ts, e = Message (StartGameMessage ts))).
Proof.
  split; [apply checkBothReady_sends|].
  split.
  { intros name ts. cbn [step]. rewrite onMessage_ready, checkBothReady_sends.
    cbn. tauto. }
  split.
  { intros key Hready. cbn [step].
    rewrite (onKeydown_ready env key l n Hready). cbn [snd].
    rewrite ready_prefix_sends by discriminate.
    rewrite checkBothReady_sends. cbn. tauto. }
  split.
  { intros e Hsend. destruct e as [key|m|code| |s]; cbn [step] in *.
    - destruct (readyPress key l n) eqn:Hready.
      + rewrite (onKeydown_ready env key l n Hready) in *. cbn [fst snd] in *.
        rewrite ready_prefix_sends in Hsend by discriminate.
        apply checkBothReady_sends in Hsend as (Hhost & Hr & Hrr).
        split; [exact Hhost|].
        destruct (checkBothReady_flags env
                    (set_status "You are ready! Waiting for other player..."
                                (set_isReady true l)) n) as (-> & -> & _).
        split; assumption.
      + apply onKeydown_quiet with (env := env) in Hready.
        now apply quiet_silent in Hready as (Hno & _).
    - destruct m as [d ts|d ts|ts|w f ts|name ts|ts];
        try rewrite onMessage_ready in *;
        try (cbn in Hsend; destruct Hsend as (? & []); fail);
        try (cbn in Hsend; destruct (onGameStart l);
             [destruct Hsend as (? & [H|[]]); discriminate H
             |destruct Hsend as (? & [])]).
      apply checkBothReady_sends in Hsend as (Hhost & Hr & Hrr).
      split; [exact Hhost|].
      destruct (checkBothReady_flags env
                  (set_status "Other player is ready!" (set_remoteReady true l)) n)
        as (-> & -> & _).
      split; assumption.
    - destruct Hsend as (? & []).
    - destruct Hsend as (? & []).
    - destruct Hsend as (? & []). }
  split.
  { intros e. apply step_completing_flags_sends. }
  intros Hguest e.
  destruct e as [key|m|code| |s]; cbn [step].
  - destruct (readyPress key l n) eqn:Hready.
    + rewrite (onKeydown_ready env key l n Hready). cbn [snd].
      rewrite (checkBothReady_guest env _ n Hguest), app_nil_r.
      rewrite send_trace. cbn [snd].
      repeat split.
      * intros (ts & [H|H]); [discriminate H|].
        now apply Net_not_call in H.
      * intros (ts & [H|H]); [discriminate H|].
        apply in_map_iff in H as (x & Hx & Hin). injection Hx as ->.
        destruct (NetworkManager.channelOpen n), (Env.sendThrows env);
          destruct Hin as [H|[]]; discriminate H.
      * intros [H|H]; [discriminate H|]. now apply Net_not_call in H.
    + apply onKeydown_quiet with (env := env) in Hready.
      apply quiet_silent in Hready as (H1 & H2 & H3).
      repeat split; try assumption. intros H. now destruct (H3 H).
  - destruct m as [d ts|d ts|ts|w f ts|name ts|ts];
      try rewrite onMessage_ready;
      try rewrite (checkBothReady_guest env _ n Hguest);
      try (repeat split; [intros (? & []) | intros (? & []) | intros []]).
    cbn. repeat split.
    + intros (? & H). destruct (onGameStart l); [destruct H as [H|[]]|destruct H].
      discriminate H.
    + intros (? & H). destruct (onGameStart l); [destruct H as [H|[]]|destruct H].
      discriminate H.
    + intros _. now exists ts.
  - repeat split; [intros (? & []) | intros (? & []) | intros []].
  - repeat split; [intros (? & []) | intros (? & []) | intros []].
  - repeat split; [intros (? & []) | intros (? & []) | intros []].
Qed.

(** Scenario A of the specification, from the moment both peers are
    connected: each announces itself ready; the host, on hearing the
    guest, sends START_GAME and starts; the guest starts when START_GAME
    reaches it, and sends none itself. *)
Example scenario_A_handshake :
  snd (run Scenario.env0
           [Keydown "r"; Message (PlayerReadyMessage "Player 2" 990)]
           (Scenario.waiting, Scenario.hostConnected))
  = [CallSend (PlayerReadyMessage "Player 1" 1000);
     Net (NetworkManager.ConnectionSend (PlayerReadyMessage "Player 1" 1000));
     CallSend (StartGameMessage 1000);
     Net (NetworkManager.ConnectionSend (StartGameMessage 1000));
     GameStart]
  /\ snd (run Scenario.env0
              [Keydown "R"; Message (PlayerReadyMessage "Player 1" 990)]
              (Scenario.waiting, Scenario.guestConnected))
     = [CallSend (PlayerReadyMessage "Player 2" 1000);
        Net (NetworkManager.ConnectionSend (PlayerReadyMessage "Player 2" 1000))]
  /\ snd (run Scenario.env0
              [Keydown "R"; Message (PlayerReadyMessage "Player 1" 990);
               Message (StartGameMessage 1000)]
              (Scenario.waiting, Scenario.guestConnected))
     = [CallSend (PlayerReadyMessage "Player 2" 1000);
        Net (NetworkManager.ConnectionSend (PlayerReadyMessage "Player 2" 1000));
        GameStart].
Proof. repeat split; vm_compute; reflexivity. Qed.

Lemma C4_start_game_witness :
  sendsStartGame
    (snd (step Scenario.env0 (Message (PlayerReadyMessage "Player 2" 7))
               (Scenario.locallyReady, Scenario.hostConnected)))
  /\ ~ sendsStartGame
       (snd (step Scenario.env0 (Message (PlayerReadyMessage "Player 1" 7))
                  (Scenario.locallyReady, Scenario.guestConnected)))
  /\ ~ starts
       (snd (step Scenario.env0 (Keydown "r")
                  (Scenario.remotelyReady, Scenario.guestConnected))).
Proof.
  split; [|split].
  - destruct (C4_start_game_host_authority Scenario.env0 Scenario.locallyReady
                Scenario.hostConnected) as (_ & Hreceipt & _).
    apply Hreceipt. split; reflexivity.
  - destruct (C4_start_game_host_authority Scenario.env0 Scenario.locallyReady
                Scenario.guestConnected) as (_ & _ & _ & _ & _ & Hguest).
    apply (Hguest eq_refl).
  - intros Hstart.
    destruct (C4_start_game_host_authority Scenario.env0 Scenario.remotelyReady
                Scenario.guestConnected) as (_ & _ & _ & _ & _ & Hguest).
    destruct (Hguest eq_refl (Keydown "r")) as (_ & _ & Honly).
    destruct (Honly Hstart) as (ts & Heq). discriminate Heq.
Defined.

End LobbyFacts.

(* ================================================================= *)
(** ** The orchestrator in game mode *)

(** The two revisions, by age. *)
Module First := MultiplayerGameManager.
Module Later := MultiplayerGameManagerRev.

Section OrchestratorFacts.

(** C5.  In both revisions of the orchestrator, a received STATE_UPDATE
    is applied to the local simulation only by a peer whose role is not
    host: a host's simulation is left exactly as it was, and the only
    change the message ever makes to a simulation is [applyGameState] on a
    peer that is not the host. *)
Theorem C5_state_update_applied_by_guest_only (data : GameState.t) (ts : Z) :
  (forall m : First.t,
      (First.isHost m = true ->
       First.handleNetworkMessage (StateUpdateMessage data ts) m = m)
      /\ (First.gameManager (First.handleNetworkMessage (StateUpdateMessage data ts) m)
          <> First.gameManager m -> First.isHost m = false)
      /\ (First.isHost m = false ->
          First.gameManager (First.handleNetworkMessage (StateUpdateMessage data ts) m)
          = (fun g => GameStateSync.applyGameState g data) <$> First.gameManager m))
  /\ (forall (shootArrow : Player.t -> Player.t) (Lobby : Type)
             (lobbyHandleMessage : NetworkMessage -> Lobby -> Lobby) (m : Later.t Lobby),
         let m' := Later.handleNetworkMessage shootArrow lobbyHandleMessage
                     (StateUpdateMessage data ts) m in
         (Later.isHost m = true -> Later.gameManager m' = Later.gameManager m)
         /\ (Later.isHost m = true -> Later.inLobby m = false -> m' = m)
         /\ (Later.gameManager m' <> Later.gameManager m -> Later.isHost m = false)
         /\ (Later.isHost m = false -> Later.inLobby m = false ->
             Later.gameManager m'
             = (fun g => GameStateSync.applyGameState g data) <$> Later.gameManager m)).
Proof.
  split.
  - intros m. unfold First.handleNetworkMessage.
    destruct (First.isHost m), (First.gameManager m) as [g|] eqn:Hg; cbn;
      repeat split; try congruence; try (intros _; now rewrite ?Hg).
  - intros shootArrow Lobby handle m. cbv zeta. unfold Later.handleNetworkMessage.
    destruct (Later.inLobby m), (Later.isHost m), (Later.gameManager m) as [g|] eqn:Hg; cbn;
      repeat split; try congruence; try (intros; now rewrite ?Hg).
Qed.
Lemma C5_state_update_witness :
  First.handleNetworkMessage (StateUpdateMessage Scenario.snapshotB 9) Scenario.hostInGame
  = Scenario.hostInGame
  /\ First.gameManager
       (First.handleNetworkMessage (StateUpdateMessage Scenario.snapshotB 9)
                               Scenario.guestInGame)
     = Some (GameStateSync.applyGameState Scenario.guestFired Scenario.snapshotB).
Proof.
  destruct (C5_state_update_applied_by_guest_only Scenario.snapshotB 9) as (Hm & _).
  split.
  - apply (Hm Scenario.hostInGame). reflexivity.
  - destruct (Hm Scenario.guestInGame) as (_ & _ & Hguest).
    rewrite Hguest; reflexivity.
Defined.

Lemma applyInputToPlayer_gameManager (i : nat) (input : InputState.t) (m : First.t) :
  First.gameManager (First.applyInputToPlayer i input m)
  = (fun g => match GameManager.players g !! i with
              | Some _ => GameManager.set_players
                            (alter (First.applyInput input) i (GameManager.players g)) g
              | None => g
              end) <$> First.gameManager m.
Proof.
  unfold First.applyInputToPlayer.
  destruct (First.gameManager m) as [g|] eqn:Hg; cbn; [|exact Hg].
  destruct (GameManager.players g !! i); [reflexivity | exact Hg].
Qed.

Lemma applyInputToPlayer_rest (i : nat) (input : InputState.t) (m : First.t) :
  First.remoteInput (First.applyInputToPlayer i input m) = First.remoteInput m
  /\ First.localInput (First.applyInputToPlayer i input m) = First.localInput m.
Proof.
  unfold First.applyInputToPlayer.
  destruct (First.gameManager m) as [g|]; [|now split].
  destruct (GameManager.players g !! i); now split.
Qed.

(** On a connected host, a frame applies the local input to seat 0 and
    then the stored remote input to seat 1. *)
Lemma updateMultiplayer_host (env : Env.t) (m : First.t) (g : GameManager.t) :
  First.gameManager m = Some g -> First.isHost m = true ->
  NetworkManager.isConnected (First.networkManager m) = true ->
  First.gameManager (fst (First.updateMultiplayer env m))
  = First.gameManager
      (First.applyInputToPlayer 1 (First.remoteInput m)
         (First.applyInputToPlayer 0 (First.localInput m) m)).
Proof.
  intros Hg Hhost Hconn. unfold First.updateMultiplayer.
  rewrite Hg, Hconn, Hhost. cbn [negb].
  destruct (applyInputToPlayer_rest 0 (First.localInput m) m) as [-> _].
  set (m2 := First.applyInputToPlayer 1 (First.remoteInput m)
               (First.applyInputToPlayer 0 (First.localInput m) m)).
  destruct (First.syncInterval m2 <=? Env.now env - First.lastSyncTime m2)%Z;
    [|reflexivity].
  destruct (First.gameManager m2) as [g2|] eqn:Hg2; [|exact Hg2].
  rewrite send_trace. cbn. exact Hg2.
Qed.

(** C8.  With the guest seated at index 1, applying the input
    [{left: true, right: false, shoot: false}] to that seat makes its
    movement LEFT whatever it was before, and leaves every other seat as
    it was.  This holds for [applyInputToPlayer(1, input)] of the first
    revision, for the host's next frame after it has received the input,
    and for [applyGuestInput(input)] of the later revision, also when
    reached through the host's in-game message handler. *)
Theorem C8_left_input_moves_guest_seat_only (g : GameManager.t) (p1 : Player.t) :
  GameManager.players g !! 1%nat = Some p1 ->
  (forall m : First.t,
      First.gameManager m = Some g ->
      exists g',
        First.gameManager (First.applyInputToPlayer 1 Scenario.moveLeft m) = Some g'
        /\ Player.movement <$> GameManager.players g' !! 1%nat = Some LEFT
        /\ forall j, j <> 1%nat ->
                     GameManager.players g' !! j = GameManager.players g !! j)
  /\ (forall (m : First.t) (env : Env.t) (ts : Z),
         First.gameManager m = Some g -> First.isHost m = true ->
         NetworkManager.isConnected (First.networkManager m) = true ->
         exists g',
           First.gameManager
             (fst (First.updateMultiplayer env
                     (First.handleNetworkMessage (InputMessage Scenario.moveLeft ts) m)))
           = Some g'
           /\ Player.movement <$> GameManager.players g' !! 1%nat = Some LEFT)
  /\ (forall (shootArrow : Player.t -> Player.t) (Lobby : Type)
             (lobbyHandleMessage : NetworkMessage -> Lobby -> Lobby)
             (m : Later.t Lobby) (ts : Z),
         Later.gameManager m = Some g ->
         exists g',
           Later.gameManager (Later.applyGuestInput shootArrow Scenario.moveLeft m) = Some g'
           /\ (Later.isHost m = true -> Later.inLobby m = false ->
               Later.handleNetworkMessage shootArrow lobbyHandleMessage
                 (InputMessage Scenario.moveLeft ts) m
               = Later.applyGuestInput shootArrow Scenario.moveLeft m)
           /\ Player.movement <$> GameManager.players g' !! 1%nat = Some LEFT
           /\ forall j, j <> 1%nat ->
                        GameManager.players g' !! j = GameManager.players g !! j).
Proof.
  intros Hp1. split; [|split].
  - intros m Hg. unfold First.applyInputToPlayer. rewrite Hg, Hp1. cbn.
    eexists; split; [reflexivity|]. cbn. split.
    + rewrite list_lookup_alter_eq, Hp1. reflexivity.
    + intros j Hj. now rewrite list_lookup_alter_ne by congruence.
  - intros m env ts Hg Hhost Hconn.
    rewrite (updateMultiplayer_host env _ g) by assumption.
    rewrite !applyInputToPlayer_gameManager. cbn [First.handleNetworkMessage].
    cbn [First.gameManager First.set_remoteInput First.remoteInput First.localInput].
    rewrite Hg. cbn [fmap option_fmap option_map].
    destruct (GameManager.players g !! 0%nat) as [p0|] eqn:Hp0.
    2:{ apply lookup_ge_None in Hp0. apply lookup_lt_Some in Hp1. lia. }
    cbn [GameManager.players GameManager.set_players].
    rewrite list_lookup_alter_ne by congruence. rewrite Hp1.
    eexists; split; [reflexivity|].
    cbn [GameManager.players GameManager.set_players].
    rewrite list_lookup_alter_eq, list_lookup_alter_ne by congruence.
    now rewrite Hp1.
  - intros shootArrow Lobby handle m ts Hg.
    assert (Hlen : (List.length (GameManager.players g) <? 2)%nat = false).
    { apply Nat.ltb_ge. apply lookup_lt_Some in Hp1. lia. }
    unfold Later.applyGuestInput. rewrite Hg, Hlen, Hp1. cbn.
    eexists; split; [reflexivity|]. split; [|split].
    + intros Hhost Hgame. unfold Later.handleNetworkMessage.
      rewrite Hgame, Hhost, Hg. unfold Later.applyGuestInput.
      now rewrite Hg, Hlen, Hp1.
    + cbn. rewrite list_lookup_alter_eq, Hp1. reflexivity.
    + intros j Hj. cbn. now rewrite list_lookup_alter_ne by congruence.
Qed.

Lemma C8_left_input_witness :
  exists g',
    First.gameManager (First.applyInputToPlayer 1 Scenario.moveLeft Scenario.hostInGame) = Some g'
    /\ Player.movement <$> GameManager.players g' !! 1%nat = Some LEFT
    /\ forall j, j <> 1%nat ->
                 GameManager.players g' !! j
                 = GameManager.players Scenario.guestFired !! j.
Proof.
  destruct (C8_left_input_moves_guest_seat_only Scenario.guestFired Scenario.guest
              eq_refl) as (Hfirst & _).
  apply (Hfirst Scenario.hostInGame). reflexivity.
Defined.

End OrchestratorFacts.


(* ================================================================= *)
(** ** More on state synchronisation *)

Section SnapshotFacts.
Import GameStateSync.

Lemma GameManager_ext (a b : GameManager.t) :
  GameManager.players a = GameManager.players b ->
  GameManager.bubbleArray a = GameManager.bubbleArray b ->
  GameManager.score a = GameManager.score b ->
  GameManager.timeRemaining a = GameManager.timeRemaining b ->
  GameManager.currentLevel a = GameManager.currentLevel b ->
  a = b.
Proof. destruct a, b; cbn; intros; subst; reflexivity. Qed.

(** Seat by seat, [applyGameState] is [seatUpdate]. *)
Lemma applyGameState_seatUpdate (g : GameManager.t) (st : GameState.t) (j : nat) :
  GameManager.players (applyGameState g st) !! j
  = seatUpdate st j <$> GameManager.players g !! j.
Proof.
  rewrite applyGameState_seat, !applyPlayerAt_lookup. unfold seatUpdate.
  destruct j as [|[|j]]; cbn [seatPlayerState].
  - destruct (GameState.player2 st); [rewrite decide_False by lia|];
      (destruct (GameState.player1 st); [rewrite decide_True by lia|]);
      destruct (GameManager.players g !! 0%nat); reflexivity.
  - destruct (GameState.player2 st); [rewrite decide_True by lia|];
      (destruct (GameState.player1 st); [rewrite decide_False by lia|]);
      destruct (GameManager.players g !! 1%nat); reflexivity.
  - destruct (GameState.player2 st); [rewrite decide_False by lia|];
      (destruct (GameState.player1 st); [rewrite decide_False by lia|]);
      destruct (GameManager.players g !! S (S j)); reflexivity.
Qed.

Lemma applyGameState_players_imap (g : GameManager.t) (st : GameState.t) :
  GameManager.players (applyGameState g st)
  = imap (seatUpdate st) (GameManager.players g).
Proof.
  apply list_eq. intros j.
  now rewrite applyGameState_seatUpdate, list_lookup_imap.
Qed.

Lemma seatUpdate_idempotent (st : GameState.t) (j : nat) (p : Player.t) :
  seatUpdate st j (seatUpdate st j p) = seatUpdate st j p.
Proof.
  unfold seatUpdate, arrowOnto, placeArrow, resetArrow, applyPlayerState.
  destruct (seatPlayerState st j), (GameState.arrows st !! j),
    p as [x y sc lv [a|] mv tm]; reflexivity.
Qed.

(** X1.  Applying the same snapshot twice leaves the simulation as one
    application does: a duplicated STATE_UPDATE is harmless. *)
Theorem X1_applyGameState_idempotent (g : GameManager.t) (st : GameState.t) :
  applyGameState (applyGameState g st) st = applyGameState g st.
Proof.
  apply GameManager_ext.
  - apply list_eq. intros j.
    rewrite !applyGameState_seatUpdate.
    destruct (GameManager.players g !! j) as [p|]; cbn; [|reflexivity].
    now rewrite seatUpdate_idempotent.
  - now rewrite !applyGameState_bubbleArray.
  - rewrite !applyGameState_score. now destruct (GameManager.score g).
  - reflexivity.
  - reflexivity.
Qed.

Lemma seatUpdate_frame (st : GameState.t) (j : nat) (p : Player.t) :
  Player.movement (seatUpdate st j p) = Player.movement p
  /\ Player.tempMovement (seatUpdate st j p) = Player.tempMovement p
  /\ Arrow.isHittable <$> Player.arrow (seatUpdate st j p)
     = Arrow.isHittable <$> Player.arrow p.
Proof.
  unfold seatUpdate, arrowOnto, placeArrow, resetArrow, applyPlayerState.
  destruct (seatPlayerState st j), (GameState.arrows st !! j),
    p as [x y sc lv [a|] mv tm]; repeat split.
Qed.

(** X2.  [applyGameState] neither seats nor unseats anyone and neither
    creates nor drops an arrow object: the number of players is kept, and
    every player keeps its movement, its remembered movement, and, for
    its arrow, whether it exists and whether it is hittable. *)
Theorem X2_applyGameState_keeps_seats_and_controls
    (g : GameManager.t) (st : GameState.t) :
  List.length (GameManager.players (applyGameState g st))
  = List.length (GameManager.players g)
  /\ forall (j : nat) (p : Player.t),
       GameManager.players g !! j = Some p ->
       exists q, GameManager.players (applyGameState g st) !! j = Some q
                 /\ Player.movement q = Player.movement p
                 /\ Player.tempMovement q = Player.tempMovement p
                 /\ Arrow.isHittable <$> Player.arrow q
                    = Arrow.isHittable <$> Player.arrow p.
Proof.
  split.
  - rewrite applyGameState_players_imap. apply length_imap.
  - intros j p Hp. rewrite applyGameState_seatUpdate, Hp. cbn.
    eexists; split; [reflexivity|]. apply seatUpdate_frame.
Qed.

Lemma X2_applyGameState_keeps_seats_witness :
  exists q, GameManager.players
              (applyGameState Scenario.guestFired Scenario.withoutPlayer1) !! 1%nat
            = Some q
            /\ Player.movement q = RIGHT
            /\ Player.tempMovement q = RIGHT
            /\ Arrow.isHittable <$> Player.arrow q = Some true.
Proof.
  destruct (X2_applyGameState_keeps_seats_and_controls
              Scenario.guestFired Scenario.withoutPlayer1) as (_ & Hseat).
  apply (Hseat 1%nat Scenario.guest). reflexivity.
Defined.




Lemma seatUpdate_record (st : GameState.t) (j : nat) (p : Player.t) :
  let q := seatUpdate st j p in
  match seatPlayerState st j with
  | Some r =>
      Player.x q = PlayerState.x r /\ Player.y q = PlayerState.y r
      /\ Player.score q = PlayerState.score r
      /\ Player.lives q = PlayerState.lives r
  | None =>
      Player.x q = Player.x p /\ Player.y q = Player.y p
      /\ Player.score q = Player.score p /\ Player.lives q = Player.lives p
  end.
Proof.
  unfold seatUpdate, arrowOnto, placeArrow, resetArrow, applyPlayerState.
  destruct (seatPlayerState st j), (GameState.arrows st !! j),
    p as [x y sc lv [a|] mv tm]; repeat split.
Qed.

Lemma serialize_seatPlayerState (s : GameManager.t) (i : nat) :
  (i < 2)%nat ->
  seatPlayerState (serializeGameState s) i
  = Some (serializePlayer (GameManager.players s !! i)).
Proof. intros Hi. destruct i as [|[|i]]; [reflexivity | reflexivity | lia]. Qed.

(** X3.  What a guest holds for seat 0 or 1 after applying the host's
    snapshot: the host's x, y and score of that seat, and its lives,
    except that 0 lives arrive as 3; a seat the host does not have
    arrives as all zeros.  Seats from the third on are never written. *)
Theorem X3_snapshot_carries_seat_records
    (host guest : GameManager.t) (i : nat) (p : Player.t) :
  GameManager.players guest !! i = Some p ->
  exists q,
    GameManager.players (applyGameState guest (serializeGameState host)) !! i
    = Some q
    /\ if decide (i < 2)%nat then
         match GameManager.players host !! i with
         | Some h =>
             Player.x q = Player.x h /\ Player.y q = Player.y h
             /\ Player.score q = Player.score h
             /\ Player.lives q = (if (Player.lives h =? 0)%Z then 3 else Player.lives h)
         | None =>
             Player.x q = 0 /\ Player.y q = 0
             /\ Player.score q = 0 /\ Player.lives q = 0
         end
       else
         Player.x q = Player.x p /\ Player.y q = Player.y p
         /\ Player.score q = Player.score p /\ Player.lives q = Player.lives p.
Proof.
  intros Hp. rewrite applyGameState_seatUpdate, Hp. cbn.
  eexists; split; [reflexivity|].
  pose proof (seatUpdate_record (serializeGameState host) i p) as Hrec.
  cbv zeta in Hrec.
  destruct (decide (i < 2)%nat) as [Hi|Hi].
  - rewrite (serialize_seatPlayerState host i Hi) in Hrec.
    destruct Hrec as (-> & -> & -> & ->).
    destruct (GameManager.players host !! i) as [h|]; cbn.
    + rewrite !num_or_0. unfold Js.num_or. repeat split.
    + repeat split.
  - destruct i as [|[|i]]; try lia. exact Hrec.
Qed.

Lemma X3_snapshot_carries_seat_witness :
  exists q,
    GameManager.players
      (applyGameState Scenario.scoreless (serializeGameState Scenario.bothFired))
    !! 1%nat = Some q
    /\ Player.x q = 300 /\ Player.y q = 400
    /\ Player.score q = 4 /\ Player.lives q = 2.
Proof.
  exact (X3_snapshot_carries_seat_records Scenario.bothFired Scenario.scoreless
           1%nat Scenario.guest eq_refl).
Defined.

(** The [forEach] of [serializeArrows], started from any list. *)
Lemma foldl_pushArrow (players : list Player.t) (acc : list ArrowState.t) :
  foldl pushArrow acc players = acc ++ (arrowStateOf <$> omap flying players).
Proof.
  revert acc. induction players as [|p players IH]; intros acc; cbn.
  - now rewrite app_nil_r.
  - rewrite IH. unfold pushArrow, flying.
    destruct (Player.arrow p) as [a|]; [destruct (Arrow.isActive a)|]; cbn;
      try reflexivity.
    now rewrite <- app_assoc.
Qed.

Lemma omap_length_le {A B : Type} (f : A -> option B) (l : list A) :
  (List.length (omap f l) <= List.length l)%nat.
Proof.
  induction l as [|a l IH]; cbn; [lia|]. destruct (f a); cbn; lia.
Qed.

Lemma arrowStateOf_spec (a : Arrow.t) :
  arrowStateOf a = ArrowState.mk (Arrow.x a) (Arrow.y a) true.
Proof. unfold arrowStateOf. now rewrite !num_or_0. Qed.

(** X5.  The arrow list of a snapshot is the list of the arrows in
    flight, in seat order, each at its position and marked active: no
    entry is inactive, and there are at most as many entries as players. *)
Theorem X5_serializeArrows_lists_arrows_in_flight (g : GameManager.t) :
  serializeArrows g
  = (fun a => ArrowState.mk (Arrow.x a) (Arrow.y a) true)
      <$> omap flying (GameManager.players g)
  /\ Forall (fun a => ArrowState.isActive a = true) (serializeArrows g)
  /\ (List.length (serializeArrows g) <= List.length (GameManager.players g))%nat.
Proof.
  unfold serializeArrows. rewrite foldl_pushArrow. cbn [app].
  split; [|split].
  - apply list_fmap_ext. intros _ a _. apply arrowStateOf_spec.
  - apply Forall_fmap. apply Forall_true. intros a. reflexivity.
  - rewrite length_fmap. apply omap_length_le.
Qed.

(** X6.  After a guest applies the host's snapshot, the arrows in flight
    are packed onto the lowest seats: with [k] arrows in flight on the
    host, a guest seat that owns an arrow object has it in flight exactly
    when its index is below [k], at the position of the host's arrow
    number [index] among those in flight, whichever seats fired on the
    host.  A guest seat without an arrow object stays without. *)
Theorem X6_snapshot_packs_arrows_onto_low_seats
    (host guest : GameManager.t) (j : nat) (p : Player.t) :
  GameManager.players guest !! j = Some p ->
  exists q,
    GameManager.players (applyGameState guest (serializeGameState host)) !! j
    = Some q
    /\ match Player.arrow p with
       | None => Player.arrow q = None
       | Some old =>
           match omap flying (GameManager.players host) !! j with
           | Some a =>
               Player.arrow q
               = Some (Arrow.mk (Arrow.x a) (Arrow.y a) true (Arrow.isHittable old))
           | None =>
               Player.arrow q
               = Some (Arrow.mk (Arrow.x old) (Arrow.y old) false
                                (Arrow.isHittable old))
           end
       end.
Proof.
  intros Hp. rewrite applyGameState_seatUpdate, Hp. cbn [fmap option_fmap option_map].
  eexists; split; [reflexivity|].
  unfold seatUpdate, arrowOnto. cbn [GameState.arrows serializeGameState].
  unfold serializeArrows. rewrite foldl_pushArrow. cbn [app].
  rewrite list_lookup_fmap.
  destruct (omap flying (GameManager.players host) !! j) as [a|];
    cbn [fmap option_fmap option_map];
    unfold placeArrow, resetArrow, applyPlayerState;
    destruct (seatPlayerState _ j), p as [x y sc lv [old|] mv tm]; cbn;
    rewrite ?num_or_0; reflexivity.
Qed.

Lemma X6_snapshot_packs_arrows_witness :
  exists q,
    GameManager.players
      (applyGameState Scenario.bothFired (serializeGameState Scenario.guestFired))
    !! 0%nat = Some q
    /\ Player.arrow q = Some (Arrow.mk 50 60 true true).
Proof.
  exact (X6_snapshot_packs_arrows_onto_low_seats Scenario.guestFired
           Scenario.bothFired 0%nat _ eq_refl).
Defined.

Lemma stringify_differs_carries (old new : option PlayerState.t) (p : PlayerState.t) :
  (if stringify_differs old new then new else None) = Some p
  <-> new = Some p /\ old <> Some p.
Proof.
  destruct (stringify_differs old new) eqn:E.
  - split.
    + intros ->. split; [reflexivity|].
      intros ->. now rewrite (proj2 (stringify_differs_spec _ _) eq_refl) in E.
    + now intros [-> _].
  - apply stringify_differs_spec in E as ->.
    split; [discriminate | intros [-> H]; now destruct H].
Qed.

Lemma changed_scalar (old new v : Z) :
  (if (old =? new)%Z then None else Some new) = Some v <-> new = v /\ old <> v.
Proof.
  destruct (Z.eqb_spec old new) as [->|Hne]; split.
  - discriminate.
  - intros [-> H]. now destruct H.
  - intros [= ->]. now split.
  - now intros [-> _].
Qed.

(** X7.  A delta between two snapshots that [serializeGameState] built
    carries exactly what changed: a player record is in the delta if and
    only if it differs from the old one, and then it is the new record;
    the same for score, time and level; the bubble and arrow lists are
    always the new snapshot's. *)
Theorem X7_createDelta_carries_exactly_the_changes (old new : GameManager.t) :
  let oldState := serializeGameState old in
  let newState := serializeGameState new in
  let d := createDelta oldState newState in
  (forall p, d_player1 d = Some p
             <-> GameState.player1 newState = Some p
                 /\ GameState.player1 oldState <> Some p)
  /\ (forall p, d_player2 d = Some p
                <-> GameState.player2 newState = Some p
                    /\ GameState.player2 oldState <> Some p)
  /\ d_bubbles d = GameState.bubbles newState
  /\ d_arrows d = GameState.arrows newState
  /\ (forall v, d_score d = Some v
                <-> GameState.score newState = v /\ GameState.score oldState <> v)
  /\ (forall v, d_timeRemaining d = Some v
                <-> GameState.timeRemaining newState = v
                    /\ GameState.timeRemaining oldState <> v)
  /\ (forall v, d_level d = Some v
                <-> GameState.level newState = v /\ GameState.level oldState <> v).
Proof.
  cbv zeta. unfold createDelta. cbn [d_player1 d_player2 d_bubbles d_arrows
                                     d_score d_timeRemaining d_level].
  split; [intros p; apply stringify_differs_carries|].
  split; [intros p; apply stringify_differs_carries|].
  split; [reflexivity|]. split; [reflexivity|].
  split; [intros v; apply changed_scalar|].
  split; intros v; apply changed_scalar.
Qed.

End SnapshotFacts.


(* ================================================================= *)
(** ** More on message validation *)

Section ValidationMoreFacts.
Import Js Validation.

(** A property that is set keeps its value when further properties are
    appended to the object. *)
Lemma lookup_prop_app (k : string) (props extra : list (string * value)) :
  lookup_prop k props <> JUndefined ->
  lookup_prop k (props ++ extra) = lookup_prop k props.
Proof.
  induction props as [|[k' v] props IH]; cbn; [congruence|].
  destruct (String.eqb k k'); [reflexivity | exact IH].
Qed.

Lemma typeof_defined (v : value) (t : string) :
  is_typeof v t = true -> t <> "undefined" -> v <> JUndefined.
Proof.
  intros Ht Hne ->. change (String.eqb "undefined" t = true) in Ht.
  apply String.eqb_eq in Ht. congruence.
Qed.

Lemma is_object_defined (v : value) : is_object v = true -> v <> JUndefined.
Proof. now intros H ->. Qed.

Lemma field_typeof_defined (v : value) (k t : string) :
  is_typeof (field v k) t = true -> t <> "undefined" -> v <> JUndefined.
Proof.
  intros Ht Hne ->. change (String.eqb "undefined" t = true) in Ht.
  apply String.eqb_eq in Ht. congruence.
Qed.

(** X8.  Validation looks only at the fields it names: adding further
    properties to an accepted message object, under keys it does not have
    yet, leaves it accepted.  (An object holds each key once; giving an
    existing key again would replace its value, which is another matter.) *)
Theorem X8_validateMessage_ignores_extra_properties
    (props extra : list (string * value)) :
  NoDup (map fst (props ++ extra)) ->
  accepts (JObj props) = true -> accepts (JObj (props ++ extra)) = true.
Proof.
  intros _.
  rewrite !accepts_well_formed. unfold well_formed. cbn [is_object field andb].
  destruct (lookup_prop "type" props) as [| | | |ty| |] eqn:Hty; try discriminate.
  rewrite (lookup_prop_app "type") by (rewrite Hty; discriminate). rewrite Hty.
  intros H. apply andb_prop in H as [H Hreq]. apply andb_prop in H as [Hin Hts].
  rewrite Hin. cbn [andb].
  rewrite (lookup_prop_app "timestamp")
    by (eapply typeof_defined; [exact Hts | discriminate]).
  rewrite Hts. cbn [andb].
  unfold required_fields_ok in *. cbn [field] in *.
  destruct (String.eqb ty MessageType.INPUT).
  { rewrite (lookup_prop_app "data"); [exact Hreq|].
    apply andb_prop in Hreq as [Hreq _]. apply andb_prop in Hreq as [Hl _].
    eapply field_typeof_defined; [exact Hl | discriminate]. }
  destruct (String.eqb ty MessageType.STATE_UPDATE).
  { rewrite (lookup_prop_app "data"); [exact Hreq|].
    now apply is_object_defined. }
  destruct (String.eqb ty MessageType.GAME_OVER).
  { apply andb_prop in Hreq as [Hw Hf].
    rewrite (lookup_prop_app "won")
      by (eapply typeof_defined; [exact Hw | discriminate]).
    rewrite (lookup_prop_app "finalScore")
      by (eapply typeof_defined; [exact Hf | discriminate]).
    now rewrite Hw, Hf. }
  destruct (String.eqb ty MessageType.PLAYER_READY); [|reflexivity].
  rewrite (lookup_prop_app "playerName")
    by (eapply typeof_defined; [exact Hreq | discriminate]).
  exact Hreq.
Qed.

Lemma X8_validateMessage_extra_witness :
  accepts (JObj ([("type", JStr "SYNC"); ("timestamp", JNum 12)]
                 ++ [("hops", JNum 3); ("data", JStr "bogus")])) = true.
Proof.
  apply X8_validateMessage_ignores_extra_properties; [|reflexivity].
  cbn [map fst app].
  repeat (constructor;
          [rewrite ?elem_of_cons, ?elem_of_nil; intuition discriminate|]).
  constructor.
Defined.

(** X9.  The payload of a STATE_UPDATE is not looked into: with the tag
    and a numeric timestamp, any object or array as [data] is accepted,
    whatever it holds, and anything else as [data] is rejected. *)
Theorem X9_state_update_payload_not_inspected
    (props : list (string * value)) :
  lookup_prop "type" props = JStr "STATE_UPDATE" ->
  is_typeof (lookup_prop "timestamp" props) "number" = true ->
  accepts (JObj props) = is_object (lookup_prop "data" props).
Proof.
  intros Hty Hts. rewrite accepts_well_formed. unfold well_formed.
  cbn [is_object field andb]. rewrite Hty, Hts. reflexivity.
Qed.

Lemma X9_state_update_payload_witness :
  accepts (JObj [("type", JStr "STATE_UPDATE"); ("timestamp", JNum 5);
                 ("data", JObj [("bubbles", JStr "none")])]) = true
  /\ accepts (JObj [("type", JStr "STATE_UPDATE"); ("timestamp", JNum 5);
                    ("data", JStr "snapshot")]) = false.
Proof.
  split.
  - now rewrite X9_state_update_payload_not_inspected.
  - now rewrite X9_state_update_payload_not_inspected.
Defined.

End ValidationMoreFacts.


(* ================================================================= *)
(** ** More on connection management *)

Section ManagerFacts.
Import NetworkManager.

Lemma disconnect_state (n : t) :
  fst (disconnect n)
  = mk None None false "" disconnected (latency n) (lastPingTime n)
       (match pingIntervalId n with
        | Some i => if (i =? 0)%Z then Some i else None
        | None => None
        end)
       (onMessageCallback n) (onStatusChangeCallback n)
       (onRoomCreatedCallback n) (onConnectionEstablishedCallback n).
Proof.
  unfold disconnect, stopPingInterval, updateStatus.
  destruct n as [p c h r s l lp [i|] cm cs cr ce]; cbn;
    [destruct (i =? 0)%Z|]; destruct c, p; reflexivity.
Qed.

(** X10.  [disconnect()] from any state leaves the manager disconnected,
    without role, room code, channel or peer; a [send] after it transmits
    nothing and logs the warning; and a second [disconnect()] changes
    nothing further and closes or destroys nothing again. *)
Theorem X10_disconnect_tears_everything_down (n : t) :
  let n' := fst (disconnect n) in
  status n' = disconnected /\ isHost n' = false /\ roomCode n' = ""
  /\ connection n' = None /\ peer n' = None /\ isConnected n' = false
  /\ (forall sendThrows message,
        send sendThrows message n'
        = (n', [ConsoleWarn "Cannot send message: connection not open"]))
  /\ fst (disconnect n') = n'
  /\ (forall e, In e (snd (disconnect n')) -> e = OnStatusChange disconnected).
Proof.
  cbv zeta. rewrite !disconnect_state.
  repeat split.
  - destruct (pingIntervalId n) as [i|]; [destruct (i =? 0)%Z eqn:E|]; cbn;
      rewrite ?E; reflexivity.
  - intros e. unfold disconnect, stopPingInterval, updateStatus. cbn.
    destruct (pingIntervalId n) as [i|]; [destruct (i =? 0)%Z eqn:E|]; cbn;
      rewrite ?E; cbn; destruct (onStatusChangeCallback n); cbn;
      intuition congruence.
Qed.

(** X11.  [isConnected()] is a sufficient guard for [send]: whenever it
    holds, [send] hands the message to the transport and logs nothing
    (unless the transport itself raises). *)
Theorem X11_isConnected_guards_send (message : NetworkMessage) (n : t) :
  isConnected n = true -> send false message n = (n, [ConnectionSend message]).
Proof.
  unfold isConnected. intros H. apply andb_prop in H as [_ Hopen].
  now rewrite send_trace, Hopen.
Qed.

Lemma X11_isConnected_guards_send_witness :
  send false (SyncMessage 3) Scenario.hostConnected
  = (Scenario.hostConnected, [ConnectionSend (SyncMessage 3)]).
Proof. apply X11_isConnected_guards_send. reflexivity. Defined.

(** X12.  The latency probe is silent when it cannot send: a timer tick
    on an open channel records the current time as the last ping time and
    transmits one SYNC stamped with it; on an absent or closed channel it
    does nothing at all, so it never logs the cannot-send warning. *)
Theorem X12_pingTick_never_warns (now : Z) (sendThrows : bool) (n : t) :
  (channelOpen n = true ->
   fst (pingTick now sendThrows n) = set_lastPingTime now n
   /\ snd (pingTick now sendThrows n)
      = if sendThrows then [ConsoleError "Failed to send message:"]
        else [ConnectionSend (SyncMessage now)])
  /\ (channelOpen n = false -> pingTick now sendThrows n = (n, []))
  /\ ~ warns (snd (pingTick now sendThrows n)).
Proof.
  unfold pingTick, warns.
  destruct (channelOpen n) eqn:Hopen.
  - rewrite send_trace. cbn [fst snd].
    change (channelOpen (set_lastPingTime now n)) with (channelOpen n).
    rewrite Hopen. repeat split; try discriminate.
    intros (text & Hin). destruct sendThrows; destruct Hin as [H|[]]; discriminate H.
  - repeat split; try discriminate. intros (text & []).
Qed.

Lemma X12_pingTick_witness :
  snd (pingTick 77 false Scenario.hostConnected) = [ConnectionSend (SyncMessage 77)]
  /\ pingTick 77 false NetworkManager.init = (NetworkManager.init, []).
Proof.
  destruct (X12_pingTick_never_warns 77 false Scenario.hostConnected) as (Hopen & _).
  destruct (X12_pingTick_never_warns 77 false NetworkManager.init) as (_ & Hshut & _).
  split.
  - apply Hopen. reflexivity.
  - apply Hshut. reflexivity.
Defined.

(** X13.  Only validated payloads reach the message callback: on
    received data the manager invokes the callback, with that very
    payload, exactly when a callback is set and the payload is a
    well-formed message; any other payload is dropped with a warning.
    Validation itself never raises, so the handler's [catch] logs an
    error exactly when the callback was invoked and raised.  The
    manager's state is untouched in every case. *)
Theorem X13_onConnectionData_dispatches_valid_only
    (callbackThrows : bool) (data : Js.value) (n : t) :
  let r := onConnectionDataWith callbackThrows data n in
  fst r = n
  /\ (forall v, In (OnMessage v) (snd r)
                <-> v = data /\ Validation.well_formed data = true
                    /\ onMessageCallback n = true)
  /\ (Validation.well_formed data = false ->
      snd r = [ConsoleWarn "Received invalid message:"])
  /\ (forall text, In (ConsoleError text) (snd r)
                   <-> text = "Error processing message:"
                       /\ Validation.well_formed data = true
                       /\ onMessageCallback n = true /\ callbackThrows = true).
Proof.
  cbv zeta. unfold onConnectionDataWith.
  destruct (validate_characterised data) as (r & -> & Hr). rewrite Hr.
  destruct (Validation.well_formed data), (onMessageCallback n), callbackThrows;
    cbn [fst snd In]; (split; [reflexivity|]); (split; [|split]);
    try (intros _; reflexivity); try discriminate;
    first [intros v | intros text];
    (split;
     [intros H; repeat (destruct H as [H|H]; try discriminate H);
      try contradiction; try (injection H as <-); repeat split
     |intros H; decompose [and] H; subst; try discriminate; auto]).
Qed.

Lemma X13_onConnectionData_witness :
  snd (onConnectionDataWith true (Js.JStr "hello") Scenario.hostConnected)
  = [ConsoleWarn "Received invalid message:"].
Proof.
  apply (X13_onConnectionData_dispatches_valid_only true (Js.JStr "hello")
           Scenario.hostConnected).
  reflexivity.
Defined.


Ltac unfold_manager :=
  unfold exec, createRoom, joinRoom, disconnect, pingTick, onHostPeerOpen,
    onPeerConnection, onGuestPeerOpen, onError, onConnectionOpen,
    onConnectionData, onConnectionDataWith, onConnectionClose, channelOpens,
    channelCloses,
    setOnMessage, setOnStatusChange, setOnRoomCreated,
    setOnConnectionEstablished;
  unfold openPeer, stopPingInterval, updateStatus, channelOpen.

Ltac split_manager :=
  rewrite ?send_trace; unfold channelOpen, reported;
  repeat (cbn -[generateRoomCode toUpperCase Validation.validateMessage];
          match goal with
          | |- context [DataConnection.open ?c] => is_var c; destruct c
          | |- context [match ?x with _ => _ end] => is_var x; destruct x
          | |- context [if ?x then _ else _] => is_var x; destruct x
          | |- context [(?i =? 0)%Z] => destruct (i =? 0)%Z
          | |- context [Validation.validateMessage ?d] =>
              destruct (Validation.validateMessage d)
          | |- context [Js.truthy ?r] => destruct (Js.truthy r)
          end).

(** Unfolding a history at its first step. *)
Lemma run_acc (ops : list op) (n : t) (acc : list effect) :
  foldl (fun r o => let '(n', fx) := exec o (fst r) in (n', snd r ++ fx))
        (n, acc) ops
  = (fst (run ops n), acc ++ snd (run ops n)).
Proof.
  unfold run. revert n acc. induction ops as [|o ops IH]; intros n acc; cbn.
  - now rewrite app_nil_r.
  - destruct (exec o n) as [n1 fx1]. cbn [fst snd].
    rewrite (IH n1 (acc ++ fx1)), (IH n1 fx1). cbn. now rewrite app_assoc.
Qed.

Lemma run_cons (o : op) (ops : list op) (n : t) :
  run (o :: ops) n
  = (fst (run ops (fst (exec o n))),
     snd (exec o n) ++ snd (run ops (fst (exec o n)))).
Proof.
  unfold run at 1. cbn [foldl fst snd app].
  destruct (exec o n) as [n1 fx1]. cbn [fst snd]. apply run_acc.
Qed.

(** An invariant of every step is an invariant of every history. *)
Lemma run_invariant (P : t -> Prop) :
  (forall o n, P n -> P (fst (exec o n))) ->
  forall ops n, P n -> P (fst (run ops n)).
Proof.
  intros Hstep ops. induction ops as [|o ops IH]; intros n Hn; [exact Hn|].
  rewrite run_cons. cbn [fst]. apply IH, Hstep, Hn.
Qed.

Lemma exec_latency (o : op) (n : t) : latency (fst (exec o n)) = latency n.
Proof.
  destruct n as [p c h r s l lp pi cm cs cr ce].
  destruct o; unfold_manager; split_manager; reflexivity.
Qed.

(** X14.  No operation of the manager and no transport event ever
    writes the measured latency: through every history it keeps the value
    it had, so on a manager that started fresh [getLatency()] is 0 for
    good. *)
Theorem X14_latency_is_never_measured (ops : list op) :
  (forall n, getLatency (fst (run ops n)) = getLatency n)
  /\ getLatency (fst (run ops init)) = 0.
Proof.
  assert (H : forall n, getLatency (fst (run ops n)) = getLatency n).
  { intros n. apply (run_invariant (fun m => getLatency m = getLatency n));
      [|reflexivity].
    intros o m Hm. unfold getLatency in *. now rewrite exec_latency. }
  split; [exact H | now rewrite H].
Qed.

(** Any index, in range or not, picks one character of the alphabet or
    nothing. *)
Lemma charAt_chars_any (k : Z) :
  charAt chars k = ""
  \/ exists c, charAt chars k = String c EmptyString /\ is_upper_alnum c = true.
Proof.
  unfold charAt. destruct (k <? 0)%Z; [now left|].
  generalize (Z.to_nat k). intros n.
  do 36 (destruct n as [|n]; [right; eexists; split; reflexivity|]).
  now left.
Qed.

Lemma append_piece_ok (code piece : string) :
  (piece = ""
   \/ exists c, piece = String c EmptyString /\ is_upper_alnum c = true) ->
  forall k, string_forallb is_upper_alnum code = true ->
            (String.length code <= k)%nat ->
            string_forallb is_upper_alnum (String.append code piece) = true
            /\ (String.length (String.append code piece) <= S k)%nat.
Proof.
  intros Hpiece k Hok Hlen.
  rewrite string_forallb_append, string_length_append, Hok.
  destruct Hpiece as [->|(c & -> & Hc)]; cbn; [|rewrite Hc]; split; auto; lia.
Qed.

(** Whatever the draws, a generated code is at most six characters of
    [A-Z0-9]. *)
Lemma generateRoomCode_any (random : nat -> Q) :
  string_forallb is_upper_alnum (generateRoomCode random) = true
  /\ (String.length (generateRoomCode random) <= 6)%nat.
Proof.
  unfold generateRoomCode. cbn [seq foldl].
  repeat match goal with
         | |- context [charAt chars ?k] =>
             let H := fresh "Hpiece" in
             pose proof (charAt_chars_any k) as H;
             generalize dependent (charAt chars k); intros
         end.
  assert (H0 : string_forallb is_upper_alnum "" = true /\ (String.length "" <= 0)%nat)
    by (split; [reflexivity | cbn; lia]).
  destruct H0 as [Ha Hl].
  repeat match goal with
         | H : ?piece = "" \/ _ |- _ =>
             match goal with
             | Ha : string_forallb is_upper_alnum ?code = true,
               Hl : (String.length ?code <= ?k)%nat |- context [String.append ?code piece] =>
                 destruct (append_piece_ok code piece H k Ha Hl) as [? ?];
                 clear H Ha Hl
             end
         end.
  split; assumption.
Qed.

Lemma upper_alnum_not_lower (c : ascii) :
  is_upper_alnum c = true -> is_lower c = false.
Proof.
  destruct c as [[] [] [] [] [] [] [] []]; vm_compute; intros H;
    first [reflexivity | discriminate H].
Qed.

Lemma upper_alnum_no_lower (s : string) :
  string_forallb is_upper_alnum s = true ->
  string_forallb (fun c => negb (is_lower c)) s = true.
Proof.
  induction s as [|c s IH]; cbn; [reflexivity|].
  intros H. apply andb_prop in H as [Hc Hs].
  now rewrite (upper_alnum_not_lower c Hc), IH.
Qed.

(** Only [joinRoom] stores a code that it was given. *)
Lemma exec_room_own (o : op) (n : t) :
  (exists code peerThrows, o = OpJoinRoom code peerThrows)
  \/ (roomCode (fst (exec o n)) = roomCode n /\ isHost (fst (exec o n)) = isHost n)
  \/ (exists random, roomCode (fst (exec o n)) = generateRoomCode random
                     /\ isHost (fst (exec o n)) = true)
  \/ (roomCode (fst (exec o n)) = "" /\ isHost (fst (exec o n)) = false).
Proof.
  destruct n as [p c h r s l lp pi cm cs cr ce].
  destruct o; try (left; eexists; eexists; reflexivity); right;
    unfold_manager; split_manager;
    first [ left; split; reflexivity
          | right; left; eexists; split; reflexivity
          | right; right; split; reflexivity ].
Qed.

Lemma exec_roomCodeOk (o : op) (n : t) :
  asciiOp o = true -> roomCodeOk n -> roomCodeOk (fst (exec o n)).
Proof.
  unfold roomCodeOk. intros Hop (Hascii & Hlow & Hhost).
  destruct (exec_room_own o n)
    as [(code & peerThrows & ->)|[[-> ->]|[(random & -> & ->)|[-> ->]]]].
  - cbn [exec asciiOp] in *.
    destruct (joinRoom_roomCode code peerThrows n) as [-> ->].
    split; [now apply toUpperCase_ascii|].
    split; [now apply toUpperCase_no_lowercase | discriminate].
  - split; [exact Hascii|]. split; [exact Hlow | exact Hhost].
  - destruct (generateRoomCode_any random) as [Hok Hlen].
    split; [now apply upper_alnum_ascii|].
    split; [|now intros _].
    rewrite has_lowercase_ascii by now apply upper_alnum_ascii.
    now rewrite upper_alnum_no_lower.
  - split; [reflexivity|]. split; [reflexivity | discriminate].
Qed.

(** X15.  Through every history of a manager that started fresh and was
    given only ASCII text to join under, the room code is ASCII and
    holds no lowercase letter, and while the manager is the host the
    code is at most six characters, all of [A-Z0-9], whatever the random
    source returned. *)
Theorem X15_roomCode_shape_is_invariant (ops : list op) :
  forallb asciiOp ops = true -> roomCodeOk (fst (run ops init)).
Proof.
  assert (Hinit : roomCodeOk init).
  { split; [reflexivity|]. split; [reflexivity | discriminate]. }
  revert Hinit. generalize init as n.
  induction ops as [|o ops IH]; intros n Hn Hops; [exact Hn|].
  cbn [forallb] in Hops. apply andb_prop in Hops as [Ho Hops].
  rewrite run_cons. cbn [fst]. apply IH; [|exact Hops].
  now apply exec_roomCodeOk.
Qed.

Lemma X15_roomCode_shape_witness :
  roomCodeOk (fst (run [OpJoinRoom "ab12c9" false; OpDisconnect;
                        OpCreateRoom (fun _ => 0%Q) false] init)).
Proof. apply X15_roomCode_shape_is_invariant. reflexivity. Defined.

Lemma exec_status (o : op) (n : t) :
  onStatusChangeCallback n = true ->
  onStatusChangeCallback (fst (exec o n)) = true
  /\ status (fst (exec o n))
     = default (status n) (last (reported (snd (exec o n)))).
Proof.
  destruct n as [p c h r s l lp pi cm cs cr ce]. cbn. intros ->.
  destruct o; unfold_manager; split_manager; split; reflexivity.
Qed.

(** X16.  The status callback always knows the status: once a status
    callback is set, after any history the manager's status is the last
    one it reported to the callback, or, if it reported none, the status
    it had before. *)
Theorem X16_status_callback_tracks_status (ops : list op) (n : t) :
  onStatusChangeCallback n = true ->
  status (fst (run ops n)) = default (status n) (last (reported (snd (run ops n)))).
Proof.
  revert n. induction ops as [|o ops IH]; intros n Hcb; [reflexivity|].
  rewrite run_cons. cbn [fst snd].
  destruct (exec_status o n Hcb) as [Hcb' Hst].
  rewrite (IH _ Hcb'), Hst. unfold reported. rewrite omap_app, last_app.
  now destruct (last (omap _ (snd (run ops (fst (exec o n)))))).
Qed.

Lemma X16_status_callback_witness :
  status (fst (run [OpCreateRoom (fun _ => 0%Q) false;
                    OpPeerConnection (DataConnection.mk false);
                    OpChannelOpens; OpConnectionOpen 1; OpPeerError]
                   (setOnStatusChange init)))
  = error.
Proof.
  rewrite (X16_status_callback_tracks_status _ (setOnStatusChange init) eq_refl).
  vm_compute. reflexivity.
Defined.

End ManagerFacts.


(* ================================================================= *)
(** ** More on the lobby *)

Section LobbyMoreFacts.
Import LobbyUI.

Lemma absorb_roomCodeInput (fx : list NetworkManager.effect) (l : t) :
  roomCodeInput (absorb fx l) = roomCodeInput l.
Proof.
  unfold absorb. revert l. induction fx as [|e fx IH]; intros l; cbn; [reflexivity|].
  rewrite IH. destruct e; try reflexivity. now destruct status0.
Qed.

Lemma checkBothReady_buffer (env : Env.t) (l : t) (n : NetworkManager.t) :
  roomCodeInput (fst (fst (checkBothReady env (l, n)))) = roomCodeInput l
  /\ mode (fst (fst (checkBothReady env (l, n)))) = mode l.
Proof.
  unfold checkBothReady, call, startGame.
  destruct (isReady l && remoteReady l); [|split; reflexivity].
  destruct (NetworkManager.isHostPlayer n); [|split; reflexivity].
  destruct (NetworkManager.send _ _ n) as [n1 fx1]. cbn [fst snd].
  rewrite absorb_roomCodeInput.
  destruct (absorb_keeps fx1 l) as (-> & _). split; reflexivity.
Qed.

(** The four things a step can do to the typed room code. *)
Lemma step_buffer (env : Env.t) (e : event) (l : t) (n : NetworkManager.t) :
  let buffer := roomCodeInput l in
  let buffer' := roomCodeInput (fst (fst (step env e (l, n)))) in
  buffer' = buffer \/ buffer' = ""
  \/ buffer' = drop_last buffer
  \/ exists c, is_alnum c = true /\ (String.length buffer < 6)%nat
               /\ buffer' = String.append buffer
                              (String (NetworkManager.upcase c) EmptyString).
Proof.
  cbv zeta. destruct e as [key|m|code| |s]; cbn [step].
  - destruct (readyPress key l n) eqn:Hready.
    { rewrite (onKeydown_ready env key l n Hready). cbn [fst].
      destruct (checkBothReady_buffer env
                  (set_status "You are ready! Waiting for other player..."
                              (set_isReady true l)) n) as [-> _].
      now left. }
    unfold readyPress in Hready.
    destruct (String.eqb_spec key "Escape") as [->|Hkey].
    + unfold onKeydown. cbv zeta.
      replace (NetworkManager.toLowerCase "Escape") with "escape" by reflexivity.
      destruct (mode l) eqn:Hmode; cbn; rewrite ?Hmode;
        try destruct (NetworkManager.isConnected n); cbn; rewrite ?Hmode;
        try (now left);
        destruct (NetworkManager.disconnect n) as [n' fx]; cbn;
        right; now left.
    + unfold onKeydown. rewrite escape_other by exact Hkey.
      destruct (mode l) eqn:Hmode.
      * destruct (String.eqb _ "c").
        -- unfold call.
           destruct (NetworkManager.createRoom _ _ n) as [n' fx]. cbn.
           rewrite absorb_roomCodeInput. now left.
        -- destruct (String.eqb _ "j"); [right|]; now left.
      * destruct (NetworkManager.isConnected n); [|now left].
        destruct (String.eqb _ "r"); [|now left].
        destruct (isReady l); [now left | discriminate Hready].
      * destruct (is_code_key key) eqn:Hcode.
        -- destruct (Nat.ltb_spec (String.length (roomCodeInput l)) 6);
             [|now left].
           right; right; right.
           destruct key as [|c [|c' rest]]; try discriminate Hcode.
           exists c. cbn in Hcode. repeat split; [exact Hcode | assumption].
        -- destruct (String.eqb key "Backspace"); [right; right; now left|].
           destruct (String.eqb key "Enter" && _); [|now left].
           unfold call.
           destruct (NetworkManager.joinRoom _ _ n) as [n' fx]. cbn.
           rewrite absorb_roomCodeInput. now left.
  - destruct m as [d ts|d ts|ts|w f ts|name ts|ts];
      try rewrite onMessage_ready; try (now left).
    destruct (checkBothReady_buffer env
                (set_status "Other player is ready!" (set_remoteReady true l)) n)
      as [-> _].
    now left.
  - now left.
  - now left.
  - destruct s; now left.
Qed.

Lemma upcase_alnum (c : ascii) :
  is_alnum c = true -> NetworkManager.is_upper_alnum (NetworkManager.upcase c) = true.
Proof.
  destruct c as [[] [] [] [] [] [] [] []]; vm_compute; intros H;
    first [reflexivity | discriminate H].
Qed.

Lemma drop_last_ok (s : string) :
  NetworkManager.string_forallb NetworkManager.is_upper_alnum s = true ->
  NetworkManager.string_forallb NetworkManager.is_upper_alnum (drop_last s) = true
  /\ (String.length (drop_last s) <= String.length s)%nat.
Proof.
  induction s as [|c s IH]; cbn; [split; [reflexivity | lia]|].
  intros H. apply andb_prop in H as [Hc Hs].
  destruct s as [|c' s]; [split; [reflexivity | cbn; lia]|].
  destruct (IH Hs) as [Hok Hlen]. cbn [NetworkManager.string_forallb String.length] in *.
  rewrite Hc. split; [exact Hok | lia].
Qed.

(** X17.  The typed room-code buffer stays within six characters of
    [A-Z0-9] whatever happens to the lobby: letters are stored in upper
    case, a seventh character is ignored, and Backspace on an empty
    buffer does nothing. *)
Theorem X17_room_code_buffer_invariant
    (events : list (Env.t * event)) (l : t) (n : NetworkManager.t) :
  codeBufferOk l -> codeBufferOk (fst (fst (runWith events (l, n)))).
Proof.
  unfold runWith.
  enough (H : forall (o : outcome), codeBufferOk (fst (fst o)) ->
            codeBufferOk
              (fst (fst (foldl (fun o ee =>
                                  let '(w', fx) := step (fst ee) (snd ee) (fst o) in
                                  (w', snd o ++ fx)) o events))))
    by (intros Hok; now apply (H ((l, n), []))).
  induction events as [|[env e] events IH]; intros o Hok; [exact Hok|].
  cbn [foldl]. apply IH. destruct o as [[l0 n0] fx0]. cbn [fst snd] in *.
  destruct (step env e (l0, n0)) as [w' fx'] eqn:Hstep. cbn [fst].
  pose proof (step_buffer env e l0 n0) as Hbuf. cbv zeta in Hbuf.
  rewrite Hstep in Hbuf. cbn [fst] in Hbuf.
  unfold codeBufferOk in *. destruct Hok as [Hlen Hchars].
  destruct Hbuf as [->|[->|[->|(c & Hc & Hlt & ->)]]].
  - now split.
  - split; [cbn; lia | reflexivity].
  - destruct (drop_last_ok _ Hchars). split; [lia | assumption].
  - rewrite string_length_append, string_forallb_append, Hchars. cbn.
    rewrite (upcase_alnum c Hc). split; [lia | reflexivity].
Qed.

Lemma X17_room_code_buffer_witness :
  codeBufferOk
    (fst (fst (runWith
                 (map (pair Scenario.env0)
                      (Keydown "j" :: typed "ab12c9xyz"
                       ++ [Keydown "Backspace"; Keydown "q"]))
                 (LobbyUI.init, NetworkManager.init)))).
Proof.
  apply X17_room_code_buffer_invariant. split; [cbn; lia | reflexivity].
Defined.


Lemma upper_alnum_upcase (c : ascii) :
  NetworkManager.is_upper_alnum c = true -> NetworkManager.upcase c = c.
Proof.
  destruct c as [[] [] [] [] [] [] [] []]; vm_compute; intros H;
    first [reflexivity | discriminate H].
Qed.

Lemma toUpperCase_fixed (s : string) :
  NetworkManager.string_forallb NetworkManager.is_upper_alnum s = true ->
  NetworkManager.toUpperCase s = s.
Proof.
  unfold NetworkManager.toUpperCase.
  induction s as [|c s IH]; cbn; [reflexivity|].
  intros H. apply andb_prop in H as [Hc Hs].
  now rewrite (upper_alnum_upcase c Hc), IH.
Qed.

Lemma toUpperCase_alnum (s : string) :
  NetworkManager.string_forallb is_alnum s = true ->
  NetworkManager.string_forallb NetworkManager.is_upper_alnum
    (NetworkManager.toUpperCase s) = true.
Proof.
  unfold NetworkManager.toUpperCase.
  induction s as [|c s IH]; cbn; [reflexivity|].
  intros H. apply andb_prop in H as [Hc Hs].
  now rewrite (upcase_alnum c Hc), IH.
Qed.

Ltac not_a_call H :=
  repeat (apply in_app_or in H as [H|H]);
  repeat match type of H with
         | In _ (_ :: _) => destruct H as [H|H]; [discriminate H|]
         | In _ [] => destruct H
         | In _ (map Net _) => apply Net_not_call in H; [destruct H | intros; discriminate]
         | In _ (if ?b then _ else _) => destruct b
         end.

Lemma checkBothReady_calls (env : Env.t) (l : t) (n : NetworkManager.t) (e : effect) :
  In e (snd (checkBothReady env (l, n))) ->
  e = CallSend (StartGameMessage (Env.now env)) \/ e = GameStart \/ exists x, e = Net x.
Proof.
  rewrite checkBothReady_trace.
  destruct (isReady l && remoteReady l && NetworkManager.isHostPlayer n); [|intros []].
  intros [<-|H]; [now left|].
  apply in_app_or in H as [H|H].
  - apply in_map_iff in H as (x & <- & _). right; right. now exists x.
  - destruct (onGameStart l); [destruct H as [<-|[]]; right; now left | destruct H].
Qed.

(** X18.  The lobby calls [joinRoom] only from the join screen, on Enter,
    with the whole six-character buffer; the lobby then waits, and the
    manager holds that code, in upper case, as a guest. *)
Theorem X18_joinRoom_called_with_full_buffer_only
    (env : Env.t) (e : event) (l : t) (n : NetworkManager.t) (code : string) :
  In (CallJoinRoom code) (snd (step env e (l, n))) ->
  e = Keydown "Enter" /\ mode l = join
  /\ code = roomCodeInput l /\ String.length code = 6%nat
  /\ mode (fst (fst (step env e (l, n)))) = create
  /\ NetworkManager.roomCode (snd (fst (step env e (l, n))))
     = NetworkManager.toUpperCase code
  /\ NetworkManager.isHostPlayer (snd (fst (step env e (l, n)))) = false
  /\ (codeBufferOk l ->
      NetworkManager.roomCode (snd (fst (step env e (l, n)))) = code).
Proof.
  intros Hin. destruct e as [key|m|rc| |s]; cbn [step] in *.
  2:{ exfalso. unfold onMessage in Hin.
      destruct (String.eqb (message_type m) "PLAYER_READY").
      - apply checkBothReady_calls in Hin as [H|[H|(x & H)]]; discriminate H.
      - destruct (String.eqb (message_type m) "START_GAME"); [|destruct Hin].
        unfold startGame in Hin. cbn [fst snd] in Hin.
        destruct (onGameStart l); [destruct Hin as [H|[]]; discriminate H | destruct Hin]. }
  2-4: destruct Hin.
  destruct (readyPress key l n) eqn:Hready.
  { rewrite (onKeydown_ready env key l n Hready) in Hin. cbn [snd] in Hin.
    destruct Hin as [H|H]; [discriminate H|].
    apply in_app_or in H as [H|H].
    - apply Net_not_call in H; [destruct H | intros; discriminate].
    - apply checkBothReady_calls in H as [H|[H|(x & H)]]; discriminate H. }
  unfold readyPress in Hready.
  destruct (String.eqb_spec key "Escape") as [->|Hkey].
  { exfalso. revert Hin. unfold onKeydown. cbv zeta.
    replace (NetworkManager.toLowerCase "Escape") with "escape" by reflexivity.
    destruct (mode l) eqn:Hmode; cbn; rewrite ?Hmode;
      try destruct (NetworkManager.isConnected n); cbn; rewrite ?Hmode;
      try (intros []);
      destruct (NetworkManager.disconnect n) as [n' fx]; cbn;
      intros [H|H]; try discriminate H;
      (apply Net_not_call in H; [destruct H | intros; discriminate]). }
  revert Hin. unfold onKeydown. rewrite escape_other by exact Hkey.
  destruct (mode l) eqn:Hmode.
  - destruct (String.eqb _ "c").
    + unfold call. destruct (NetworkManager.createRoom _ _ n) as [n' fx]. cbn.
      intros [H|H]; [discriminate H|].
      apply Net_not_call in H; [destruct H | intros; discriminate].
    + destruct (String.eqb _ "j"); intros [].
  - destruct (NetworkManager.isConnected n); [|intros []].
    destruct (String.eqb _ "r"); [|intros []].
    destruct (isReady l); [intros [] | discriminate Hready].
  - destruct (is_code_key key).
    { destruct (String.length (roomCodeInput l) <? 6)%nat; intros []. }
    destruct (String.eqb key "Backspace"); [intros []|].
    destruct (String.eqb_spec key "Enter") as [->|_]; [|intros []].
    destruct (Nat.eqb_spec (String.length (roomCodeInput l)) 6) as [Hlen|_];
      [|intros []].
    cbn [andb]. unfold call.
    destruct (joinRoom_roomCode (roomCodeInput l) (Env.peerThrows env) n)
      as [Hcode Hrole].
    destruct (NetworkManager.joinRoom _ _ n) as [n' fx]. cbn [fst snd] in *.
    intros [H|H].
    2:{ apply Net_not_call in H; [destruct H | intros; discriminate]. }
    injection H as <-.
    destruct (absorb_keeps fx l) as (_ & _ & _ & _).
    repeat split; try assumption; try reflexivity.
    intros [_ Hok]. rewrite Hcode. now apply toUpperCase_fixed.
Qed.

Lemma X18_joinRoom_witness :
  NetworkManager.roomCode
    (snd (fst (step Scenario.env0 (Keydown "Enter")
                 (set_roomCodeInput "AB12C9" (set_mode join LobbyUI.init),
                  NetworkManager.init))))
  = NetworkManager.toUpperCase "AB12C9".
Proof.
  assert (Hcall : In (CallJoinRoom "AB12C9")
                     (snd (step Scenario.env0 (Keydown "Enter")
                             (set_roomCodeInput "AB12C9" (set_mode join LobbyUI.init),
                              NetworkManager.init)))).
  { vm_compute. left. reflexivity. }
  destruct (X18_joinRoom_called_with_full_buffer_only Scenario.env0 (Keydown "Enter")
              (set_roomCodeInput "AB12C9" (set_mode join LobbyUI.init))
              NetworkManager.init "AB12C9" Hcall)
    as (_ & _ & _ & _ & _ & Hcode & _).
  exact Hcode.
Defined.

Lemma lobby_run_acc (env : Env.t) (events : list event) (w : world)
    (acc : list effect) :
  foldl (fun o e => let '(w', fx) := step env e (fst o) in (w', snd o ++ fx))
        (w, acc) events
  = (fst (run env events w), acc ++ snd (run env events w)).
Proof.
  unfold run. revert w acc. induction events as [|e events IH]; intros w acc; cbn.
  - now rewrite app_nil_r.
  - destruct (step env e w) as [w1 fx1]. cbn [fst snd].
    rewrite (IH w1 (acc ++ fx1)), (IH w1 fx1). cbn. now rewrite app_assoc.
Qed.

Lemma lobby_run_cons (env : Env.t) (e : event) (events : list event) (w : world) :
  run env (e :: events) w
  = (fst (run env events (fst (step env e w))),
     snd (step env e w) ++ snd (run env events (fst (step env e w)))).
Proof.
  unfold run at 1. cbn [foldl fst snd app].
  destruct (step env e w) as [w1 fx1]. cbn [fst snd]. apply lobby_run_acc.
Qed.

Lemma lobby_run_app (env : Env.t) (a b : list event) (w : world) :
  run env (a ++ b) w
  = (fst (run env b (fst (run env a w))),
     snd (run env a w) ++ snd (run env b (fst (run env a w)))).
Proof.
  revert w. induction a as [|e a IH]; intros w; cbn [app].
  - cbn. now destruct (run env b w).
  - rewrite !lobby_run_cons, IH. cbn [fst snd]. now rewrite app_assoc.
Qed.

Lemma string_append_empty (s : string) : String.append s "" = s.
Proof. induction s as [|c s IH]; cbn; [reflexivity | now rewrite IH]. Qed.

Lemma string_append_cons (a : string) (c : ascii) (b : string) :
  String.append (String.append a (String c "")) b = String.append a (String c b).
Proof. induction a as [|x a IH]; cbn; [reflexivity | now rewrite IH]. Qed.

(** Typing on the join screen: each letter or digit goes to the buffer
    in upper case, and nothing else happens. *)
Lemma typed_run (env : Env.t) (code : string) :
  forall (l : t) (n : NetworkManager.t),
    mode l = join ->
    NetworkManager.string_forallb is_alnum code = true ->
    (String.length (roomCodeInput l) + String.length code <= 6)%nat ->
    run env (typed code) (l, n)
    = ((set_roomCodeInput
          (String.append (roomCodeInput l) (NetworkManager.toUpperCase code)) l, n),
       []).
Proof.
  unfold NetworkManager.toUpperCase.
  induction code as [|c code IH]; intros l n Hmode Hok Hlen.
  - cbn [typed NetworkManager.string_map]. rewrite string_append_empty.
    unfold run, set_roomCodeInput. cbn [foldl]. now destruct l.
  - cbn [typed NetworkManager.string_map]. rewrite lobby_run_cons.
    cbn [NetworkManager.string_forallb String.length] in Hok, Hlen.
    apply andb_prop in Hok as [Hc Hrest].
    assert (Hstep : step env (Keydown (String c "")) (l, n)
                    = ((set_roomCodeInput
                          (String.append (roomCodeInput l)
                             (String (NetworkManager.upcase c) "")) l, n), [])).
    { cbn [step]. unfold onKeydown. rewrite escape_other by discriminate.
      rewrite Hmode. cbn [is_code_key]. rewrite Hc.
      destruct (Nat.ltb_spec (String.length (roomCodeInput l)) 6); [reflexivity | lia]. }
    rewrite Hstep. cbn [fst snd app].
    rewrite IH; [|exact Hmode|exact Hrest|].
    + unfold set_roomCodeInput. cbn [mode roomCodeInput status isReady remoteReady
                                      onGameStart].
      now rewrite string_append_cons.
    + unfold set_roomCodeInput. cbn [roomCodeInput].
      rewrite string_length_append. cbn [String.length]. lia.
Qed.

(** X19.  Typing a six-character room code on the join screen, in any
    letter case, and pressing Enter joins exactly that room: the manager
    becomes a guest holding the code in upper case, its connection, once
    its peer is open, goes to that code, and that is the identifier under
    which a host that generated this code opened its peer. *)
Theorem X19_typed_code_joins_that_room
    (env : Env.t) (l : t) (n : NetworkManager.t) (code : string) :
  mode l = join -> roomCodeInput l = "" ->
  String.length code = 6%nat ->
  NetworkManager.string_forallb is_alnum code = true ->
  let r := run env (typed code ++ [Keydown "Enter"]) (l, n) in
  let upper := NetworkManager.toUpperCase code in
  mode (fst (fst r)) = create
  /\ snd (fst r) = fst (NetworkManager.joinRoom upper (Env.peerThrows env) n)
  /\ NetworkManager.roomCode (snd (fst r)) = upper
  /\ NetworkManager.isHostPlayer (snd (fst r)) = false
  /\ snd (NetworkManager.onGuestPeerOpen (snd (fst r)))
     = [NetworkManager.PeerConnect upper]
  /\ In (CallJoinRoom upper) (snd r)
  /\ (forall random host,
        NetworkManager.generateRoomCode random = upper ->
        In (NetworkManager.NewPeer (Some upper))
           (snd (NetworkManager.createRoom random false host))).
Proof.
  intros Hmode Hempty Hlen Hok. cbv zeta.
  rewrite lobby_run_app, (typed_run env code l n Hmode Hok)
    by (rewrite Hempty; cbn; lia).
  rewrite Hempty. cbn [String.append fst snd app].
  set (upper := NetworkManager.toUpperCase code).
  assert (Hupper : NetworkManager.string_forallb NetworkManager.is_upper_alnum upper
                   = true) by now apply toUpperCase_alnum.
  assert (Hlen' : String.length upper = 6%nat).
  { unfold upper, NetworkManager.toUpperCase. rewrite <- Hlen. clear.
    induction code as [|c s IH]; cbn; [reflexivity | now rewrite IH]. }
  unfold run. cbn [foldl step fst snd]. unfold onKeydown.
  rewrite escape_other by discriminate.
  cbn [mode set_roomCodeInput roomCodeInput].
  rewrite Hmode. cbn [is_code_key].
  change (String.eqb "Enter" "Backspace") with false.
  change (String.eqb "Enter" "Enter") with true.
  rewrite Hlen'. cbn [Nat.eqb andb]. unfold call.
  destruct (joinRoom_roomCode upper (Env.peerThrows env) n) as [Hcode Hrole].
  destruct (NetworkManager.joinRoom upper (Env.peerThrows env) n) as [n' fx].
  cbn [fst snd] in *.
  rewrite (toUpperCase_fixed upper Hupper) in Hcode.
  destruct (absorb_keeps fx
              (mk join upper (status l) (isReady l) (remoteReady l) (onGameStart l)))
    as (_ & _ & _ & _).
  split; [reflexivity|]. split; [reflexivity|]. split; [exact Hcode|].
  split; [exact Hrole|].
  split; [unfold NetworkManager.onGuestPeerOpen; cbn; now rewrite Hcode|].
  split; [now left|].
  intros random host Hgen.
  destruct (createRoom_registers_code random host) as [_ Hpeer].
  now rewrite Hgen in Hpeer.
Qed.

Lemma X19_typed_code_witness :
  NetworkManager.roomCode
    (snd (fst (run Scenario.env0 (typed "ab12c9" ++ [Keydown "Enter"])
                   (set_mode join LobbyUI.init, NetworkManager.init))))
  = NetworkManager.toUpperCase "ab12c9".
Proof.
  destruct (X19_typed_code_joins_that_room Scenario.env0 (set_mode join LobbyUI.init)
              NetworkManager.init "ab12c9" eq_refl eq_refl eq_refl eq_refl)
    as (_ & _ & Hcode & _).
  exact Hcode.
Defined.

Lemma disconnect_trace_quiet (n : NetworkManager.t) (e : NetworkManager.effect) :
  In e (snd (NetworkManager.disconnect n)) ->
  e = NetworkManager.ClearInterval \/ e = NetworkManager.ConnectionClose
  \/ e = NetworkManager.PeerDestroy
  \/ e = NetworkManager.OnStatusChange NetworkManager.disconnected.
Proof.
  unfold NetworkManager.disconnect, NetworkManager.stopPingInterval,
    NetworkManager.updateStatus.
  destruct (NetworkManager.pingIntervalId n) as [i|]; [destruct (i =? 0)%Z|];
    destruct n as [p c h rc st la lp pi cm cs cr ce]; cbn;
    destruct c, p, cs; cbn; intuition (subst; auto).
Qed.

Lemma disconnect_not_connected (n : NetworkManager.t) :
  NetworkManager.isConnected (fst (NetworkManager.disconnect n)) = false.
Proof. now rewrite disconnect_state. Qed.

(** Escape types nothing and readies nothing: only the cancel part of
    the listener sees it. *)
Lemma onKeydown_escape (env : Env.t) (l : t) (n : NetworkManager.t) :
  onKeydown env "Escape" (l, n) = escape "Escape" ((l, n), []).
Proof.
  unfold onKeydown.
  replace (NetworkManager.toLowerCase "Escape") with "escape" by reflexivity.
  destruct (mode l); [reflexivity| |reflexivity].
  change (String.eqb "escape" "r") with false. cbn [andb].
  now destruct (NetworkManager.isConnected n).
Qed.

(** X20.  Escape cancels the lobby: outside the menu it disconnects the
    manager and resets the lobby to the menu with an empty buffer, an
    empty status line and both ready flags cleared, and does nothing
    else; in the menu it does nothing at all. *)
Theorem X20_escape_cancels_to_menu (env : Env.t) (l : t) (n : NetworkManager.t) :
  let r := step env (Keydown "Escape") (l, n) in
  (mode l = menu -> r = ((l, n), []))
  /\ (mode l <> menu ->
      fst (fst r) = mk menu "" "" false false (onGameStart l)
      /\ snd (fst r) = fst (NetworkManager.disconnect n)
      /\ NetworkManager.isConnected (snd (fst r)) = false
      /\ snd r = CallDisconnect :: map Net (snd (NetworkManager.disconnect n))
      /\ quiet (snd r)
      /\ forall key n', readyPress key (fst (fst r)) n' = false).
Proof.
  cbv zeta. cbn [step]. rewrite onKeydown_escape. unfold escape, call.
  change (String.eqb "Escape" "Escape") with true. cbv iota.
  split.
  - intros Hmode. now rewrite Hmode.
  - intros Hmode.
    destruct (NetworkManager.disconnect n) as [n' fx] eqn:Hdis. cbn [fst snd app].
    destruct (absorb_keeps fx l) as (_ & _ & _ & Hsame).
    assert (Hn' : n' = fst (NetworkManager.disconnect n)) by now rewrite Hdis.
    assert (Hfx : fx = snd (NetworkManager.disconnect n)) by now rewrite Hdis.
    destruct (mode l); [contradiction| |]; cbn [fst snd]; rewrite Hsame;
      (split; [reflexivity|]); (split; [reflexivity|]);
      (split; [rewrite Hn'; apply disconnect_not_connected|]);
      (split; [reflexivity|]);
      (split; [|intros key n0; reflexivity]);
      (intros e [<-|Hin]; [exact I|]);
      apply in_map_iff in Hin as (x & <- & Hx); rewrite Hfx in Hx;
      apply disconnect_trace_quiet in Hx as [->|[->|[->| ->]]]; exact I.
Qed.

Lemma X20_escape_witness :
  fst (fst (step Scenario.env0 (Keydown "Escape")
              (Scenario.remotelyReady, Scenario.hostConnected)))
  = mk menu "" "" false false (onGameStart Scenario.remotelyReady).
Proof.
  assert (Hmode : mode Scenario.remotelyReady <> menu) by (vm_compute; discriminate).
  destruct (X20_escape_cancels_to_menu Scenario.env0 Scenario.remotelyReady
              Scenario.hostConnected) as [_ Hcancel].
  destruct (Hcancel Hmode) as (Hlobby & _).
  exact Hlobby.
Defined.

(** X21.  A PLAYER_READY is sent exactly by the local ready press: the
    key R (either case) on the waiting screen of a connected lobby that
    is not ready yet.  It names the sender by role and carries the clock
    reading; afterwards the lobby is ready, so that a further press sends
    nothing. *)
Theorem X21_player_ready_sent_by_first_ready_press_only
    (env : Env.t) (l : t) (n : NetworkManager.t) :
  (forall key, readyPress key l n = true ->
     let fx := snd (step env (Keydown key) (l, n)) in
     In (CallSend (PlayerReadyMessage (playerName n) (Env.now env))) fx
     /\ (Env.sendThrows env = false ->
         In (Net (NetworkManager.ConnectionSend
                    (PlayerReadyMessage (playerName n) (Env.now env)))) fx))
  /\ (forall e name ts,
        In (CallSend (PlayerReadyMessage name ts)) (snd (step env e (l, n))) ->
        (exists key, e = Keydown key /\ readyPress key l n = true)
        /\ name = playerName n /\ ts = Env.now env
        /\ isReady l = false
        /\ isReady (fst (fst (step env e (l, n)))) = true
        /\ forall key' n', readyPress key' (fst (fst (step env e (l, n)))) n' = false).
Proof.
  split.
  - intros key Hready. cbv zeta. cbn [step].
    rewrite (onKeydown_ready env key l n Hready). cbn [snd].
    split; [now left|].
    intros Hsend. right. apply in_or_app. left. apply in_map.
    rewrite send_trace, Hsend. cbn [snd].
    unfold readyPress in Hready. destruct (mode l); try discriminate Hready.
    apply andb_prop in Hready as [Hready _].
    apply andb_prop in Hready as [Hconn _].
    unfold NetworkManager.isConnected in Hconn.
    apply andb_prop in Hconn as [_ ->]. now left.
  - intros e name ts Hin.
    destruct e as [key|m|rc| |s]; cbn [step] in *.
    2:{ exfalso. unfold onMessage in Hin.
        destruct (String.eqb (message_type m) "PLAYER_READY").
        - apply checkBothReady_calls in Hin as [H|[H|(x & H)]]; discriminate H.
        - destruct (String.eqb (message_type m) "START_GAME"); [|destruct Hin].
          unfold startGame in Hin. cbn [fst snd] in Hin.
          destruct (onGameStart l);
            [destruct Hin as [H|[]]; discriminate H | destruct Hin]. }
    2-4: destruct Hin.
    destruct (readyPress key l n) eqn:Hready.
    2:{ exfalso. exact (onKeydown_quiet env key l n Hready _ Hin). }
    rewrite (onKeydown_ready env key l n Hready) in Hin |- *. cbn [fst snd] in *.
    assert (Hmsg : CallSend (PlayerReadyMessage (playerName n) (Env.now env))
                   = CallSend (PlayerReadyMessage name ts)).
    { destruct Hin as [H|H]; [exact H|]. exfalso.
      apply in_app_or in H as [H|H].
      - apply Net_not_call in H; [destruct H | intros; discriminate].
      - apply checkBothReady_calls in H as [H|[H|(x & H)]]; discriminate H. }
    injection Hmsg as <- <-.
    destruct (checkBothReady_flags env
                (set_status "You are ready! Waiting for other player..."
                            (set_isReady true l)) n) as (Hflag & _ & _).
    cbv zeta in Hflag.
    split; [now exists key|]. split; [reflexivity|]. split; [reflexivity|].
    split.
    { unfold readyPress in Hready. destruct (mode l); try discriminate Hready.
      apply andb_prop in Hready as [_ Hnot]. now destruct (isReady l). }
    split; [exact Hflag|].
    intros key' n'. unfold readyPress. rewrite Hflag. cbn.
    destruct (mode _); try reflexivity. now rewrite andb_false_r.
Qed.

Lemma X21_player_ready_witness :
  In (CallSend (PlayerReadyMessage "Player 1" 1000))
     (snd (step Scenario.env0 (Keydown "R") (Scenario.waiting, Scenario.hostConnected)))
  /\ In (Net (NetworkManager.ConnectionSend (PlayerReadyMessage "Player 1" 1000)))
        (snd (step Scenario.env0 (Keydown "R")
                (Scenario.waiting, Scenario.hostConnected))).
Proof.
  destruct (X21_player_ready_sent_by_first_ready_press_only Scenario.env0
              Scenario.waiting Scenario.hostConnected) as [Hsend _].
  destruct (Hsend "R" eq_refl) as [Hcall Hwire].
  split; [exact Hcall | exact (Hwire eq_refl)].
Defined.

(** After its branch for the mode it started in, the listener leaves the
    lobby in the menu only when the key was neither C nor J. *)
Lemma onKeydown_menu_key (env : Env.t) (key : string) (l : t) (n : NetworkManager.t) :
  key <> "Escape" ->
  mode (fst (fst (onKeydown env key (l, n)))) = menu ->
  String.eqb (NetworkManager.toLowerCase key) "c" = false
  /\ String.eqb (NetworkManager.toLowerCase key) "j" = false.
Proof.
  intros Hkey. destruct (readyPress key l n) eqn:Hready.
  { rewrite (onKeydown_ready env key l n Hready). cbn [fst].
    destruct (checkBothReady_buffer env
                (set_status "You are ready! Waiting for other player..."
                            (set_isReady true l)) n) as [_ ->].
    unfold readyPress in Hready. cbn. destruct (mode l); discriminate. }
  unfold onKeydown. rewrite escape_other by exact Hkey.
  unfold readyPress in Hready.
  destruct (mode l) eqn:Hmode.
  - destruct (String.eqb _ "c").
    + unfold call. destruct (NetworkManager.createRoom _ _ n) as [n' fx]. cbn.
      destruct (absorb_keeps fx (set_mode create l)) as (-> & _). discriminate.
    + destruct (String.eqb _ "j"); [discriminate | now split].
  - destruct (NetworkManager.isConnected n); cbn; rewrite ?Hmode; try discriminate.
    destruct (String.eqb _ "r"); cbn; rewrite ?Hmode; try discriminate.
    destruct (isReady l); [cbn; rewrite Hmode|]; discriminate.
  - destruct (is_code_key key).
    { destruct (String.length (roomCodeInput l) <? 6)%nat; cbn; rewrite Hmode;
        discriminate. }
    destruct (String.eqb key "Backspace"); [cbn; rewrite Hmode; discriminate|].
    destruct (String.eqb key "Enter" && _).
    + unfold call. destruct (NetworkManager.joinRoom _ _ n) as [n' fx]. discriminate.
    + cbn. rewrite Hmode. discriminate.
Qed.

(** X22.  The orchestrator's own key listener passes every lobby key to
    [handleInput] after the lobby's listener has seen it.  That second
    handling never does anything: whatever the key and the lobby, it
    changes nothing and makes no call. *)
Theorem X22_handleInput_after_listener_does_nothing
    (env env' : Env.t) (key : string) (w : world) :
  handleInput env' key (fst (onKeydown env key w)) = (fst (onKeydown env key w), []).
Proof.
  destruct w as [l n].
  destruct (String.eqb_spec key "Escape") as [->|Hkey].
  - rewrite onKeydown_escape. unfold escape, call.
    change (String.eqb "Escape" "Escape") with true. cbv iota.
    assert (Hmenu : forall (l0 : t) (n0 : NetworkManager.t),
               mode l0 = menu ->
               handleInput env' "Escape" (l0, n0) = ((l0, n0), [])).
    { intros l0 n0 Hm. unfold handleInput.
      replace (NetworkManager.toLowerCase "Escape") with "escape" by reflexivity.
      rewrite Hm. cbn. now rewrite Hm. }
    destruct (mode l) eqn:Hmode; cbn [fst].
    + now apply Hmenu.
    + destruct (NetworkManager.disconnect n) as [n' fx]. now apply Hmenu.
    + destruct (NetworkManager.disconnect n) as [n' fx]. now apply Hmenu.
  - pose proof (onKeydown_menu_key env key l n Hkey) as Hmenu.
    destruct (onKeydown env key (l, n)) as [[l' n'] fx]. cbn [fst] in *.
    unfold handleInput. rewrite escape_other by exact Hkey.
    destruct (mode l'); [|reflexivity|reflexivity].
    destruct (Hmenu eq_refl) as [-> ->]. reflexivity.
Qed.

End LobbyMoreFacts.


(* ================================================================= *)
(** ** More on the orchestrator *)

Section OrchestratorMoreFacts.

(** [applyInputToPlayer] touches nothing but the simulation. *)
Lemma applyInputToPlayer_frame (i : nat) (input : InputState.t) (m : First.t) :
  First.applyInputToPlayer i input m
  = First.set_gameManager (First.gameManager (First.applyInputToPlayer i input m)) m.
Proof.
  unfold First.applyInputToPlayer.
  destruct (First.gameManager m) as [g|] eqn:Hg.
  - destruct (GameManager.players g !! i); [reflexivity|].
    destruct m; cbn in *; now rewrite Hg.
  - destruct m; cbn in *; now rewrite Hg.
Qed.

Lemma applyInputToPlayer_some (i : nat) (input : InputState.t) (m : First.t)
    (g : GameManager.t) :
  First.gameManager m = Some g ->
  exists g', First.gameManager (First.applyInputToPlayer i input m) = Some g'
             /\ (forall j, j <> i ->
                   GameManager.players g' !! j = GameManager.players g !! j)
             /\ GameManager.players g' !! i
                = First.applyInput input <$> GameManager.players g !! i
             /\ GameManager.bubbleArray g' = GameManager.bubbleArray g
             /\ GameManager.score g' = GameManager.score g
             /\ GameManager.timeRemaining g' = GameManager.timeRemaining g
             /\ GameManager.currentLevel g' = GameManager.currentLevel g.
Proof.
  intros Hg. rewrite applyInputToPlayer_gameManager, Hg.
  cbn [fmap option_fmap option_map].
  destruct (GameManager.players g !! i) as [p|] eqn:Hp.
  - eexists; split; [reflexivity|].
    cbn [GameManager.players GameManager.set_players GameManager.bubbleArray
           GameManager.score GameManager.timeRemaining GameManager.currentLevel].
    split; [intros j Hj; now rewrite list_lookup_alter_ne by congruence|].
    split; [now rewrite list_lookup_alter_eq, Hp|]. repeat split.
  - exists g. split; [reflexivity|]. split; [reflexivity|].
    split; [now rewrite Hp|]. repeat split.
Qed.

(** A frame on a connected host, as one equation. *)
Lemma host_frame (env : Env.t) (m : First.t) (g : GameManager.t) :
  First.gameManager m = Some g -> First.isHost m = true ->
  NetworkManager.isConnected (First.networkManager m) = true ->
  exists g2,
    First.gameManager
      (First.applyInputToPlayer 1 (First.remoteInput m)
         (First.applyInputToPlayer 0 (First.localInput m) m)) = Some g2
    /\ First.updateMultiplayer env m
       = if (First.syncInterval m <=? Env.now env - First.lastSyncTime m)%Z
         then (First.set_lastSyncTime (Env.now env) (First.set_gameManager (Some g2) m),
               if Env.sendThrows env
               then [NetworkManager.ConsoleError "Failed to send message:"]
               else [NetworkManager.ConnectionSend
                       (StateUpdateMessage (GameStateSync.serializeGameState g2)
                          (Env.now env))])
         else (First.set_gameManager (Some g2) m, []).
Proof.
  intros Hg Hhost Hconn. unfold First.updateMultiplayer.
  rewrite Hg, Hconn, Hhost. cbn [negb].
  destruct (applyInputToPlayer_rest 0 (First.localInput m) m) as [-> _].
  destruct (applyInputToPlayer_some 0 (First.localInput m) m g Hg) as (g1 & Hg1 & _).
  destruct (applyInputToPlayer_some 1 (First.remoteInput m) _ g1 Hg1) as (g2 & Hg2 & _).
  set (m1 := First.applyInputToPlayer 0 (First.localInput m) m) in *.
  set (m2 := First.applyInputToPlayer 1 (First.remoteInput m) m1) in *.
  assert (Hm2 : m2 = First.set_gameManager (Some g2) m).
  { unfold m2. rewrite applyInputToPlayer_frame. fold m2. rewrite Hg2.
    unfold m1. rewrite applyInputToPlayer_frame. reflexivity. }
  exists g2. split; [exact Hg2|].
  rewrite Hm2.
  cbn [First.syncInterval First.lastSyncTime First.set_gameManager First.gameManager
         First.networkManager].
  destruct (First.syncInterval m <=? Env.now env - First.lastSyncTime m)%Z;
    [|reflexivity].
  rewrite send_trace.
  unfold NetworkManager.isConnected in Hconn.
  apply andb_prop in Hconn as [_ Hopen]. rewrite Hopen.
  now destruct (Env.sendThrows env).
Qed.

(** A frame on a peer that is not the host, as one equation. *)
Lemma guest_frame (env : Env.t) (m : First.t) :
  First.isHost m = false ->
  First.updateMultiplayer env m
  = (match First.gameManager m with
     | Some _ =>
         if NetworkManager.isConnected (First.networkManager m)
         then First.applyInputToPlayer 1 (First.localInput m) m
         else m
     | None => m
     end, []).
Proof.
  intros Hguest. unfold First.updateMultiplayer. rewrite Hguest.
  destruct (First.gameManager m); [|reflexivity].
  now destruct (NetworkManager.isConnected (First.networkManager m)).
Qed.

Lemma idle_frame (env : Env.t) (m : First.t) :
  First.gameManager m = None
  \/ NetworkManager.isConnected (First.networkManager m) = false ->
  First.updateMultiplayer env m = (m, []).
Proof.
  intros [Hnone|Hoff]; unfold First.updateMultiplayer.
  - now rewrite Hnone.
  - rewrite Hoff. now destruct (First.gameManager m).
Qed.

(** X23.  On a connected host, a frame first applies the local input to
    seat 0 and the stored remote input to seat 1, and then, exactly when
    [syncInterval] milliseconds or more have passed since [lastSyncTime],
    hands the transport one STATE_UPDATE: the snapshot of the simulation
    as the two inputs left it, stamped with the clock reading.  The time
    of the last broadcast is reset whenever one was due, also when the
    transport raised and nothing went out. *)
Theorem X23_host_frame_broadcasts_when_due
    (env : Env.t) (m : First.t) (g : GameManager.t) :
  First.gameManager m = Some g -> First.isHost m = true ->
  NetworkManager.isConnected (First.networkManager m) = true ->
  let m2 := First.applyInputToPlayer 1 (First.remoteInput m)
              (First.applyInputToPlayer 0 (First.localInput m) m) in
  let due := (First.syncInterval m <=? Env.now env - First.lastSyncTime m)%Z in
  let r := First.updateMultiplayer env m in
  exists g2,
    First.gameManager m2 = Some g2
    /\ First.gameManager (fst r) = Some g2
    /\ First.networkManager (fst r) = First.networkManager m
    /\ First.lastSyncTime (fst r) = (if due then Env.now env else First.lastSyncTime m)
    /\ snd r = (if due
                then if Env.sendThrows env
                     then [NetworkManager.ConsoleError "Failed to send message:"]
                     else [NetworkManager.ConnectionSend
                             (StateUpdateMessage (GameStateSync.serializeGameState g2)
                                (Env.now env))]
                else []).
Proof.
  intros Hg Hhost Hconn. cbv zeta.
  destruct (host_frame env m g Hg Hhost Hconn) as (g2 & Hg2 & ->).
  exists g2. split; [exact Hg2|].
  destruct (First.syncInterval m <=? Env.now env - First.lastSyncTime m)%Z;
    repeat split.
Qed.

Lemma X23_host_frame_witness :
  snd (First.updateMultiplayer Scenario.env0 Scenario.hostInGame)
  = [NetworkManager.ConnectionSend
       (StateUpdateMessage
          (GameStateSync.serializeGameState
             (GameManager.set_players
                (alter (First.applyInput First.noInput) 1%nat
                   (alter (First.applyInput First.noInput) 0%nat
                      (GameManager.players Scenario.guestFired)))
                Scenario.guestFired))
          1000)].
Proof.
  destruct (X23_host_frame_broadcasts_when_due Scenario.env0 Scenario.hostInGame
              Scenario.guestFired eq_refl eq_refl eq_refl)
    as (g2 & Hg2 & _ & _ & _ & Htrace).
  rewrite Htrace. vm_compute in Hg2. injection Hg2 as <-. vm_compute. reflexivity.
Defined.

(** X24.  A frame on a peer that is not the host sends nothing and
    keeps the broadcast clock.  In the simulation it touches seat 1 only,
    by the local input; what the peer has received as remote input plays
    no part.  Without a simulation or without a connection the frame does
    nothing at all, on either role. *)
Theorem X24_guest_frame_sends_nothing (env : Env.t) (m : First.t) :
  (First.isHost m = false ->
   let r := First.updateMultiplayer env m in
   snd r = []
   /\ First.lastSyncTime (fst r) = First.lastSyncTime m
   /\ First.networkManager (fst r) = First.networkManager m
   /\ (forall g, First.gameManager m = Some g ->
         exists g', First.gameManager (fst r) = Some g'
           /\ (forall j, j <> 1%nat ->
                 GameManager.players g' !! j = GameManager.players g !! j)
           /\ GameManager.bubbleArray g' = GameManager.bubbleArray g
           /\ GameManager.score g' = GameManager.score g
           /\ GameManager.timeRemaining g' = GameManager.timeRemaining g
           /\ GameManager.currentLevel g' = GameManager.currentLevel g)
   /\ (forall data ts,
         First.gameManager
           (fst (First.updateMultiplayer env
                   (First.handleNetworkMessage (InputMessage data ts) m)))
         = First.gameManager (fst r)))
  /\ (First.gameManager m = None
      \/ NetworkManager.isConnected (First.networkManager m) = false ->
      First.updateMultiplayer env m = (m, [])).
Proof.
  split; [|apply idle_frame].
  intros Hguest. cbv zeta. rewrite (guest_frame env m Hguest). cbn [fst snd].
  split; [reflexivity|].
  assert (Hsame : forall m' : First.t,
             m' = First.applyInputToPlayer 1 (First.localInput m) m \/ m' = m ->
             First.lastSyncTime m' = First.lastSyncTime m
             /\ First.networkManager m' = First.networkManager m).
  { intros m' [->| ->]; [|now split].
    rewrite applyInputToPlayer_frame. now split. }
  split; [|split; [|split]].
  - destruct (First.gameManager m);
      [destruct (NetworkManager.isConnected _)|]; apply Hsame; auto.
  - destruct (First.gameManager m);
      [destruct (NetworkManager.isConnected _)|]; apply Hsame; auto.
  - intros g Hg. rewrite Hg.
    destruct (NetworkManager.isConnected (First.networkManager m)).
    + destruct (applyInputToPlayer_some 1 (First.localInput m) m g Hg)
        as (g' & Hg' & Hrest & _ & Hb & Hs & Ht & Hl).
      exists g'. repeat split; assumption.
    + exists g. repeat split; assumption.
  - intros data ts. rewrite guest_frame by exact Hguest.
    cbn [First.handleNetworkMessage fst First.set_remoteInput First.gameManager
           First.networkManager First.localInput].
    destruct (First.gameManager m) as [g|] eqn:Hg; [|now rewrite Hg].
    destruct (NetworkManager.isConnected (First.networkManager m)); [|now rewrite Hg].
    rewrite !applyInputToPlayer_gameManager. reflexivity.
Qed.

Lemma X24_guest_frame_witness :
  snd (First.updateMultiplayer Scenario.env0 Scenario.guestInGame) = [].
Proof.
  destruct (X24_guest_frame_sends_nothing Scenario.env0 Scenario.guestInGame)
    as [Hguest _].
  destruct (Hguest eq_refl) as (Hquiet & _).
  exact Hquiet.
Defined.

Lemma session_acc (events : list First.event) (m : First.t)
    (acc : list NetworkManager.effect) :
  foldl (fun r e => let '(m', fx) := First.step e (fst r) in (m', snd r ++ fx))
        (m, acc) events
  = (fst (First.session events m), acc ++ snd (First.session events m)).
Proof.
  unfold First.session. revert m acc.
  induction events as [|e events IH]; intros m acc; cbn.
  - now rewrite app_nil_r.
  - destruct (First.step e m) as [m1 fx1]. cbn [fst snd].
    rewrite (IH m1 (acc ++ fx1)), (IH m1 fx1). cbn. now rewrite app_assoc.
Qed.

Lemma session_cons (e : First.event) (events : list First.event) (m : First.t) :
  First.session (e :: events) m
  = (fst (First.session events (fst (First.step e m))),
     snd (First.step e m) ++ snd (First.session events (fst (First.step e m)))).
Proof.
  unfold First.session at 1. cbn [foldl fst snd app].
  destruct (First.step e m) as [m1 fx1]. cbn [fst snd]. apply session_acc.
Qed.

Lemma broadcasts_app (a b : list NetworkManager.effect) :
  First.broadcasts (a ++ b) = First.broadcasts a ++ First.broadcasts b.
Proof. unfold First.broadcasts. apply omap_app. Qed.

Lemma spaced_later (interval last last' : Z) (times : list Z) :
  (last <= last')%Z -> First.spaced interval last' times ->
  First.spaced interval last times.
Proof.
  destruct times as [|time rest]; [trivial|].
  cbn. intros Hle [Hgap Hrest]. split; [lia | exact Hrest].
Qed.

(** One event either broadcasts nothing and does not turn the broadcast
    clock back, or broadcasts once, at the new clock value, which is an
    interval or more after the old one. *)
Ltac unchanged :=
  cbn [fst snd]; split; [reflexivity | left; split; [reflexivity | lia]].

Lemma step_clock (e : First.event) (m : First.t) :
  First.keepsClock e -> (0 <= First.syncInterval m)%Z ->
  First.syncInterval (fst (First.step e m)) = First.syncInterval m
  /\ ((First.broadcasts (snd (First.step e m)) = []
       /\ (First.lastSyncTime m <= First.lastSyncTime (fst (First.step e m)))%Z)
      \/ (First.broadcasts (snd (First.step e m))
          = [First.lastSyncTime (fst (First.step e m))]
          /\ (First.syncInterval m
              <= First.lastSyncTime (fst (First.step e m)) - First.lastSyncTime m)%Z)).
Proof.
  intros Hkeep Hpos. destruct e as [env|message|fresh| |f]; cbn [First.step fst snd].
  - unfold First.run.
    destruct (First.inLobby m); [unchanged|].
    destruct (First.gameManager m) as [g|] eqn:Hg;
      [|unchanged].
    destruct (NetworkManager.isConnected (First.networkManager m)) eqn:Hconn.
    2:{ rewrite idle_frame by now right.
        unchanged. }
    destruct (First.isHost m) eqn:Hhost.
    + destruct (host_frame env m g Hg Hhost Hconn) as (g2 & _ & ->).
      destruct (Z.leb_spec (First.syncInterval m) (Env.now env - First.lastSyncTime m)).
      * split; [reflexivity|].
        destruct (Env.sendThrows env); [left | right]; cbn; split; try reflexivity; lia.
      * split; [reflexivity | left; split; [reflexivity | cbn; lia]].
    + rewrite guest_frame by exact Hhost. rewrite Hg, Hconn. cbn [fst snd].
      assert (Hsame : forall m' : First.t,
                 m' = First.applyInputToPlayer 1 (First.localInput m) m \/ m' = m ->
                 First.lastSyncTime m' = First.lastSyncTime m
                 /\ First.syncInterval m' = First.syncInterval m).
      { intros m' [->| ->]; [|now split].
        rewrite applyInputToPlayer_frame. now split. }
      destruct (Hsame (First.applyInputToPlayer 1 (First.localInput m) m))
        as [-> ->]; [now left|].
      unchanged.
  - split; [|left; split; [reflexivity|]];
      destruct message; cbn; try reflexivity; try lia;
      destruct (First.isHost m), (First.gameManager m); cbn; try reflexivity; lia.
  - split; [reflexivity | left; split; [reflexivity | cbn; lia]].
  - unfold First.disconnect.
    destruct (NetworkManager.disconnect (First.networkManager m)) as [n fx] eqn:Hd.
    cbn [fst snd First.syncInterval First.lastSyncTime].
    split; [reflexivity|]. left. split; [|lia].
    assert (Hfx : fx = snd (NetworkManager.disconnect (First.networkManager m)))
      by now rewrite Hd.
    unfold First.broadcasts.
    assert (Hall : forall e, In e fx ->
                     match e with
                     | NetworkManager.ConnectionSend _ => False
                     | _ => True
                     end).
    { intros e Hin. rewrite Hfx in Hin.
      apply disconnect_trace_quiet in Hin as [->|[->|[->| ->]]]; exact I. }
    clear Hfx Hd. induction fx as [|e fx IH]; [reflexivity|].
    cbn. pose proof (Hall e (or_introl eq_refl)) as He.
    destruct e; try contradiction; apply IH; intros e' He'; apply Hall; now right.
  - destruct (Hkeep m) as [Htime Hint]. cbn in *.
    split; [exact Hint | left; split; [reflexivity | lia]].
Qed.

(** X25.  Broadcasts are rate-limited over a whole session: however
    frames are interleaved with received messages, game starts,
    disconnects and the rest of the program, each STATE_UPDATE handed to
    the transport is stamped at least [syncInterval] after the one before
    it, and the first one at least that long after the initial
    [lastSyncTime]. *)
Theorem X25_broadcasts_are_an_interval_apart
    (events : list First.event) (m : First.t) :
  (0 <= First.syncInterval m)%Z ->
  Forall First.keepsClock events ->
  First.spaced (First.syncInterval m) (First.lastSyncTime m)
               (First.broadcasts (snd (First.session events m))).
Proof.
  intros Hpos Hkeep. revert m Hpos.
  induction Hkeep as [|e events He _ IH]; intros m Hpos; [exact I|].
  rewrite session_cons. cbn [snd]. rewrite broadcasts_app.
  destruct (step_clock e m He Hpos) as (Hint & [[Hnone Htime]|[Hone Hgap]]).
  - rewrite Hnone. cbn [app].
    apply (spaced_later _ _ (First.lastSyncTime (fst (First.step e m)))); [exact Htime|].
    rewrite <- Hint. apply IH. now rewrite Hint.
  - rewrite Hone. cbn [app First.spaced]. split; [exact Hgap|].
    rewrite <- Hint. apply IH. now rewrite Hint.
Qed.

Lemma X25_broadcasts_witness :
  First.spaced 50 0
    (First.broadcasts
       (snd (First.session
               [First.Frame (Env.mk 1000 (fun _ => 0%Q) false false);
                First.Receive (InputMessage Scenario.moveLeft 1010);
                First.Frame (Env.mk 1020 (fun _ => 0%Q) false false);
                First.Elsewhere (First.set_remoteInput First.noInput);
                First.Frame (Env.mk 1050 (fun _ => 0%Q) false false)]
               Scenario.hostInGame))).
Proof.
  apply (X25_broadcasts_are_an_interval_apart _ Scenario.hostInGame).
  - vm_compute. discriminate.
  - repeat constructor.
Defined.

(** X26.  Applying an input to a player only steers and fires: the
    position, score, lives and remembered movement stay, the movement
    becomes the one the input asks for, and the arrow is never created or
    moved.  An idle arrow is made active and hittable when the input
    shoots; an arrow in flight is left exactly as it is.  Applying the
    same input again changes nothing more. *)
Theorem X26_applyInput_only_steers_and_fires (input : InputState.t) (p : Player.t) :
  let p' := First.applyInput input p in
  Player.x p' = Player.x p /\ Player.y p' = Player.y p
  /\ Player.score p' = Player.score p /\ Player.lives p' = Player.lives p
  /\ Player.tempMovement p' = Player.tempMovement p
  /\ Player.movement p' = First.movementOf input
  /\ (Player.arrow p = None -> Player.arrow p' = None)
  /\ (forall a, Player.arrow p = Some a ->
        exists a', Player.arrow p' = Some a'
          /\ Arrow.x a' = Arrow.x a /\ Arrow.y a' = Arrow.y a
          /\ Arrow.isActive a' = (Arrow.isActive a || InputState.shoot input)
          /\ (Arrow.isActive a = true \/ InputState.shoot input = false -> a' = a)
          /\ (Arrow.isActive a = false -> InputState.shoot input = true ->
              Arrow.isHittable a' = true))
  /\ First.applyInput input p' = p'.
Proof.
  destruct p as [x y sc li [[ax ay [] hit]|] mv tmp], input as [[] [] []];
    unfold First.applyInput, First.movementOf, Player.arrowActive; cbn;
    repeat split; try discriminate;
    try (intros a Ha; injection Ha as <-; eexists; split; [reflexivity|];
         cbn; repeat split; try discriminate; try reflexivity;
         intros [H|H]; discriminate H).
Qed.

Lemma X26_applyInput_witness :
  exists a', Player.arrow (First.applyInput (InputState.mk false false true)
                             Scenario.host) = Some a'
             /\ Arrow.isActive a' = true /\ Arrow.isHittable a' = true.
Proof.
  destruct (X26_applyInput_only_steers_and_fires (InputState.mk false false true)
              Scenario.host) as (_ & _ & _ & _ & _ & _ & _ & Harrow & _).
  destruct (Harrow Scenario.idleArrow eq_refl) as (a' & Ha' & _ & _ & Hact & _ & Hhit).
  exists a'. split; [exact Ha'|]. split; [exact Hact | exact (Hhit eq_refl eq_refl)].
Defined.

(** X27.  [disconnect()] puts the orchestrator back in the lobby without
    a simulation and with the network manager torn down.  From there a
    frame does nothing, a STATE_UPDATE that still arrives is dropped, and
    anything sent is refused with a warning. *)
Theorem X27_disconnect_returns_to_lobby (m : First.t) :
  let m' := fst (First.disconnect m) in
  First.inLobby m' = true /\ First.gameManager m' = None
  /\ First.networkManager m' = fst (NetworkManager.disconnect (First.networkManager m))
  /\ snd (First.disconnect m) = snd (NetworkManager.disconnect (First.networkManager m))
  /\ NetworkManager.isConnected (First.networkManager m') = false
  /\ (forall env, First.run env m' = (m', []))
  /\ (forall env, First.updateMultiplayer env m' = (m', []))
  /\ (forall data ts, First.handleNetworkMessage (StateUpdateMessage data ts) m' = m')
  /\ (forall sendThrows message,
        snd (NetworkManager.send sendThrows message (First.networkManager m'))
        = [NetworkManager.ConsoleWarn "Cannot send message: connection not open"]).
Proof.
  cbv zeta. unfold First.disconnect.
  destruct (NetworkManager.disconnect (First.networkManager m)) as [n fx] eqn:Hd.
  assert (Hn : n = fst (NetworkManager.disconnect (First.networkManager m)))
    by now rewrite Hd.
  cbn [fst snd First.inLobby First.gameManager First.networkManager].
  split; [reflexivity|]. split; [reflexivity|]. split; [reflexivity|].
  split; [reflexivity|].
  split; [rewrite Hn; apply disconnect_not_connected|].
  split; [reflexivity|]. split; [reflexivity|].
  split.
  - intros data ts. cbn. now destruct (First.isHost m).
  - intros sendThrows message. rewrite send_trace, Hn, disconnect_state. reflexivity.
Qed.

(** A turn of the later revision's loop asks for the next one exactly
    when it found a simulation and a connected manager. *)
Lemma syncLoop_alive {Lobby : Type} (env : Env.t) (m : Later.t Lobby) :
  snd (Later.syncLoop env m)
  = match Later.gameManager m with
    | Some _ => NetworkManager.isConnected (Later.networkManager m)
    | None => false
    end.
Proof.
  unfold Later.syncLoop.
  destruct (Later.gameManager m); [|reflexivity].
  destruct (NetworkManager.isConnected (Later.networkManager m)); [|reflexivity].
  destruct (Later.isHost m); [|reflexivity].
  destruct (_ <=? _)%Z; [|reflexivity].
  now destruct (NetworkManager.send _ _ _).
Qed.

Lemma syncTurns_dead {Lobby : Type} (turns : list (Env.t * (Later.t Lobby -> Later.t Lobby)))
    (m : Later.t Lobby) :
  snd (fst (Later.syncTurns turns false m)) = []
  /\ snd (Later.syncTurns turns false m) = false.
Proof.
  revert m. induction turns as [|[env between] rest IH]; intros m; cbn; [now split|].
  apply IH.
Qed.

Lemma syncTurns_app {Lobby : Type}
    (pre post : list (Env.t * (Later.t Lobby -> Later.t Lobby)))
    (alive : bool) (m : Later.t Lobby) :
  Later.syncTurns (pre ++ post) alive m
  = let r := Later.syncTurns pre alive m in
    let r' := Later.syncTurns post (snd r) (fst (fst r)) in
    (fst (fst r'), snd (fst r) ++ snd (fst r'), snd r').
Proof.
  revert alive m. induction pre as [|[env between] pre IH]; intros alive m.
  - cbn. now destruct (Later.syncTurns post alive m) as [[m' fx] a].
  - cbn [app Later.syncTurns]. destruct alive.
    + destruct (Later.syncLoop env (between m)) as [[m1 fx1] again].
      rewrite IH. cbv zeta.
      destruct (Later.syncTurns pre again m1) as [[m2 fx2] a2]. cbn [fst snd].
      destruct (Later.syncTurns post a2 m2) as [[m3 fx3] a3]. cbn [fst snd].
      now rewrite app_assoc.
    + apply IH.
Qed.

(** X28.  The later revision's synchronisation loop asks for its next
    turn only while there is a simulation and the manager is connected.
    So the first turn that finds the connection down (or the simulation
    gone) is the last: whatever happens afterwards, also a connection
    that comes back, the loop sends nothing more.  While it runs, a peer
    that is not the host sends nothing either. *)
Theorem X28_sync_loop_ends_with_the_connection {Lobby : Type}
    (pre post : list (Env.t * (Later.t Lobby -> Later.t Lobby)))
    (env : Env.t) (between : Later.t Lobby -> Later.t Lobby) (m : Later.t Lobby) :
  let before := Later.syncTurns pre true m in
  let seen := between (fst (fst before)) in
  (Later.gameManager seen = None
   \/ NetworkManager.isConnected (Later.networkManager seen) = false ->
   let r := Later.syncTurns (pre ++ (env, between) :: post) true m in
   snd (fst r) = snd (fst before) /\ snd r = false)
  /\ (Later.isHost m = false -> snd (fst (Later.syncLoop env m)) = [])
  /\ snd (Later.syncLoop env m)
     = match Later.gameManager m with
       | Some _ => NetworkManager.isConnected (Later.networkManager m)
       | None => false
       end.
Proof.
  cbv zeta. split; [|split; [|apply syncLoop_alive]].
  - intros Hdown. rewrite syncTurns_app. cbv zeta. cbn [fst snd].
    destruct (Later.syncTurns pre true m) as [[m1 fx1] alive1]. cbn [fst snd] in *.
    assert (Hturn : Later.syncLoop env (between m1) = (between m1, [], false)).
    { unfold Later.syncLoop. destruct Hdown as [->| Hoff]; [reflexivity|].
      rewrite Hoff. now destruct (Later.gameManager (between m1)). }
    cbn [Later.syncTurns]. destruct alive1.
    + rewrite Hturn.
      destruct (syncTurns_dead post (between m1)) as [Hfx Hdead].
      destruct (Later.syncTurns post false (between m1)) as [[m3 fx3] a3].
      cbn [fst snd] in *. subst. now rewrite app_nil_r.
    + destruct (syncTurns_dead post (between m1)) as [Hfx Hdead].
      destruct (Later.syncTurns post false (between m1)) as [[m3 fx3] a3].
      cbn [fst snd] in *. subst. now rewrite app_nil_r.
  - intros Hguest. unfold Later.syncLoop. rewrite Hguest.
    destruct (Later.gameManager m); [|reflexivity].
    now destruct (NetworkManager.isConnected (Later.networkManager m)).
Qed.

Lemma X28_sync_loop_witness :
  let m := Later.mk Scenario.hostConnected tt (Some Scenario.guestFired)
             false true 0 50 in
  let pre := [(Scenario.env0, fun m : Later.t unit => m)] in
  let drop := fun m : Later.t unit => Later.set_networkManager NetworkManager.init m in
  let back := fun m : Later.t unit =>
                Later.set_networkManager Scenario.hostConnected m in
  let post := [(Env.mk 2000 (fun _ => 0%Q) false false, back)] in
  snd (fst (Later.syncTurns (pre ++ (Scenario.env0, drop) :: post) true m))
  = snd (fst (Later.syncTurns pre true m))
  /\ snd (Later.syncTurns (pre ++ (Scenario.env0, drop) :: post) true m) = false.
Proof.
  cbv zeta.
  pose proof (X28_sync_loop_ends_with_the_connection
                [(Scenario.env0, fun m : Later.t unit => m)]
                [(Env.mk 2000 (fun _ => 0%Q) false false,
                  fun m : Later.t unit =>
                    Later.set_networkManager Scenario.hostConnected m)]
                Scenario.env0
                (fun m : Later.t unit => Later.set_networkManager NetworkManager.init m)
                (Later.mk Scenario.hostConnected tt (Some Scenario.guestFired)
                   false true 0 50)) as H.
  cbv zeta in H. destruct H as [H _].
  apply H. right. vm_compute. reflexivity.
Defined.

(** X29.  The overlay is drawn exactly while the manager is connected,
    and it warns of high latency only on the red grade.  Since nothing
    ever measures the latency, on a manager that started fresh the
    overlay, whenever it is drawn, shows the green grade with a ping of 0
    and never the warning, whatever has happened on the network. *)
Theorem X29_overlay_always_shows_zero_ping :
  (forall n, ConnectionStatus.render n = None
             <-> NetworkManager.isConnected n = false)
  /\ (forall n o, ConnectionStatus.render n = Some o ->
        ConnectionStatus.ping o = NetworkManager.getLatency n
        /\ (ConnectionStatus.warning o = true ->
            ConnectionStatus.qualityColor o = "#e74c3c"))
  /\ (forall ops,
        let n := fst (NetworkManager.run ops NetworkManager.init) in
        ConnectionStatus.render n
        = if NetworkManager.isConnected n
          then Some (ConnectionStatus.mkOverlay "#27ae60" 0
                       (if NetworkManager.isHostPlayer n then "Host" else "Client")
                       false)
          else None).
Proof.
  split; [|split].
  - intros n. unfold ConnectionStatus.render.
    destruct (NetworkManager.isConnected n); cbn; split; congruence.
  - intros n o. unfold ConnectionStatus.render.
    destruct (NetworkManager.isConnected n); cbn [negb]; [|discriminate].
    intros Ho. injection Ho as <-. cbn. split; [reflexivity|].
    intros Hwarn. apply Z.ltb_lt in Hwarn.
    destruct (Z.ltb_spec (NetworkManager.getLatency n) 100); [lia|].
    destruct (Z.ltb_spec (NetworkManager.getLatency n) 200); [lia|].
    destruct (Z.ltb_spec (NetworkManager.getLatency n) 300); [lia | reflexivity].
  - intros ops. cbv zeta.
    assert (Hzero : NetworkManager.getLatency
                      (fst (NetworkManager.run ops NetworkManager.init)) = 0).
    { apply (run_invariant (fun m => NetworkManager.getLatency m = 0)); [|reflexivity].
      intros o m Hm. unfold NetworkManager.getLatency in *.
      now rewrite exec_latency. }
    unfold ConnectionStatus.render. rewrite Hzero.
    now destruct (NetworkManager.isConnected _).
Qed.

Lemma X29_overlay_witness :
  ConnectionStatus.render Scenario.hostConnected
  = Some (ConnectionStatus.mkOverlay "#27ae60" 0 "Host" false).
Proof.
  destruct X29_overlay_always_shows_zero_ping as (Hdrawn & Hshown & _).
  destruct (ConnectionStatus.render Scenario.hostConnected) as [o|] eqn:Ho.
  - destruct (Hshown Scenario.hostConnected o Ho) as [Hping _].
    vm_compute in Ho. symmetry. exact Ho.
  - apply Hdrawn in Ho. discriminate Ho.
Defined.

End OrchestratorMoreFacts.


(* ================================================================= *)
(** ** The guest's keys, from its keyboard to the host's simulation *)

Section KeyFacts.

Variable controls : Player.t -> Controls.t.
Variable shootArrow : Player.t -> Player.t.

(** On the guest a listener changes the key state and nothing else. *)
Lemma guest_listener (code : string) (down : bool) (act : Player.t -> Player.t)
    (k : KeyListeners.t) :
  KeyListeners.isGuest k = true ->
  KeyListeners.listener controls code down act k
  = (KeyListeners.mk (KeyListeners.gameManager k) (KeyListeners.isMultiplayer k)
       (KeyListeners.localPlayerIndex k) (KeyListeners.onInputChange k)
       (KeyListeners.setKey code down (KeyListeners.keyState k)),
     if KeyListeners.onInputChange k
     then (fun p =>
             let held := KeyListeners.setKey code down (KeyListeners.keyState k) in
             InputState.mk (held (Controls.left (controls p)))
                           (held (Controls.right (controls p)))
                           (held (Controls.shoot (controls p))))
          <$> GameManager.players (KeyListeners.gameManager k) !! 1%nat
     else None).
Proof.
  intros Hguest. unfold KeyListeners.listener, KeyListeners.control.
  rewrite Hguest.
  assert (Hmulti : KeyListeners.isMultiplayer k = true).
  { unfold KeyListeners.isGuest in Hguest. now apply andb_prop in Hguest as [-> _]. }
  assert (Hindex : KeyListeners.localPlayerIndex k = Some 1%nat).
  { unfold KeyListeners.isGuest in Hguest. apply andb_prop in Hguest as [_ H].
    destruct (KeyListeners.localPlayerIndex k) as [[|[|i]]|]; try discriminate H.
    reflexivity. }
  rewrite Hmulti, Hindex.
  assert (Hsame : GameManager.set_players
                    (GameManager.players (KeyListeners.gameManager k))
                    (KeyListeners.gameManager k)
                  = KeyListeners.gameManager k)
    by now destruct (KeyListeners.gameManager k).
  rewrite Hsame.
  unfold KeyListeners.report, KeyListeners.isGuest.
  cbn [KeyListeners.isMultiplayer KeyListeners.localPlayerIndex
         KeyListeners.onInputChange KeyListeners.gameManager].
  cbn [andb].
  destruct (KeyListeners.onInputChange k); [|reflexivity].
  now destruct (GameManager.players (KeyListeners.gameManager k) !! 1%nat).
Qed.

(** X30.  The guest's key listeners never act on the guest's own
    simulation: a key going down or up is recorded, and the three control
    keys of the guest's player are reported as they are now held.  The
    orchestrator's callback hands that report to the transport as one
    INPUT message; the message passes the host's validation and reaches
    its message callback; and an in-game host applies exactly the
    reported input to seat 1, leaving every other seat alone.  With the
    left key held and the shoot key not, seat 1 ends up moving LEFT. *)
Theorem X30_guest_keys_reach_the_host
    (k : KeyListeners.t) (code : string) (down : bool) :
  KeyListeners.isGuest k = true ->
  let r := if down then KeyListeners.onKeydown controls shootArrow code k
           else KeyListeners.onKeyup controls code k in
  let held := KeyListeners.setKey code down (KeyListeners.keyState k) in
  KeyListeners.gameManager (fst r) = KeyListeners.gameManager k
  /\ KeyListeners.keyState (fst r) = held
  /\ snd r = (if KeyListeners.onInputChange k
              then (fun p => InputState.mk (held (Controls.left (controls p)))
                                           (held (Controls.right (controls p)))
                                           (held (Controls.shoot (controls p))))
                   <$> GameManager.players (KeyListeners.gameManager k) !! 1%nat
              else None)
  /\ forall input, snd r = Some input ->
       (forall (Lobby : Type) (env : Env.t) (guest : Later.t Lobby),
           NetworkManager.channelOpen (Later.networkManager guest) = true ->
           Env.sendThrows env = false ->
           snd (Later.onInputChange env input guest)
           = [NetworkManager.ConnectionSend (InputMessage input (Env.now env))])
       /\ (forall (ts : Z) (n : NetworkManager.t),
             NetworkManager.onMessageCallback n = true ->
             NetworkManager.onConnectionData (Wire.of_message (InputMessage input ts)) n
             = (n, [NetworkManager.OnMessage (Wire.of_message (InputMessage input ts))]))
       /\ (forall (Lobby : Type) (handle : NetworkMessage -> Lobby -> Lobby)
                  (host : Later.t Lobby) (g : GameManager.t) (p1 : Player.t) (ts : Z),
             Later.inLobby host = false -> Later.isHost host = true ->
             Later.gameManager host = Some g ->
             GameManager.players g !! 1%nat = Some p1 ->
             exists g',
               Later.gameManager
                 (Later.handleNetworkMessage shootArrow handle
                    (InputMessage input ts) host) = Some g'
               /\ GameManager.players g' !! 1%nat
                  = Some (Later.applyGuest shootArrow input p1)
               /\ (forall j, j <> 1%nat ->
                     GameManager.players g' !! j = GameManager.players g !! j)
               /\ (InputState.left input = true -> InputState.shoot input = false ->
                   Player.movement (Later.applyGuest shootArrow input p1) = LEFT)).
Proof.
  intros Hguest. cbv zeta.
  assert (Hr : (if down then KeyListeners.onKeydown controls shootArrow code k
                else KeyListeners.onKeyup controls code k)
               = KeyListeners.listener controls code down
                   (if down
                    then KeyListeners.pressed controls shootArrow
                           (KeyListeners.setKey code true (KeyListeners.keyState k))
                    else KeyListeners.released controls code) k)
    by now destruct down.
  rewrite Hr, guest_listener by exact Hguest. cbn [fst snd].
  split; [reflexivity|]. split; [reflexivity|]. split; [reflexivity|].
  intros input _. split; [|split].
  - intros Lobby env guest Hopen Hsend. unfold Later.onInputChange.
    rewrite send_trace, Hopen, Hsend. reflexivity.
  - intros ts n Hcb.
    unfold NetworkManager.onConnectionData, NetworkManager.onConnectionDataWith.
    rewrite validate_constructed. cbn. now rewrite Hcb.
  - intros Lobby handle host g p1 ts Hgame Hhost Hg Hp1.
    assert (Hlen : (List.length (GameManager.players g) <? 2)%nat = false).
    { apply Nat.ltb_ge. apply lookup_lt_Some in Hp1. lia. }
    unfold Later.handleNetworkMessage, Later.applyGuestInput.
    rewrite Hgame, Hhost, Hg, Hlen, Hp1.
    eexists; split; [reflexivity|].
    cbn [GameManager.players GameManager.set_players].
    split; [now rewrite list_lookup_alter_eq, Hp1|].
    split; [intros j Hj; now rewrite list_lookup_alter_ne by congruence|].
    intros Hleft Hshoot. unfold Later.applyGuest. now rewrite Hleft, Hshoot.
Qed.

End KeyFacts.

Lemma X30_guest_keys_witness :
  snd (KeyListeners.onKeydown (fun _ => Controls.mk "ArrowLeft" "ArrowRight" "Space")
         (fun p => p) "ArrowLeft"
         (KeyListeners.mk Scenario.guestFired true (Some 1%nat) true (fun _ => false)))
  = Some Scenario.moveLeft.
Proof.
  pose proof (X30_guest_keys_reach_the_host
                (fun _ => Controls.mk "ArrowLeft" "ArrowRight" "Space") (fun p => p)
                (KeyListeners.mk Scenario.guestFired true (Some 1%nat) true
                   (fun _ => false))
                "ArrowLeft" true eq_refl) as H.
  cbv beta iota zeta in H. destruct H as (_ & _ & Hreport & _).
  rewrite Hreport. reflexivity.
Defined.
